(** * Fragment3D: the asset-generation pipeline and the asset routes

    A shallow embedding of [backend/routes/create.js] (the upload route with
    its synchronous segmentation phase and its detached 3D phase),
    [backend/routes/assets.js] (upload-image, attach-glb, get, delete) and
    the asset schema of [backend/models/User.js], with the properties of the
    specification stated and proved over it.

    How the program is read:
    - a handler is a function from what it reads (request, collection,
      files, what the outside answers) to what it leaves behind; an
      exception is the result [Throws], handled where the source has its
      [try]/[catch];
    - a document is a plain record and [save] stores the document it is
      called on; the one save whose fate the store decides, that of a
      document loaded before the asset left the collection, is a field of
      the environment;
    - the two upload directories are finite maps from file names to bytes,
      and writing, reading an existing file and unlinking succeed;
    - a string is held in its UTF-8 form, so [Buffer.from(s, "utf8")] is
      the string itself; numbers are abstract behind [Number] and [isNaN];
    - a sub-document holds the paths that [assetSchema] declares and no
      other;
    - [Date.now()], [Math.random()] and fresh [ObjectId]s are arguments. *)

From Stdlib Require Import ZArith List String Ascii Bool Lia.
From stdpp Require Import base option list gmap strings pretty.

Local Open Scope string_scope.
Local Open Scope Z_scope.

(** ** Buffers and the few JavaScript string primitives the routes use *)

Module Js.

(** A Node [Buffer] is the list of its bytes, in order. *)

Definition byte_of_ascii (c : ascii) : Z := Z.of_N (N_of_ascii c).

(** [Buffer.from(s, "utf8")] on a string held as its UTF-8 bytes. *)
Definition utf8_bytes (s : string) : list Z :=
  map byte_of_ascii (list_ascii_of_string s).

(** [buf[i] === v]: an index past the end reads [undefined], equal to no
    byte. *)
Definition byte_is (buf : list Z) (i : nat) (v : Z) : bool :=
  match buf !! i with
  | Some b => b =? v
  | None => false
  end.

(** [buf.slice(lo, hi)] for [lo <= hi]. *)
Definition slice (lo hi : nat) (buf : list Z) : list Z :=
  take (hi - lo) (drop lo buf).

(** [slice.toString() === s] for an ASCII literal [s]: decoding yields the
    literal exactly when the bytes are the literal's character codes. *)
Definition toString_is (bytes : list Z) (s : string) : bool :=
  bool_decide (bytes = utf8_bytes s).


(** *** Strings *)

Definition chars (s : string) : list ascii := list_ascii_of_string s.
Definition unchars (l : list ascii) : string := string_of_list_ascii l.

(** [s.startsWith(p)] *)
Definition startsWith (s p : string) : bool := String.prefix p s.

(** [s.includes(needle)] *)
Fixpoint includes (s needle : string) : bool :=
  String.prefix needle s ||
  match s with
  | EmptyString => false
  | String _ rest => includes rest needle
  end.

(** [s.length > n] and [s === ""] *)
Definition longer_than (s : string) (n : nat) : bool := (n <? String.length s)%nat.
Definition is_empty (s : string) : bool := String.eqb s "".

(** The part of [l] before the first [c], and the part after it (if any). *)
Fixpoint before (c : ascii) (l : list ascii) : list ascii :=
  match l with
  | [] => []
  | x :: r => if Ascii.eqb x c then [] else x :: before c r
  end.

Fixpoint after (c : ascii) (l : list ascii) : option (list ascii) :=
  match l with
  | [] => None
  | x :: r => if Ascii.eqb x c then Some r else after c r
  end.

Fixpoint drop_leading (c : ascii) (l : list ascii) : list ascii :=
  match l with
  | [] => []
  | x :: r => if Ascii.eqb x c then drop_leading c r else l
  end.

(** [path.basename(p)] (POSIX): scanning from the end, trailing slashes are
    skipped and the segment up to the next slash is returned. *)
Definition basename (p : string) : string :=
  unchars (rev (before "/" (drop_leading "/" (rev (chars p))))).

(** The characters [\s] matches are the white space and the line
    terminators of ECMAScript: U+0009 to U+000D, U+0020, U+00A0, U+1680,
    U+2000 to U+200A, U+2028, U+2029, U+202F, U+205F, U+3000 and U+FEFF.
    [space_width l] is the number of bytes that such a character takes at
    the head of the UTF-8 text [l], and [0] when there is none. *)
Definition space_width (l : list ascii) : nat :=
  match map nat_of_ascii (take 3 l) with
  | a :: rest =>
      if ((9 <=? a) && (a <=? 13) || (a =? 32))%nat then 1%nat
      else
        match rest with
        | b :: rest' =>
            if ((a =? 194) && (b =? 160))%nat then 2%nat        (* U+00A0 *)
            else
              match rest' with
              | c :: _ =>
                  if ((a =? 225) && (b =? 154) && (c =? 128))%nat     (* U+1680 *)
                     || ((a =? 226) && (b =? 128)
                         && ((128 <=? c) && (c <=? 138)            (* U+2000-200A *)
                             || (c =? 168) || (c =? 169)           (* U+2028, U+2029 *)
                             || (c =? 175)))%nat                   (* U+202F *)
                     || ((a =? 226) && (b =? 129) && (c =? 159))%nat  (* U+205F *)
                     || ((a =? 227) && (b =? 128) && (c =? 128))%nat  (* U+3000 *)
                     || ((a =? 239) && (b =? 187) && (c =? 191))%nat  (* U+FEFF *)
                  then 3%nat else 0%nat
              | [] => 0%nat
              end
        | [] => 0%nat
        end
  | [] => 0%nat
  end.

(** The text without the characters [\s] matches; [skip] bytes of a
    character being removed are still to go. *)
Fixpoint strip_from (skip : nat) (l : list ascii) : list ascii :=
  match l with
  | [] => []
  | c :: r =>
      match skip with
      | S k => strip_from k r
      | O =>
          match space_width l with
          | O => c :: strip_from 0 r
          | S k => strip_from k r
          end
      end
  end.

(** [s.replace(/\s/g, "")] *)
Definition strip_spaces (s : string) : string := unchars (strip_from 0 (chars s)).

Definition is_digit (c : ascii) : bool :=
  let n := nat_of_ascii c in ((48 <=? n) && (n <=? 57))%nat.

Definition is_base64_char (c : ascii) : bool :=
  let n := nat_of_ascii c in
  ((65 <=? n) && (n <=? 90) || (97 <=? n) && (n <=? 122) || is_digit c
   || (n =? 43) || (n =? 47) || (n =? 61))%nat.

(** [/^[A-Za-z0-9+/=]+$/.test(s)] and [/^\d+$/.test(s)] *)
Definition nonempty_all (p : ascii -> bool) (s : string) : bool :=
  negb (is_empty s) && forallb p (chars s).

Definition test_base64 (s : string) : bool := nonempty_all is_base64_char s.
Definition test_digits (s : string) : bool := nonempty_all is_digit s.

(** [mime.split("/")[1].split("+")[0] || dflt]; [None] is the [TypeError]
    raised when [mime] has no ["/"], so that [split("/")[1]] is undefined. *)
Definition mime_ext (mime dflt : string) : option string :=
  match after "/" (chars mime) with
  | None => None
  | Some r =>
      let e := unchars (before "+" (before "/" r)) in
      Some (if is_empty e then dflt else e)
  end.

(** *** Numbers and values

    The routes convert request fields with [Number(...)] and test them with
    [isNaN]; the double-precision arithmetic behind these is kept abstract. *)

Class Numbers := {
  number : Type;
  lit : Z -> number;                 (* an integer literal *)
  nan : number;
  isNaN : number -> bool;
  is_zero : number -> bool;          (* [+0] or [-0] *)
  StringToNumber : string -> number; (* [Number(s)] on a string *)
  NumberToString : number -> string; (* [String(n)] *)
  (* [String(b)] on an [ArrayBuffer] or a view of one, which depends on its
     class *)
  BinaryToString : list Z -> string
}.

#[warnings="-register-all"] Inductive value `{Numbers} : Type :=
| Undefined
| Null
| Bool (b : bool)
| Num (n : number)
| Str (s : string)
| Bin (bytes : list Z)               (* an [ArrayBuffer] or a view of one *)
| Arr (items : list value)
| Obj (fields : list (string * value)).

Section Values.
Context `{Numbers}.

Definition truthy (v : value) : bool :=
  match v with
  | Undefined | Null => false
  | Bool b => b
  | Num n => negb (is_zero n || isNaN n)
  | Str s => negb (is_empty s)
  | Bin _ | Arr _ | Obj _ => true
  end.

(** [a || b], [a ?? b], [!!a] *)
Definition or_else (a b : value) : value := if truthy a then a else b.

Definition nullish (v : value) : bool :=
  match v with Undefined | Null => true | _ => false end.

Definition coalesce (a b : value) : value := if nullish a then b else a.

(** [String(v)]: an array prints its elements separated by commas, with
    nothing for [null] and [undefined]; an ordinary object prints as
    ["[object Object]"]. *)
Fixpoint ToString (v : value) : string :=
  match v with
  | Undefined => "undefined"
  | Null => "null"
  | Bool b => if b then "true" else "false"
  | Num n => NumberToString n
  | Str s => s
  | Bin bytes => BinaryToString bytes
  | Arr items =>
      (fix join (l : list value) : string :=
         match l with
         | [] => ""
         | x :: r =>
             let element :=
               match x with
               | Undefined | Null => ""
               | _ => ToString x
               end in
             match r with
             | [] => element
             | _ :: _ => element +:+ "," +:+ join r
             end
         end) items
  | Obj _ => "[object Object]"
  end.

(** [Number(v)]: an object, an array included, converts through its string
    form, so [Number(["5"])] is [5] and [Number([])] is [0]. *)
Definition Number (v : value) : number :=
  match v with
  | Undefined => nan
  | Null => lit 0
  | Bool b => if b then lit 1 else lit 0
  | Num n => n
  | Str s => StringToNumber s
  | Bin _ | Arr _ | Obj _ => StringToNumber (ToString v)
  end.

(** [o.k] on an object: [undefined] for a missing property. *)
Fixpoint assoc (k : string) (fields : list (string * value)) : value :=
  match fields with
  | [] => Undefined
  | (k', v) :: r => if String.eqb k k' then v else assoc k r
  end.

Definition get (o : value) (k : string) : value :=
  match o with
  | Obj fields => assoc k fields
  | _ => Undefined
  end.

(** [Array.isArray(data) ? data[0] : data] *)
Definition first_output (data : value) : value :=
  match data with
  | Arr [] => Undefined
  | Arr (x :: _) => x
  | _ => data
  end.

End Values.

(** What a call that may throw comes back with. *)
Inductive outcome (A : Type) : Type :=
| Returns (a : A)
| Throws.
Arguments Returns {A} a.
Arguments Throws {A}.

End Js.

(** ** The format sniffer: [detectMimeFromBuffer] *)

Module Sniffer.
Import Js.

Record detected := { mime : string; ext : string }.

Definition png_info  := {| mime := "image/png";         ext := "png"  |}.
Definition jpeg_info := {| mime := "image/jpeg";        ext := "jpg"  |}.
Definition webp_info := {| mime := "image/webp";        ext := "webp" |}.
Definition glb_info  := {| mime := "model/gltf-binary"; ext := "glb"  |}.

(** [null] is [None]. *)
Definition detectMimeFromBuffer (buf : list Z) : option detected :=
  if (length buf <? 12)%nat then None
  else if byte_is buf 0 0x89 && byte_is buf 1 0x50
          && byte_is buf 2 0x4e && byte_is buf 3 0x47 then Some png_info
  else if byte_is buf 0 0xff && byte_is buf 1 0xd8 then Some jpeg_info
  else if toString_is (slice 0 4 buf) "RIFF"
          && toString_is (slice 8 12 buf) "WEBP" then Some webp_info
  else if toString_is (slice 0 4 buf) "glTF" then Some glb_info
  else None.

(** The signatures, as byte sequences. *)
Definition png_magic  : list Z := [0x89; 0x50; 0x4e; 0x47].
Definition jpeg_magic : list Z := [0xff; 0xd8].
Definition riff_magic : list Z := utf8_bytes "RIFF".
Definition webp_magic : list Z := utf8_bytes "WEBP".
Definition gltf_magic : list Z := utf8_bytes "glTF".

Definition begins_with (sig buf : list Z) : Prop := take (length sig) buf = sig.

Definition is_webp (buf : list Z) : Prop :=
  begins_with riff_magic buf /\ slice 8 12 buf = webp_magic.

End Sniffer.


(** ** Asset records and the user collection ([backend/models/User.js])

    A user document is kept as a plain record; of its fields only [assets]
    is read or written by the routes below.  [findById] hands out a copy of
    the stored document and [save] stores the document it is called on, the
    last writer winning. *)

Module Store.
Import Js.

Inductive asset_status := Pending | Processing | Ready | Failed.

Definition status_string (s : asset_status) : string :=
  match s with
  | Pending => "pending"
  | Processing => "processing"
  | Ready => "ready"
  | Failed => "failed"
  end.

#[global] Instance asset_status_eq_dec : EqDecision asset_status.
Proof. solve_decision. Defined.

Section Records.
Context `{Numbers}.

Record asset_meta := {
  seed : option number;
  uploadedAt : option Z;
  segmentedImage : option string
}.

Record asset := {
  _id : string;
  imageUrl : string;
  glbUrl : option string;
  status : asset_status;
  meta : asset_meta;
  createdAt : Z
}.


Record user := { assets : list asset }.

(** [meta: {}] *)
Definition empty_meta : asset_meta :=
  {| seed := None; uploadedAt := None; segmentedImage := None |}.

(** Field assignments on a (sub)document. *)
Definition set_segmentedImage (url : string) (a : asset) : asset :=
  {| _id := _id a; imageUrl := imageUrl a; glbUrl := glbUrl a;
     status := status a;
     meta := {| seed := seed (meta a); uploadedAt := uploadedAt (meta a);
                segmentedImage := Some url |};
     createdAt := createdAt a |}.

Definition set_status (s : asset_status) (a : asset) : asset :=
  {| _id := _id a; imageUrl := imageUrl a; glbUrl := glbUrl a; status := s;
     meta := meta a; createdAt := createdAt a |}.

(** [a.name = v] for a name that is no path of the schema: the property is
    set on the object in the handler, and the document is as it was. *)
Definition set_undeclared (name : string) (v : Z) (a : asset) : asset := a.

(** [a.glbUrl = url; a.status = "ready"; a.updatedAt = new Date();
    a.generatedAt = new Date()]: the first two are paths of the schema. *)
Definition mark_ready (url : string) (now : Z) (a : asset) : asset :=
  set_undeclared "generatedAt" now
    (set_undeclared "updatedAt" now
       {| _id := _id a; imageUrl := imageUrl a; glbUrl := Some url;
          status := Ready; meta := meta a; createdAt := createdAt a |}).

(** [s || "pending"] on a status *)
Definition status_or_pending (s : asset_status) : asset_status :=
  if is_empty (status_string s) then Pending else s.

(** [assets.id(assetId)]: the first sub-document with that id. *)
Definition assets_id (aid : string) (l : list asset) : option asset :=
  List.find (fun a => String.eqb (_id a) aid) l.

(** The array after assigning through the sub-document [assets.id(aid)]. *)
Fixpoint modify_id (aid : string) (f : asset -> asset) (l : list asset) : list asset :=
  match l with
  | [] => []
  | a :: r => if String.eqb (_id a) aid then f a :: r else a :: modify_id aid f r
  end.

(** [assets[assets.length - 1]], and the array after assigning through it. *)
Definition last_asset (l : list asset) : option asset := List.last (map Some l) None.

Fixpoint modify_last (f : asset -> asset) (l : list asset) : list asset :=
  match l with
  | [] => []
  | [a] => [f a]
  | a :: r => a :: modify_last f r
  end.

(** [sub.deleteOne()]: the parent array pulls the elements with that id. *)
Definition pull_id (aid : string) (l : list asset) : list asset :=
  List.filter (fun a => negb (String.eqb (_id a) aid)) l.


(** The collection: user id to document. *)

Definition findById (uid : string) (db : gmap string user) : option user := db !! uid.

Definition save (uid : string) (doc : user) (db : gmap string user) : gmap string user :=
  <[uid := doc]> db.

(** [P] holds of every record of the collection. *)
Definition all_assets (P : asset -> Prop) (db : gmap string user) : Prop :=
  forall uid u, db !! uid = Some u -> Forall P (assets u).

End Records.
End Store.

(** ** The artifact store: the two upload directories *)

Module Files.
Import Js.

Record files := {
  images : gmap string (list Z);     (* uploads/images *)
  glbs : gmap string (list Z)        (* uploads/glb *)
}.

Definition write_image (name : string) (bytes : list Z) (fs : files) : files :=
  {| images := <[name := bytes]> (images fs); glbs := glbs fs |}.

Definition write_glb (name : string) (bytes : list Z) (fs : files) : files :=
  {| images := images fs; glbs := <[name := bytes]> (glbs fs) |}.

(** [if (fs.existsSync(p)) fs.unlinkSync(p)] *)
Definition unlink_image (name : string) (fs : files) : files :=
  match images fs !! name with
  | Some _ => {| images := delete name (images fs); glbs := glbs fs |}
  | None => fs
  end.

Definition unlink_glb (name : string) (fs : files) : files :=
  match glbs fs !! name with
  | Some _ => {| images := images fs; glbs := delete name (glbs fs) |}
  | None => fs
  end.

(** A file name as the routes generate them: not empty, no slash. *)
Definition plain_name (f : string) : Prop :=
  f <> "" /\ ~ In "/"%char (chars f).

(** [url] is the locator the routes publish for the file [f] of
    [uploads/images], respectively [uploads/glb]. *)
Definition image_locator (url f : string) : Prop :=
  plain_name f /\ exists origin, url = origin +:+ "/uploads/images/" +:+ f.

Definition glb_locator (url f : string) : Prop :=
  plain_name f /\ exists origin, url = origin +:+ "/uploads/glb/" +:+ f.

End Files.

(** ** What the routes call outside this repository *)

Module Env.
Import Js.

(** Library functions whose results the routes consume. *)
Class Runtime `{Numbers} := {
  (* [Buffer.from(s, "base64")] *)
  base64_decode : string -> list Z;
  (* [s.match(/^data:(.+);base64,(.+)$/)]: the two groups *)
  match_data_uri : string -> option (string * string);
  (* [JSON.stringify(v)] *)
  json_stringify : value -> string;
  (* [path.basename(new URL(u).pathname)]; [None] when [new URL] throws *)
  url_basename : string -> option string;
  (* [path.extname(new URL(u).pathname).replace(".", "")]; [None] when
     [new URL] throws *)
  url_ext : string -> option string;
  (* [sharp(buf).png().toBuffer()]; [None] when sharp is not installed or the
     conversion throws *)
  png_of_webp : list Z -> option (list Z);
  (* the schema's cast of a value assigned to a [String] path; [None] when
     the cast fails and [save] rejects *)
  cast_string : value -> option string
}.

Section Network.
Context `{Numbers}.

(** [await fetch(url)], then [fetched.ok] and [fetched.arrayBuffer()]. *)
Inductive fetched :=
| FetchThrows
| FetchNotOk
| FetchOk (body : list Z).

(** [new Blob([buffer], { type })] *)
Record blob := { blob_bytes : list Z; blob_type : string }.

(** The argument of [/process_3d]. *)
Record payload := {
  input_image : blob;
  num_steps : number;
  cfg_scale : number;
  grid_res : number;
  p_seed : number;
  simplify_mesh : value;
  target_num_faces : number
}.

(** What one request meets outside the handler: the Gradio endpoints and
    [fetch] (each endpoint returns the [data] of its reply, or throws,
    connection and protocol failures included), and the store's answer
    when the handler saves the document it loaded at the start although
    the asset is no longer in the collection.  [true]: the save goes
    through and the last writer wins, which is how the specification
    describes the store; [false]: the store rejects it, as a store that
    checks a version key does, and [save] throws. *)
Record outside := {
  process_image : blob -> outcome value;
  get_random_seed : bool -> number -> outcome value;
  process_3d : payload -> outcome value;
  fetch : string -> fetched;
  accepts_stale_save : bool
}.

End Network.
End Env.

(** ** The upload route ([backend/routes/create.js]) *)

Module Create.
Import Js Sniffer Store Files Env.

Section Route.
Context `{Runtime}.

(** [req.file], as multer left it in [uploads/images]. *)
Record uploaded := { filename : string; mimetype : string }.

Record request := {
  userId : string;                   (* set by the auth middleware *)
  file : option uploaded;
  body : list (string * value);
  protocol : string;
  host : option string               (* [req.get("host")] *)
}.

(** What the handler keeps in local variables once the asset is created and
    uses again in both phases: [uid], the document [user] loaded at the
    start (with [createdAsset] its last asset), [assetId], the request. *)
Record context := {
  cx_uid : string;
  cx_user : user;
  cx_assetId : string;
  cx_file : uploaded;
  cx_body : list (string * value);
  cx_providedSeed : option number;
  cx_protocol : string;
  cx_host : string;
  cx_imagePath : string;
  cx_imageUrl : string
}.

Definition with_user (u : user) (cx : context) : context :=
  {| cx_uid := cx_uid cx; cx_user := u; cx_assetId := cx_assetId cx;
     cx_file := cx_file cx; cx_body := cx_body cx;
     cx_providedSeed := cx_providedSeed cx; cx_protocol := cx_protocol cx;
     cx_host := cx_host cx; cx_imagePath := cx_imagePath cx;
     cx_imageUrl := cx_imageUrl cx |}.

(** A string that is [s] unless [s] is empty: [s || d]. *)
Definition or_default (s d : string) : string := if is_empty s then d else s.

(** [if (url)] on a variable holding a string or [null]. *)
Definition present (url : option string) : bool :=
  match url with
  | Some u => negb (is_empty u)
  | None => false
  end.

(** The file names carry [Date.now()] and a random number; [stamp] stands
    for that part. *)
Definition saveBufferAsImage (stamp : string) (buffer : list Z)
    (ext protocol host : string) (fs : files) : files * string :=
  let filename := "processed-" +:+ stamp +:+ "." +:+ or_default ext "png" in
  (write_image filename buffer fs,
   protocol +:+ "://" +:+ host +:+ "/uploads/images/" +:+ filename).

Definition saveBufferAsGlb (stamp : string) (buffer : list Z)
    (ext protocol host : string) (fs : files) : files * string :=
  (* [ext && ext.toLowerCase() === "glb" ? "glb" : "glb"] *)
  let safeExt := "glb" in
  let filename := "generated-" +:+ stamp +:+ "." +:+ safeExt in
  (write_glb filename buffer fs,
   protocol +:+ "://" +:+ host +:+ "/uploads/glb/" +:+ filename).

(** *** Request parameters *)

(** A destructuring default: [{ k = d } = req.body]. *)
Definition with_default (v d : value) : value :=
  match v with
  | Undefined => d
  | _ => v
  end.

Definition providedSeed_of (seedRaw : value) : option number :=
  match seedRaw with
  | Undefined | Null => None
  | Str s => if is_empty s then None else Some (Number seedRaw)
  | _ => Some (Number seedRaw)
  end.


(** *** Phase 1: creating the asset *)

Definition newAsset (aid imageUrl : string) (providedSeed : option number)
    (now : Z) : asset :=
  {| _id := aid; imageUrl := imageUrl; glbUrl := None; status := Pending;
     meta := {| seed := providedSeed; uploadedAt := Some now;
                segmentedImage := None |};
     createdAt := now |}.

(** From the top of the handler to [assetId]; [aid] is the id Mongoose gives
    the pushed sub-document.  An error reply is a status code and a
    message. *)
Definition create_asset (aid : string) (now : Z) (req : request)
    (db : gmap string user) : (nat * string) + (gmap string user * context) :=
  match file req with
  | None => inl (400%nat, "No image file provided")
  | Some f =>
      let uid := userId req in
      if is_empty uid then inl (401%nat, "Authorization required")
      else match findById uid db with
      | None => inl (404%nat, "User not found")
      | Some user0 =>
          let providedSeed := providedSeed_of (assoc "seed" (body req)) in
          let host := or_default (default "" (host req)) "localhost:5000" in
          let protocol := or_default (protocol req) "http" in
          let imagePath := "/uploads/images/" +:+ filename f in
          let imageUrl := protocol +:+ "://" +:+ host +:+ imagePath in
          let user1 :=
            {| assets := assets user0 ++ [newAsset aid imageUrl providedSeed now] |} in
          inr (save uid user1 db,
               {| cx_uid := uid; cx_user := user1; cx_assetId := aid;
                  cx_file := f; cx_body := body req;
                  cx_providedSeed := providedSeed; cx_protocol := protocol;
                  cx_host := host; cx_imagePath := imagePath;
                  cx_imageUrl := imageUrl |})
      end
  end.

(** *** Turning a reply of the remote service into a stored file *)

Definition is_http (u : string) : bool :=
  startsWith u "http://" || startsWith u "https://".

(** The [try { fetch ... } catch { warn }] block shared by the URL cases:
    nothing is produced when the fetch throws, is not [ok], or the URL does
    not parse. *)
Definition fetch_and_save (env : outside)
    (store : list Z -> string -> files -> files * string)
    (url dflt : string) (fs : files) : files * option string :=
  match fetch env url with
  | FetchOk buffer =>
      match url_ext url with
      | Some e => let '(fs', loc) := store buffer (or_default e dflt) fs in (fs', Some loc)
      | None => (fs, None)
      end
  | FetchNotOk | FetchThrows => (fs, None)
  end.

(** [rawOut.url || rawOut.link || rawOut.path || rawOut.file] *)
Definition candidateUrl_of (o : value) : value :=
  or_else (or_else (or_else (get o "url") (get o "link")) (get o "path")) (get o "file").

(** The normalisation of the [/process_image] output: the files after it and
    [segmentedImageUrl].  [Throws] is an exception that leaves the enclosing
    [try] block. *)
Definition normalize_segmented (env : outside) (stamp protocol host : string)
    (rawOut : value) (fs : files) : outcome (files * option string) :=
  let store buffer ext fs := saveBufferAsImage stamp buffer ext protocol host fs in
  let stored (r : files * string) := Returns (fst r, Some (snd r)) in
  match rawOut with
  | Str s =>
      if startsWith s "data:" then
        match match_data_uri s with
        | Some (mime, base64) =>
            match mime_ext mime "png" with
            | Some ext => stored (store (base64_decode base64) ext fs)
            | None => Throws
            end
        | None => Returns (fetch_and_save env store s "png" fs)
        end
      else if is_http s then Returns (fetch_and_save env store s "png" fs)
      else
        let maybeBase64 := strip_spaces s in
        if test_base64 maybeBase64 && longer_than maybeBase64 100
        then stored (store (base64_decode maybeBase64) "png" fs)
        else stored (store (utf8_bytes s) "txt" fs)
  | Bin bytes => stored (store bytes "png" fs)
  | Arr _ | Obj _ =>
      let candidateUrl := candidateUrl_of rawOut in
      if truthy candidateUrl then
        match candidateUrl with
        | Str u =>
            if is_http u then Returns (fetch_and_save env store u "png" fs)
            else stored (store (utf8_bytes (json_stringify rawOut)) "txt" fs)
        | _ => Throws                (* [candidateUrl.startsWith] is not a function *)
        end
      else stored (store (utf8_bytes (json_stringify rawOut)) "txt" fs)
  | Undefined | Null | Bool _ | Num _ =>
      stored (store (utf8_bytes (json_stringify (or_else rawOut (Obj [])))) "txt" fs)
  end.

(** The normalisation of the [/process_3d] output: the files after it and
    [glbUrl]. *)
Definition normalize_glb (env : outside) (stamp protocol host : string)
    (raw3d : value) (fs : files) : outcome (files * option string) :=
  let store buffer ext fs := saveBufferAsGlb stamp buffer ext protocol host fs in
  let stored (r : files * string) := Returns (fst r, Some (snd r)) in
  match raw3d with
  | Str s =>
      if startsWith s "data:" then
        match match_data_uri s with
        | Some (mime, base64) =>
            match mime_ext mime "glb" with
            | Some ext => stored (store (base64_decode base64) ext fs)
            | None => Throws
            end
        | None => Returns (fetch_and_save env store s "glb" fs)
        end
      else if is_http s then Returns (fetch_and_save env store s "glb" fs)
      else
        let maybeBase64 := strip_spaces s in
        if test_base64 maybeBase64 && longer_than maybeBase64 100
        then stored (store (base64_decode maybeBase64) "glb" fs)
        else Returns (fs, None)
  | Bin bytes => stored (store bytes "glb" fs)
  | Arr _ | Obj _ =>
      let candidateUrl := candidateUrl_of raw3d in
      if truthy candidateUrl then
        match candidateUrl with
        | Str u =>
            if is_http u then Returns (fetch_and_save env store u "glb" fs)
            else
              Returns (fst (saveBufferAsImage stamp (utf8_bytes (json_stringify raw3d))
                              "txt" protocol host fs), None)
        | _ => Throws
        end
      else
        Returns (fst (saveBufferAsImage stamp (utf8_bytes (json_stringify raw3d))
                        "txt" protocol host fs), None)
  | Undefined | Null | Bool _ | Num _ => Returns (fs, None)
  end.

(** A reply that is an object; an array is one too, with none of the four
    fields. *)
Definition structured (o : value) : Prop :=
  (exists fields, o = Obj fields) \/ (exists items, o = Arr items).

(** A structured reply that cannot be resolved from this side: its first
    non-empty field among [url], [link], [path], [file] is missing or is a
    string that is not an absolute URL. *)
Definition unresolvable (o : value) : Prop :=
  structured o /\
  (truthy (candidateUrl_of o) = false \/
   exists u, candidateUrl_of o = Str u /\ is_http u = false).

(** A structured reply whose first non-empty field among the four is not a
    string: [candidateUrl.startsWith] is not a function. *)
Definition ill_typed (o : value) : Prop :=
  structured o /\ truthy (candidateUrl_of o) = true /\
  forall u, candidateUrl_of o <> Str u.

(** A reply that is neither a string, nor a buffer, nor an object. *)
Definition primitive (v : value) : Prop :=
  match v with
  | Undefined | Null | Bool _ | Num _ => True
  | _ => False
  end.

(** A string reply of no recognised shape. *)
Definition unrecognized (s : string) : Prop :=
  startsWith s "data:" = false /\ is_http s = false /\
  test_base64 (strip_spaces s) && longer_than (strip_spaces s) 100 = false.

(** *** Phase 1: segmentation *)

(** [if (segmentedImageUrl) { ... }]: the record is re-read; when the asset
    is no longer in it, the handler assigns through [createdAsset] and saves
    the document it loaded at the start, which the store accepts or
    rejects.  A missing user document makes [freshUser.assets] throw.  The
    result is what the handler holds afterwards (the assignment through
    [createdAsset] comes before the save) and the collection, or the
    exception. *)
Definition attach_segmented (env : outside) (cx : context)
    (segmentedImageUrl : option string)
    (db : gmap string user) : context * outcome (gmap string user) :=
  match segmentedImageUrl with
  | Some url =>
      if is_empty url then (cx, Returns db)
      else match findById (cx_uid cx) db with
      | None => (cx, Throws)
      | Some freshUser =>
          match assets_id (cx_assetId cx) (assets freshUser) with
          | Some _ =>
              let doc := {| assets := modify_id (cx_assetId cx)
                                        (set_segmentedImage url) (assets freshUser) |} in
              (cx, Returns (save (cx_uid cx) doc db))
          | None =>
              let doc := {| assets := modify_last (set_segmentedImage url)
                                        (assets (cx_user cx)) |} in
              (with_user doc cx,
               if accepts_stale_save env
               then Returns (save (cx_uid cx) doc db)
               else Throws)
          end
      end
  | None => (cx, Returns db)
  end.

(** STEP A, the [try] block around [/process_image]: the uploaded file is
    read, sent, the output normalised and the record updated; an exception
    anywhere ends the block, keeping what was done before it.  The result
    carries [segmentedImageUrl]. *)
Definition segment (env : outside) (stamp : string) (cx : context)
    (db : gmap string user) (fs : files)
    : gmap string user * files * context * option string :=
  match images fs !! filename (cx_file cx) with
  | None => (db, fs, cx, None)
  | Some fileBuffer =>
      let blobForGradio :=
        {| blob_bytes := fileBuffer;
           blob_type := or_default (mimetype (cx_file cx)) "image/png" |} in
      match process_image env blobForGradio with
      | Throws => (db, fs, cx, None)
      | Returns data =>
          match normalize_segmented env stamp (cx_protocol cx) (cx_host cx)
                  (first_output data) fs with
          | Throws => (db, fs, cx, None)
          | Returns (fs', segmentedImageUrl) =>
              let '(cx', saved) := attach_segmented env cx segmentedImageUrl db in
              match saved with
              | Throws => (db, fs', cx', segmentedImageUrl)
              | Returns db' => (db', fs', cx', segmentedImageUrl)
              end
          end
      end
  end.

(** The reply sent once STEP A is over. *)
Record immediateResponse := {
  r_message : string;
  r_imagePath : string;
  r_imageUrl : string;
  r_seed : option number;
  r_assetId : string;
  r_segmentedImageUrl : option string
}.

Definition respond (cx : context) (segmentedImageUrl : option string) : immediateResponse :=
  {| r_message := "Image uploaded successfully";
     r_imagePath := cx_imagePath cx;
     r_imageUrl := cx_imageUrl cx;
     r_seed := cx_providedSeed cx;
     r_assetId := cx_assetId cx;
     r_segmentedImageUrl := if present segmentedImageUrl then segmentedImageUrl else None |}.

(** *** Phase 2: the seed *)

(** [/get_random_seed] is called on every request, with the flag and the
    caller's seed ([0] when there is none or it is [NaN]). *)
Definition seed_argument (providedSeed : option number) : number :=
  match providedSeed with
  | Some n => if isNaN n then lit 0 else n
  | None => lit 0
  end.

Definition usable_seed (seedOut : value) : bool :=
  match seedOut with
  | Num _ => true
  | Str s => test_digits s
  | _ => false
  end.

Definition resolve_seed (env : outside) (providedSeed : option number)
    (randomize_seed : value) : option number :=
  let seedFor3d := providedSeed in
  match get_random_seed env (truthy randomize_seed) (seed_argument providedSeed) with
  | Returns data =>
      let seedOut := first_output data in
      if usable_seed seedOut then Some (Number seedOut)
      else match seedFor3d with
           | None => Some (lit 0)
           | Some _ => seedFor3d
           end
  | Throws =>
      match seedFor3d with
      | None => Some (default (lit 0) providedSeed)
      | Some _ => seedFor3d
      end
  end.

(** *** Phase 2: the source image *)

Definition is_image (d : option detected) : bool :=
  match d with
  | Some d => startsWith (mime d) "image/"
  | None => false
  end.

(** [fs.existsSync(path.join(imagesDir, f))]: the empty name is the
    directory itself. *)
Definition exists_image (f : string) (fs : files) : bool :=
  is_empty f || bool_decide (is_Some (images fs !! f)).

Definition segLocalPath_of (segmentedImageUrl : option string)
    (uploadName : string) (fs : files) : string :=
  let fromUrl :=
    match segmentedImageUrl with
    | Some u => if is_empty u then None else url_basename u
    | None => None
    end in
  match fromUrl with
  | Some f => if exists_image f fs then f else uploadName
  | None => uploadName
  end.

(** [d.mime], read only where [is_image d] has been tested. *)
Definition mime_of (d : option detected) : string :=
  match d with
  | Some d => mime d
  | None => ""
  end.

(** The buffer and MIME type to send, or [None] when neither file is an
    image; with it [detected], the sniffer's verdict on the first file read.
    [Throws] is a failing [readFileSync]. *)
Definition select_source (segmentedImageUrl : option string)
    (uploadName : string) (fs : files)
    : outcome (option (list Z * string) * option detected) :=
  match images fs !! segLocalPath_of segmentedImageUrl uploadName fs with
  | None => Throws
  | Some segBuffer =>
      let detected := detectMimeFromBuffer segBuffer in
      if negb (is_image detected) then
        match images fs !! uploadName with
        | None => Throws
        | Some origBuf =>
            let origDetected := detectMimeFromBuffer origBuf in
            if negb (is_image origDetected) then Returns (None, detected)
            else Returns (Some (origBuf, mime_of origDetected), detected)
        end
      else Returns (Some (segBuffer, mime_of detected), detected)
  end.

(** The abort path: [sub3.status = sub3.status || "pending"] on the re-read
    record, when it is still there. *)
Definition abort_update (cx : context) (db : gmap string user)
    : outcome (gmap string user) :=
  match findById (cx_uid cx) db with
  | None => Throws
  | Some freshUser3 =>
      match assets_id (cx_assetId cx) (assets freshUser3) with
      | Some _ =>
          let doc := {| assets := modify_id (cx_assetId cx)
                                    (fun a => set_status (status_or_pending (status a)) a)
                                    (assets freshUser3) |} in
          Returns (save (cx_uid cx) doc db)
      | None => Returns db
      end
  end.

(** WebP is converted to PNG when sharp is there and succeeds. *)
Definition transcode (sel : list Z * string) (detected : option detected)
    : list Z * string :=
  match detected with
  | Some d =>
      if String.eqb (ext d) "webp" then
        match png_of_webp (fst sel) with
        | Some pngBuf => (pngBuf, "image/png")
        | None => sel
        end
      else sel
  | None => sel
  end.

(** *** Phase 2: the call and the final update *)

(** [v === "false" || v === false] *)
Definition is_false_literal (v : value) : bool :=
  match v with
  | Str s => String.eqb s "false"
  | Bool b => negb b
  | _ => false
  end.

(** The payload of [/process_3d]: [Number(req.body.k ?? k)] with [k] the
    destructured parameter and its default. *)
Definition build_payload (body : list (string * value)) (seedFor3d : option number)
    (blobForGradio : blob) : payload :=
  let param k d := Number (coalesce (assoc k body) (with_default (assoc k body) d)) in
  {| input_image := blobForGradio;
     num_steps := param "num_steps" (Num (lit 50));
     cfg_scale := param "cfg_scale" (Num (lit 7));
     grid_res := param "grid_res" (Num (lit 384));
     p_seed := Number (match seedFor3d with Some n => Num n | None => Num (lit 0) end);
     simplify_mesh :=
       match assoc "simplify_mesh" body with
       | Undefined => with_default (assoc "simplify_mesh" body) (Bool false)
       | v => Bool (is_false_literal v)
       end;
     target_num_faces := param "target_num_faces" (Num (lit 100000)) |}.

(** The asset of this upload is still in the collection. *)
Definition own_record_present (cx : context) (db : gmap string user) : Prop :=
  exists u a, db !! cx_uid cx = Some u /\
              assets_id (cx_assetId cx) (assets u) = Some a.

(** How the background task ended. *)
Inductive ending :=
| MarkedReady                        (* the re-read record was updated *)
| MarkedReadyFallback                (* [createdAsset] was updated and [user] saved *)
| NoGlb                              (* "No GLB produced" *)
| Aborted                            (* neither file is an image *)
| Caught.                            (* an exception reached a [catch] *)

(** [if (glbUrl) { ... } else { warn }]: what the handler holds afterwards,
    and the collection with the way the block ended, or the exception. *)
Definition attach_generated (env : outside) (cx : context)
    (glbUrl : option string) (now : Z)
    (db : gmap string user) : context * outcome (gmap string user * ending) :=
  match glbUrl with
  | Some url =>
      if is_empty url then (cx, Returns (db, NoGlb))
      else match findById (cx_uid cx) db with
      | None => (cx, Throws)
      | Some freshUser2 =>
          match assets_id (cx_assetId cx) (assets freshUser2) with
          | Some _ =>
              let doc := {| assets := modify_id (cx_assetId cx) (mark_ready url now)
                                        (assets freshUser2) |} in
              (cx, Returns (save (cx_uid cx) doc db, MarkedReady))
          | None =>
              let doc := {| assets := modify_last (mark_ready url now)
                                        (assets (cx_user cx)) |} in
              (with_user doc cx,
               if accepts_stale_save env
               then Returns (save (cx_uid cx) doc db, MarkedReadyFallback)
               else Throws)
          end
      end
  | None => (cx, Returns (db, NoGlb))
  end.

(** The [try] block around [/process_3d], given the seed. *)
Definition generate (env : outside) (stamp : string) (now : Z) (cx : context)
    (segmentedImageUrl seedFor3d : option _) (db : gmap string user) (fs : files)
    : gmap string user * files * context * ending :=
  match select_source segmentedImageUrl (filename (cx_file cx)) fs with
  | Throws => (db, fs, cx, Caught)
  | Returns (None, _) =>
      match abort_update cx db with
      | Throws => (db, fs, cx, Caught)
      | Returns db' => (db', fs, cx, Aborted)
      end
  | Returns (Some sel, detected) =>
      let '(bufferToSend, mimeToSend) := transcode sel detected in
      let blobForGradio := {| blob_bytes := bufferToSend; blob_type := mimeToSend |} in
      match process_3d env (build_payload (cx_body cx) seedFor3d blobForGradio) with
      | Throws => (db, fs, cx, Caught)
      | Returns data =>
          match normalize_glb env stamp (cx_protocol cx) (cx_host cx)
                  (first_output data) fs with
          | Throws => (db, fs, cx, Caught)
          | Returns (fs', glbUrl) =>
              let '(cx', saved) := attach_generated env cx glbUrl now db in
              match saved with
              | Throws => (db, fs', cx', Caught)
              | Returns (db', e) => (db', fs', cx', e)
              end
          end
      end
  end.

(** The background task started after the reply. *)
Definition background (env : outside) (stamp : string) (now : Z) (cx : context)
    (segmentedImageUrl : option string) (db : gmap string user) (fs : files)
    : gmap string user * files * context * ending :=
  let randomize_seed := with_default (assoc "randomize_seed" (cx_body cx)) (Bool false) in
  let seedFor3d := resolve_seed env (cx_providedSeed cx) randomize_seed in
  generate env stamp now cx segmentedImageUrl seedFor3d db fs.

End Route.
End Create.

(** ** The asset routes ([backend/routes/assets.js]) *)

Module Assets.
Import Js Store Files Env.

(** A reply: [res.status(code).json(...)]. *)
Inductive response (A : Type) : Type :=
| Json (code : nat) (a : A)
| Error (code : nat) (error : string).
Arguments Json {A} code a.
Arguments Error {A} code error.

Section Routes.
Context `{Runtime}.

(** [`${req.protocol}://${req.get("host")}`]: a missing header prints as
    ["undefined"]. *)
Definition origin (protocol : string) (host : option string) : string :=
  protocol +:+ "://" +:+ default "undefined" host.

(** POST /api/assets/upload-image; [file] is the name multer stored the
    image under, [aid] the new [ObjectId]. *)
Definition upload_image (uid aid : string) (file : option string)
    (protocol : string) (host : option string) (now : Z)
    (db : gmap string user) : response asset * gmap string user :=
  match file with
  | None => (Error 400 "No image uploaded", db)
  | Some fname =>
      let imageUrl := origin protocol host +:+ "/uploads/images/" +:+ fname in
      match findById uid db with
      | None => (Error 404 "User not found", db)
      | Some user0 =>
          let asset0 :=
            {| _id := aid; imageUrl := imageUrl; glbUrl := None; status := Pending;
               meta := empty_meta; createdAt := now |} in
          (Json 201 asset0, save uid {| assets := asset0 :: assets user0 |} db)
      end
  end.

(** The value assigned to [asset.glbUrl], as the [String] path stores it. *)
Definition stored_string (v : value) : option string :=
  match v with
  | Str s => Some s
  | _ => cast_string v
  end.

(** POST /api/assets/:assetId/attach-glb; [file] is the name multer stored
    the uploaded GLB under (nothing in the handler reads the file), [body]
    is [req.body]. *)
Definition attach_glb (uid assetId : string) (file : option string)
    (body : option (list (string * value)))
    (protocol : string) (host : option string) (now : Z)
    (db : gmap string user) : response asset * gmap string user :=
  match findById uid db with
  | None => (Error 404 "User not found", db)
  | Some user0 =>
      match assets_id assetId (assets user0) with
      | None => (Error 404 "Asset not found", db)
      | Some asset0 =>
          let glbUrl :=
            match file with
            | Some fname => Some (Str (origin protocol host +:+ "/uploads/glb/" +:+ fname))
            | None =>
                match body with
                | Some b => if truthy (assoc "glbUrl" b) then Some (assoc "glbUrl" b) else None
                | None => None
                end
            end in
          match glbUrl with
          | None => (Error 400 "No GLB file or URL provided", db)
          | Some v =>
              match stored_string v with
              | None => (Error 500 "Server error attaching GLB", db)
              | Some url =>
                  (Json 200 (mark_ready url now asset0),
                   save uid {| assets := modify_id assetId (mark_ready url now)
                                           (assets user0) |} db)
              end
          end
      end
  end.

(** GET /api/assets/:assetId *)
Definition get_asset (uid assetId : string) (db : gmap string user) : response asset :=
  match findById uid db with
  | None => Error 404 "User not found"
  | Some user0 =>
      match assets_id assetId (assets user0) with
      | None => Error 404 "Asset not found"
      | Some asset0 => Json 200 asset0
      end
  end.

(** The two [try] blocks that unlink the files of an asset. *)
Definition unlink_artifacts (a : asset) (fs : files) : files :=
  let fs1 :=
    if negb (is_empty (imageUrl a)) && includes (imageUrl a) "/uploads/images/"
    then unlink_image (basename (imageUrl a)) fs
    else fs in
  match glbUrl a with
  | Some g =>
      if negb (is_empty g) && includes g "/uploads/glb/"
      then unlink_glb (basename g) fs1
      else fs1
  | None => fs1
  end.

(** DELETE /api/assets/:assetId *)
Definition delete_asset (uid assetId : string)
    (db : gmap string user) (fs : files)
    : response bool * gmap string user * files :=
  match findById uid db with
  | None => (Error 404 "User not found", db, fs)
  | Some user0 =>
      match assets_id assetId (assets user0) with
      | None => (Error 404 "Asset not found", db, fs)
      | Some asset0 =>
          (Json 200 true,
           save uid {| assets := pull_id assetId (assets user0) |} db,
           unlink_artifacts asset0 fs)
      end
  end.

(** The route behind its multer middleware, which has stored the uploaded
    file (name and bytes) in [uploads/glb] before the handler runs. *)
Definition post_attach_glb (uid assetId : string) (upload : option (string * list Z))
    (body : option (list (string * value)))
    (protocol : string) (host : option string) (now : Z)
    (db : gmap string user) (fs : files)
    : response asset * gmap string user * files :=
  let fs' :=
    match upload with
    | Some (fname, bytes) => write_glb fname bytes fs
    | None => fs
    end in
  (attach_glb uid assetId (fst <$> upload) body protocol host now db, fs').

End Routes.
End Assets.

(** ** The system: the collection, the files and the uploads in flight

    Every constructor is one stretch of a handler between two suspension
    points that touch the collection.  The steps of one upload are not
    ordered against each other here, so the relation has every
    interleaving the server has (and more). *)

Module Lifecycle.
Import Js Store Files Env Create Assets.

Section System.
Context `{Runtime}.

Record state := {
  db : gmap string user;
  fs : files;
  uploads : list (context * option string)   (* with [segmentedImageUrl] *)
}.

Definition initial (s : state) : Prop :=
  (forall uid u, db s !! uid = Some u -> assets u = []) /\ uploads s = [].

Inductive step : state -> state -> Prop :=
| step_register s uid :
    db s !! uid = None ->
    step s {| db := <[uid := {| assets := [] |}]> (db s); fs := fs s;
              uploads := uploads s |}
| step_create s req f bytes aid now db' cx :
    file req = Some f ->
    create_asset aid now req (db s) = inr (db', cx) ->
    step s {| db := db'; fs := write_image (filename f) bytes (fs s);
              uploads := (cx, None) :: uploads s |}
| step_segment s pre cx seg0 post env stamp db' fs' cx' seg :
    uploads s = (pre ++ (cx, seg0) :: post)%list ->
    segment env stamp cx (db s) (fs s) = (db', fs', cx', seg) ->
    step s {| db := db'; fs := fs'; uploads := (pre ++ (cx', seg) :: post)%list |}
| step_background s pre cx seg post env stamp now db' fs' cx' e :
    uploads s = (pre ++ (cx, seg) :: post)%list ->
    background env stamp now cx seg (db s) (fs s) = (db', fs', cx', e) ->
    step s {| db := db'; fs := fs'; uploads := (pre ++ post)%list |}
| step_upload_image s uid aid fname bytes protocol host now r db' :
    upload_image uid aid (Some fname) protocol host now (db s) = (r, db') ->
    step s {| db := db'; fs := write_image fname bytes (fs s);
              uploads := uploads s |}
| step_attach_glb s uid aid upload body protocol host now r db' fs' :
    post_attach_glb uid aid upload body protocol host now (db s) (fs s)
      = (r, db', fs') ->
    step s {| db := db'; fs := fs'; uploads := uploads s |}
| step_delete s uid aid r db' fs' :
    delete_asset uid aid (db s) (fs s) = (r, db', fs') ->
    step s {| db := db'; fs := fs'; uploads := uploads s |}.

Inductive reachable : state -> Prop :=
| reach_initial s : initial s -> reachable s
| reach_step s s' : reachable s -> step s s' -> reachable s'.

(** The invariant of the specification, on one record. *)
Definition glb_iff_ready (a : asset) : Prop :=
  glbUrl a <> None <-> status a = Ready.

(** What holds of every state: the records of the collection, and those of
    the documents that the uploads in flight still hold, satisfy it. *)
Definition invariant (s : state) : Prop :=
  all_assets glb_iff_ready (db s) /\
  Forall (fun r => Forall glb_iff_ready (assets (cx_user r.1))) (uploads s).

End System.
End Lifecycle.

(** ** A runtime to compute with

    Integers (and [NaN]) for numbers and plain implementations of the
    library functions, enough to run the model on examples.  The theorems
    below hold for every runtime. *)

Module Sample.
Import Js Env.

(** [Number(s)] on an unsigned decimal literal; the empty string is [0] and
    anything else is [NaN]. *)
Definition digits_value (s : string) : Z :=
  fold_left (fun acc c => 10 * acc + (Z.of_nat (nat_of_ascii c) - 48)) (chars s) 0.

#[global] Instance integers : Numbers := {|
  number := option Z;
  lit := Some;
  nan := None;
  isNaN := fun n => bool_decide (n = None);
  is_zero := fun n => bool_decide (n = Some 0);
  StringToNumber := fun s =>
    if is_empty s then Some 0
    else if test_digits s then Some (digits_value s) else None;
  NumberToString := fun n =>
    match n with
    | Some z => pretty z
    | None => "NaN"
    end;
  BinaryToString := fun _ => "[object ArrayBuffer]"
|}.

Definition base64_value (c : ascii) : option Z :=
  let n := nat_of_ascii c in
  let z := Z.of_nat n in
  if ((65 <=? n) && (n <=? 90))%nat then Some (z - 65)
  else if ((97 <=? n) && (n <=? 122))%nat then Some (z - 71)
  else if is_digit c then Some (z + 4)
  else if (n =? 43)%nat then Some 62
  else if (n =? 47)%nat then Some 63
  else None.

Fixpoint base64_groups (l : list Z) : list Z :=
  match l with
  | a :: b :: c :: d :: r =>
      (a * 4 + b / 16) :: (b mod 16 * 16 + c / 4) :: (c mod 4 * 64 + d)
        :: base64_groups r
  | [a; b; c] => [a * 4 + b / 16; b mod 16 * 16 + c / 4]
  | [a; b] => [a * 4 + b / 16]
  | _ => []
  end.

(** The last place where [sep] occurs with something after it. *)
Fixpoint split_last (sep s : string) : option (string * string) :=
  match s with
  | EmptyString => None
  | String c r =>
      match split_last sep r with
      | Some (a, b) => Some (String c a, b)
      | None =>
          let rest := unchars (drop (String.length sep) (chars s)) in
          if String.prefix sep s && negb (is_empty rest) then Some ("", rest)
          else None
      end
  end.

Definition is_line_end (c : ascii) : bool :=
  let n := nat_of_ascii c in ((n =? 10) || (n =? 13))%nat.

Definition sample_match_data_uri (s : string) : option (string * string) :=
  if startsWith s "data:" && negb (existsb is_line_end (chars s)) then
    match split_last ";base64," (unchars (drop 5 (chars s))) with
    | Some (mime, payload) => if is_empty mime then None else Some (mime, payload)
    | None => None
    end
  else None.

Definition dquote : ascii := ascii_of_nat 34.

Definition quote (s : string) : string :=
  let esc c :=
    if Ascii.eqb c dquote then ["\"%char; dquote]
    else if Ascii.eqb c "\" then ["\"; "\"]%char
    else [c] in
  unchars (dquote :: List.concat (map esc (chars s)) ++ [dquote]).

Fixpoint sample_stringify (v : value) : string :=
  match v with
  | Undefined | Null => "null"
  | Bool b => if b then "true" else "false"
  | Num (Some z) => pretty z
  | Num None => "null"
  | Str s => quote s
  | Bin _ => "{}"
  | Arr items =>
      "[" +:+ String.concat "," (map sample_stringify items) +:+ "]"
  | Obj fields =>
      "{" +:+ String.concat ","
                ((fix members (l : list (string * value)) : list string :=
                    match l with
                    | [] => []
                    | (k, x) :: r =>
                        match x with
                        | Undefined => members r
                        | _ => (quote k +:+ ":" +:+ sample_stringify x) :: members r
                        end
                    end) fields)
          +:+ "}"
  end.

(** [new URL(u).pathname] for [scheme://authority/path?query#fragment]. *)
Fixpoint after_scheme (l : list ascii) : option (list ascii) :=
  match l with
  | [] => None
  | c :: r =>
      match c, r with
      | ":"%char, ("/" :: "/" :: rest)%char => Some rest
      | _, _ => after_scheme r
      end
  end.

Definition pathname (u : string) : option string :=
  match after_scheme (chars u) with
  | Some r =>
      match after "/" r with
      | Some p => Some (unchars ("/"%char :: before "?" (before "#" p)))
      | None => Some "/"
      end
  | None => None
  end.

(** [path.extname(p).replace(".", "")] *)
Definition extension (p : string) : string :=
  let b := rev (chars (basename p)) in
  match after "." b with
  | Some [] | None => ""
  | Some _ => unchars (rev (before "." b))
  end.

#[global] Instance runtime : Runtime := {|
  base64_decode := fun s => base64_groups (omap base64_value (chars s));
  match_data_uri := sample_match_data_uri;
  json_stringify := sample_stringify;
  url_basename := fun u => basename <$> pathname u;
  url_ext := fun u => extension <$> pathname u;
  png_of_webp := fun _ => None;
  cast_string := fun v =>
    match v with
    | Str s => Some s
    | Bool b => Some (if b then "true" else "false")
    | Num (Some z) => Some (pretty z)
    | _ => None
    end
|}.

(** Nothing answers. *)
Definition offline : outside := {|
  process_image := fun _ => Throws;
  get_random_seed := fun _ _ => Throws;
  process_3d := fun _ => Throws;
  fetch := fun _ => FetchThrows;
  accepts_stale_save := true
|}.

(** The endpoints answer with fixed data. *)
Definition answering (segmented seedOut mesh : outcome value) : outside := {|
  process_image := fun _ => segmented;
  get_random_seed := fun _ _ => seedOut;
  process_3d := fun _ => mesh;
  fetch := fun _ => FetchThrows;
  accepts_stale_save := true
|}.

(** A seed endpoint that hands back the seed it is given. *)
Definition echoing : outside := {|
  process_image := fun _ => Throws;
  get_random_seed := fun _ n => Returns (Num n);
  process_3d := fun _ => Throws;
  fetch := fun _ => FetchThrows;
  accepts_stale_save := true
|}.

(** Sample data: a user with one pending asset, and the files of it. *)
Import Store Files Create.

Definition asset1 : asset :=
  {| _id := "a1"; imageUrl := "http://localhost:5000/uploads/images/1700-42.png";
     glbUrl := None; status := Pending;
     meta := {| seed := Some (Some 5); uploadedAt := Some 1700;
                segmentedImage := None |};
     createdAt := 1700 |}.

Definition db1 : gmap string user := {[ "u1" := {| assets := [asset1] |} ]}.

Definition png_bytes : list Z :=
  [0x89; 0x50; 0x4e; 0x47; 0x0d; 0x0a; 0x1a; 0x0a; 0; 0; 0; 0x0d].

Definition fs1 : files :=
  {| images := {[ "1700-42.png" := png_bytes ]}; glbs := ∅ |}.

(** The upload that made [asset1], and what its handler holds afterwards. *)
Definition db0 : gmap string user := {[ "u1" := {| assets := [] |} ]}.

Definition req1 : request :=
  {| userId := "u1";
     file := Some {| filename := "1700-42.png"; mimetype := "image/png" |};
     body := [("seed", Str "5")];
     protocol := "http";
     host := Some "localhost:5000" |}.

Definition cx1 : context :=
  {| cx_uid := "u1"; cx_user := {| assets := [asset1] |}; cx_assetId := "a1";
     cx_file := {| filename := "1700-42.png"; mimetype := "image/png" |};
     cx_body := [("seed", Str "5")];
     cx_providedSeed := Some (Some 5);
     cx_protocol := "http"; cx_host := "localhost:5000";
     cx_imagePath := "/uploads/images/1700-42.png";
     cx_imageUrl := "http://localhost:5000/uploads/images/1700-42.png" |}.

Definition glb_bytes : list Z :=
  utf8_bytes "glTF" ++ [2; 0; 0; 0; 12; 0; 0; 0].

(** A service that answers the segmentation with a PNG and the generation
    with a GLB, both as binary buffers, and has no seed endpoint. *)
Definition service : outside :=
  answering (Returns (Bin png_bytes)) Throws (Returns (Bin glb_bytes)).

(** A generation that answers with the URL of the mesh. *)
Definition service_by_url : outside :=
  {| process_image := fun _ => Throws;
     get_random_seed := fun _ _ => Returns (Str "77");
     process_3d := fun _ => Returns (Arr [Str "https://cdn.example.com/out/mesh.glb?v=2"]);
     fetch := fun u =>
       if String.eqb u "https://cdn.example.com/out/mesh.glb?v=2"
       then FetchOk glb_bytes else FetchNotOk;
     accepts_stale_save := true |}.

(** The same service in front of a store that rejects stale saves. *)
Definition service_versioned : outside :=
  {| process_image := process_image service;
     get_random_seed := get_random_seed service;
     process_3d := process_3d service;
     fetch := fetch service;
     accepts_stale_save := false |}.

Definition segmented1 : string :=
  "http://localhost:5000/uploads/images/processed-s1.png".

Definition generated1 : string :=
  "http://localhost:5000/uploads/glb/generated-s2.glb".

(** The system before the upload, after it, and after its background task. *)
Import Lifecycle.

Definition db2 : gmap string user :=
  {[ "u1" := {| assets := [set_segmentedImage segmented1 asset1] |} ]}.

Definition state0 : state :=
  {| db := db0; fs := {| images := ∅; glbs := ∅ |}; uploads := [] |}.

Definition state1 : state :=
  {| db := db1; fs := fs1; uploads := [(cx1, None)] |}.

Definition state2 : state :=
  {| db := {[ "u1" := {| assets := [mark_ready generated1 1900 asset1] |} ]};
     fs := write_glb "generated-s2.glb" glb_bytes fs1;
     uploads := [] |}.

End Sample.

(** ** The names and locators of the files the upload route writes *)

Module Names.
Import Js Create.

Definition image_name (stamp ext : string) : string :=
  "processed-" +:+ stamp +:+ "." +:+ or_default ext "png".

Definition image_url (protocol host name : string) : string :=
  protocol +:+ "://" +:+ host +:+ "/uploads/images/" +:+ name.

Definition glb_name (stamp : string) : string := "generated-" +:+ stamp +:+ ".glb".

Definition glb_url (protocol host name : string) : string :=
  protocol +:+ "://" +:+ host +:+ "/uploads/glb/" +:+ name.

End Names.

(** ** The multer configuration of the upload route ([create.js]) *)

Module Multer.
Import Js.

(** [s.toLowerCase()] on the ASCII letters. *)
Definition lower (c : ascii) : ascii :=
  let n := nat_of_ascii c in
  if ((65 <=? n) && (n <=? 90))%nat then ascii_of_nat (n + 32) else c.

Definition toLowerCase (s : string) : string := unchars (map lower (chars s)).

(** [path.extname(p)] (POSIX): the part of the base name from its last dot
    on; empty when there is no dot, when the last dot is the first
    character of the base name, and for [".."]. *)
Definition extname (p : string) : string :=
  let rb := before "/" (drop_leading "/" (rev (chars p))) in
  match after "." rb with
  | None => ""
  | Some [] => ""
  | Some pre =>
      match before "." rb, pre with
      | [], ["."%char] => ""
      | e, _ => unchars ("."%char :: rev e)
      end
  end.

(** [/jpeg|jpg|png/.test(s)] *)
Definition allowedTypes (s : string) : bool :=
  includes s "jpeg" || includes s "jpg" || includes s "png".

(** The [fileFilter] callback: [true] is [cb(null, true)], [false] is the
    error "Only .png, .jpg, and .jpeg files are allowed". *)
Definition fileFilter (originalname mimetype : string) : bool :=
  allowedTypes (toLowerCase (extname originalname)) && allowedTypes mimetype.

(** The [filename] callback of the disk storage; [stamp] stands for
    [`${Date.now()}-${Math.round(Math.random() * 1e9)}`]. *)
Definition uniqueName (stamp originalname : string) : string :=
  stamp +:+ extname (if is_empty originalname then ".png" else originalname).

End Multer.

(** ** The status poller of the Create page ([pages/Create.tsx]) *)

Module Client.
Import Js Store Env Create Assets.

Section Poller.
Context `{Runtime}.

(** What one [fetch] of the asset comes back with: an exception (also of
    [resp.json()]), or a response with its status and, in its body, the
    asset when there is one. *)
Inductive polled :=
| PollThrows
| Http (status : nat) (body : option asset).

(** [resp.ok] *)
Definition ok (status : nat) : bool := ((200 <=? status) && (status <=? 299))%nat.

Record PollResult := {
  segmented : option string;
  glb : option string;
  polled_asset : option asset
}.

(** [x || null] on a field that holds a string when it is there. *)
Definition or_null (x : option string) : option string :=
  if present x then x else None.

(** One turn of the loop: [Some r] is [return r] ([r] itself [null] on an
    authorisation error), [None] goes on to the pause and the next turn. *)
Definition poll_turn (needSegmented needGlb : bool) (r : polled)
    : option (option PollResult) :=
  match r with
  | PollThrows => None
  | Http status body =>
      if negb (ok status) then
        if ((status =? 401) || (status =? 403))%nat then Some None else None
      else
        let segmented := or_null (body ≫= fun a => segmentedImage (meta a)) in
        let glb := or_null (body ≫= glbUrl) in
        let found := Some (Some {| segmented := segmented; glb := glb;
                                   polled_asset := body |}) in
        if needSegmented && needGlb then
          if present segmented && present glb then found else None
        else if needSegmented && present segmented then found
        else if needGlb && present glb then found
        else if negb needSegmented && negb needGlb then found
        else None
  end.

(** The loop from turn [attempt] with [remaining] turns left; the result
    comes with the number of fetches made. *)
Fixpoint poll_loop (server : nat -> polled) (needSegmented needGlb : bool)
    (attempt remaining : nat) : option PollResult * nat :=
  match remaining with
  | O => (None, attempt)
  | S remaining' =>
      match poll_turn needSegmented needGlb (server attempt) with
      | Some result => (result, S attempt)
      | None => poll_loop server needSegmented needGlb (S attempt) remaining'
      end
  end.

(** [pollForAsset(assetId, needSegmented, needGlb, maxAttempts)]; [server]
    gives the answer to the fetch of each turn. *)
Definition pollForAsset (server : nat -> polled) (assetId : string)
    (needSegmented needGlb : bool) (maxAttempts : nat) : option PollResult * nat :=
  if is_empty assetId then (None, O)
  else poll_loop server needSegmented needGlb 0 maxAttempts.

(** The answer of GET /api/assets/:assetId as the poller receives it. *)
Definition answer (r : response asset) : polled :=
  match r with
  | Json code a => Http code (Some a)
  | Error code _ => Http code None
  end.

End Poller.
End Client.

(** ** The upload route behind its multer middleware ([create.js])

    Multer filters the incoming file, stores it in [uploads/images] under
    the generated name and only then runs the handler.  Requests within
    the size limit are covered. *)

Module UploadRoute.
Import Js Store Files Env Create Multer.

Section Route.
Context `{Runtime}.

(** The file part of a multipart request. *)
Record part := { originalname : string; part_mimetype : string; content : list Z }.

(** [upload.single("image")]: the error message of the filter, or
    [req.file] and the files after the upload was stored. *)
Definition receive (stamp : string) (incoming : option part) (fs : files)
    : string + (option uploaded * files) :=
  match incoming with
  | None => inr (None, fs)
  | Some p =>
      if fileFilter (originalname p) (part_mimetype p) then
        let name := uniqueName stamp (originalname p) in
        inr (Some {| filename := name; mimetype := part_mimetype p |},
             write_image name (content p) fs)
      else inl "Only .png, .jpg, and .jpeg files are allowed"
  end.

Definition with_file (f : option uploaded) (req : request) : request :=
  {| userId := userId req; file := f; body := body req;
     protocol := protocol req; host := host req |}.

(** The route up to the creation of the asset: an error reply, or what the
    handler holds from then on. *)
Definition post_upload (stamp aid : string) (now : Z) (req : request)
    (incoming : option part) (db : gmap string user) (fs : files)
    : ((nat * string) + context) * gmap string user * files :=
  match receive stamp incoming fs with
  | inl message => (inl (400%nat, message), db, fs)
  | inr (f, fs') =>
      match create_asset aid now (with_file f req) db with
      | inl e => (inl e, db, fs')
      | inr (db', cx) => (inr cx, db', fs')
      end
  end.

(** The request up to its reply: once the asset is created, STEP A runs and
    the reply is sent; [stamp'] is the stamp of the file STEP A writes.
    With the reply come the handler's variables and [segmentedImageUrl],
    which the background task starts from. *)
Definition upload (env : outside) (stamp stamp' aid : string) (now : Z)
    (req : request) (incoming : option part)
    (db : gmap string user) (fs : files)
    : ((nat * string) + (immediateResponse * context * option string))
      * gmap string user * files :=
  match post_upload stamp aid now req incoming db fs with
  | (inl e, db1, fs1) => (inl e, db1, fs1)
  | (inr cx, db1, fs1) =>
      let '(db2, fs2, cx', segmentedImageUrl) := segment env stamp' cx db1 fs1 in
      (inr (respond cx' segmentedImageUrl, cx', segmentedImageUrl), db2, fs2)
  end.

End Route.
End UploadRoute.

(** ** The shape of a stored record *)

Module Shape.
Import Js Store Files Env Create Assets Lifecycle.

Section System.
Context `{Runtime}.

(** A record as the routes leave it: its image is under [uploads/images];
    it is pending with no mesh, or ready with one. *)
Definition settled (a : asset) : Prop :=
  includes (imageUrl a) "/uploads/images/" = true /\
  ((status a = Pending /\ glbUrl a = None) \/
   (status a = Ready /\ is_Some (glbUrl a))).

Definition settled_everywhere (s : state) : Prop :=
  all_assets settled (db s) /\
  Forall (fun r => Forall settled (assets (cx_user r.1))) (uploads s).

End System.
End Shape.

(** ** More sample data: an upload as the client sends it, and servers for
    the poller *)

Module Cases.
Import Js Store Files Env Create Assets UploadRoute Client Sample.

Definition empty_files : files := {| images := ∅; glbs := ∅ |}.

(** The request of [Sample.req1] before multer has run. *)
Definition req0 : request :=
  {| userId := "u1"; file := None; body := [("seed", Str "5")];
     protocol := "http"; host := Some "localhost:5000" |}.

Definition part1 : part :=
  {| originalname := "photo.PNG"; part_mimetype := "image/png";
     content := png_bytes |}.

(** [asset1] once its segmented image is recorded. *)
Definition asset1_segmented : asset := set_segmentedImage segmented1 asset1.

(** The files of [asset1] with its segmented image. *)
Definition fs1_segmented : files := write_image "processed-s1.png" png_bytes fs1.

(** A mesh that belongs to somebody else, and a URL that ends in its name. *)
Definition fs1_with_mesh : files := write_glb "other.glb" glb_bytes fs1.

Definition foreign_url : string := "http://elsewhere.example/uploads/glb/other.glb".

(** A server that never has the asset. *)
Definition server_missing : nat -> polled := fun _ => Http 404 None.

(** A server that fails twice and then refuses the token. *)
Definition server_refusing : nat -> polled :=
  fun k => if (k <? 2)%nat then PollThrows else Http 401 None.

(** A server that has the asset with its segmented image, and no mesh. *)
Definition server_segmented : nat -> polled :=
  fun _ => Http 200 (Some asset1_segmented).









Definition result_segmented : PollResult :=
  {| segmented := Some segmented1; glb := None;
     polled_asset := Some asset1_segmented |}.

End Cases.
Module SnifferFacts.
Import Js Sniffer.

Example sniff_png :
  detectMimeFromBuffer [0x89;0x50;0x4e;0x47;0x0d;0x0a;0x1a;0x0a;0;0;0;0x0d]
  = Some png_info.
Proof. reflexivity. Qed.

Example sniff_short_png :
  detectMimeFromBuffer [0x89;0x50;0x4e;0x47;0x0d;0x0a;0x1a;0x0a] = None.
Proof. reflexivity. Qed.

Example sniff_webp :
  detectMimeFromBuffer (utf8_bytes "RIFF" ++ [1;2;3;4] ++ utf8_bytes "WEBPVP8 ")
  = Some webp_info.
Proof. reflexivity. Qed.

Lemma byte_is_spec (buf : list Z) (i : nat) (v : Z) :
  byte_is buf i v = true <-> buf !! i = Some v.
Proof.
  unfold byte_is. destruct (buf !! i) as [b|]; [|split; discriminate].
  rewrite Z.eqb_eq. split; congruence.
Qed.

Lemma png_test_spec (buf : list Z) :
  reflect (begins_with png_magic buf)
    (byte_is buf 0 0x89 && byte_is buf 1 0x50
     && byte_is buf 2 0x4e && byte_is buf 3 0x47).
Proof.
  apply iff_reflect. rewrite !andb_true_iff, !byte_is_spec.
  unfold begins_with, png_magic.
  destruct buf as [|a [|b [|c [|d r]]]]; simpl; rewrite ?take_0;
    (split; [intros ? | intros (((?&?)&?)&?)]); by simplify_eq/=.
Qed.

Lemma jpeg_test_spec (buf : list Z) :
  reflect (begins_with jpeg_magic buf) (byte_is buf 0 0xff && byte_is buf 1 0xd8).
Proof.
  apply iff_reflect. rewrite !andb_true_iff, !byte_is_spec.
  unfold begins_with, jpeg_magic.
  destruct buf as [|a [|b r]]; simpl; rewrite ?take_0;
    (split; [intros ? | intros (?&?)]); by simplify_eq/=.
Qed.

Lemma prefix_test_spec (s : string) (buf : list Z) :
  reflect (begins_with (utf8_bytes s) buf)
    (toString_is (slice 0 (length (utf8_bytes s)) buf) s).
Proof.
  unfold toString_is, begins_with, slice. rewrite Nat.sub_0_r, drop_0.
  apply bool_decide_reflect.
Qed.

Lemma webp_test_spec (buf : list Z) :
  reflect (is_webp buf)
    (toString_is (slice 0 4 buf) "RIFF" && toString_is (slice 8 12 buf) "WEBP").
Proof.
  apply iff_reflect. rewrite andb_true_iff.
  unfold toString_is, is_webp, begins_with, riff_magic, webp_magic, slice.
  rewrite !bool_decide_eq_true. reflexivity.
Qed.

(** The four signatures differ in their first byte. *)
Lemma first_byte (sig buf : list Z) (b : Z) :
  begins_with sig buf -> sig !! 0%nat = Some b -> buf !! 0%nat = Some b.
Proof.
  unfold begins_with. intros <- H.
  destruct buf, (length sig); cbn in *; congruence.
Qed.

Lemma signatures_exclusive (s1 s2 buf : list Z) (b1 b2 : Z) :
  s1 !! 0%nat = Some b1 -> s2 !! 0%nat = Some b2 -> b1 <> b2 ->
  begins_with s1 buf -> begins_with s2 buf -> False.
Proof.
  intros H1 H2 Hne B1 B2.
  pose proof (first_byte _ _ _ B1 H1). pose proof (first_byte _ _ _ B2 H2).
  congruence.
Qed.

(** C6: the classifier is decided by the leading bytes alone, on buffers of
    at least 12 bytes; every shorter buffer, and every buffer matching no
    signature, is unknown ([None]).  The function takes the bytes as its
    only argument and returns a value, so neither a declared MIME type nor
    a file name nor any state can influence it. *)
Theorem detectMimeFromBuffer_classifies (buf : list Z) :
  (detectMimeFromBuffer buf = Some png_info
     <-> (12 <= length buf)%nat /\ begins_with png_magic buf) /\
  (detectMimeFromBuffer buf = Some jpeg_info
     <-> (12 <= length buf)%nat /\ begins_with jpeg_magic buf) /\
  (detectMimeFromBuffer buf = Some webp_info
     <-> (12 <= length buf)%nat /\ is_webp buf) /\
  (detectMimeFromBuffer buf = Some glb_info
     <-> (12 <= length buf)%nat /\ begins_with gltf_magic buf) /\
  (detectMimeFromBuffer buf = None
     <-> (length buf < 12)%nat \/
         ~ begins_with png_magic buf /\ ~ begins_with jpeg_magic buf /\
         ~ is_webp buf /\ ~ begins_with gltf_magic buf) /\
  (detectMimeFromBuffer buf = None \/
   detectMimeFromBuffer buf = Some png_info \/
   detectMimeFromBuffer buf = Some jpeg_info \/
   detectMimeFromBuffer buf = Some webp_info \/
   detectMimeFromBuffer buf = Some glb_info).
Proof.
  unfold detectMimeFromBuffer.
  destruct (Nat.ltb_spec (length buf) 12) as [Hlt|Hge].
  { repeat split; try discriminate; intros; try lia; auto;
      match goal with H : _ /\ _ |- _ => destruct H; lia end. }
  assert (PJ : begins_with png_magic buf -> begins_with jpeg_magic buf -> False)
    by (apply (signatures_exclusive _ _ _ 0x89 0xff); easy).
  assert (PR : begins_with png_magic buf -> begins_with riff_magic buf -> False)
    by (apply (signatures_exclusive _ _ _ 0x89 82); easy).
  assert (PG : begins_with png_magic buf -> begins_with gltf_magic buf -> False)
    by (apply (signatures_exclusive _ _ _ 0x89 103); easy).
  assert (JR : begins_with jpeg_magic buf -> begins_with riff_magic buf -> False)
    by (apply (signatures_exclusive _ _ _ 0xff 82); easy).
  assert (JG : begins_with jpeg_magic buf -> begins_with gltf_magic buf -> False)
    by (apply (signatures_exclusive _ _ _ 0xff 103); easy).
  assert (RG : begins_with riff_magic buf -> begins_with gltf_magic buf -> False)
    by (apply (signatures_exclusive _ _ _ 82 103); easy).
  assert (WR : is_webp buf -> begins_with riff_magic buf) by (intros [? _]; auto).
  change (toString_is (slice 0 4 buf) "glTF")
    with (toString_is (slice 0 (length (utf8_bytes "glTF")) buf) "glTF").
  destruct (png_test_spec buf) as [P|P];
    [|destruct (jpeg_test_spec buf) as [J|J];
      [|destruct (webp_test_spec buf) as [W|W];
        [|destruct (prefix_test_spec "glTF" buf) as [G|G]]]];
    change (utf8_bytes "glTF") with gltf_magic in *;
    repeat split; intros; try discriminate; try lia; try tauto;
    try apply W;
    try (exfalso;
         match goal with
         | H : _ \/ _ |- _ => destruct H as [?|(?&?&?&?)]; [lia | tauto]
         end).
Qed.

End SnifferFacts.

(** * Facts about strings *)

Module JsFacts.
Import Js Files.

Lemma chars_app (a b : string) : chars (a +:+ b) = (chars a ++ chars b)%list.
Proof. unfold chars. induction a as [|c a IH]; simpl; [reflexivity | now rewrite IH]. Qed.

Lemma unchars_chars (s : string) : unchars (chars s) = s.
Proof. apply string_of_list_ascii_of_string. Qed.

Lemma prefix_app (n b : string) : String.prefix n (n +:+ b) = true.
Proof.
  induction n as [|c n IH]; simpl; [now destruct b|].
  destruct (ascii_dec c c); [assumption | contradiction].
Qed.

Lemma includes_unfold (s needle : string) :
  includes s needle
  = String.prefix needle s ||
    match s with
    | EmptyString => false
    | String _ rest => includes rest needle
    end.
Proof. now destruct s. Qed.

Lemma includes_cons (c : ascii) (s needle : string) :
  includes (String c s) needle
  = String.prefix needle (String c s) || includes s needle.
Proof. reflexivity. Qed.

Lemma includes_app (a needle b : string) :
  includes (a +:+ needle +:+ b) needle = true.
Proof.
  induction a as [|c a IH].
  - change (EmptyString +:+ needle +:+ b) with (needle +:+ b).
    now rewrite includes_unfold, prefix_app.
  - change (String c a +:+ needle +:+ b) with (String c (a +:+ needle +:+ b)).
    rewrite includes_cons, IH. apply orb_true_r.
Qed.

Lemma append_assoc (a b c : string) : (a +:+ b) +:+ c = a +:+ b +:+ c.
Proof.
  induction a as [|x a IH]; [reflexivity|].
  change (String x ((a +:+ b) +:+ c) = String x (a +:+ b +:+ c)).
  now rewrite IH.
Qed.

Lemma is_empty_false (s : string) : s <> "" -> is_empty s = false.
Proof. intros Hs. unfold is_empty. now destruct (String.eqb_spec s ""). Qed.

Lemma app_nonempty (a b : string) : b <> "" -> a +:+ b <> "".
Proof. destruct a; simpl; [auto | discriminate]. Qed.

Lemma before_app_stop (c : ascii) (l r : list ascii) :
  ~ In c l -> before c (l ++ c :: r) = l.
Proof.
  induction l as [|x l IH]; simpl; intros Hn.
  - now rewrite Ascii.eqb_refl.
  - destruct (Ascii.eqb_spec x c) as [->|_]; [exfalso; auto|].
    rewrite IH; auto.
Qed.

Lemma drop_leading_other (c x : ascii) (l : list ascii) :
  x <> c -> drop_leading c (x :: l) = x :: l.
Proof. intros Hx. simpl. now destruct (Ascii.eqb_spec x c). Qed.

(** The base name of [.../f] is [f]. *)
Lemma basename_last_segment (pre : list ascii) (f : string) :
  plain_name f -> basename (unchars (pre ++ "/"%char :: chars f)) = f.
Proof.
  intros [Hne Hslash]. unfold basename.
  unfold chars at 1, unchars at 2. rewrite list_ascii_of_string_of_list_ascii.
  rewrite rev_app_distr. simpl rev. rewrite <- !app_assoc. simpl.
  assert (Hrev : ~ In "/"%char (rev (chars f))) by (now rewrite <- in_rev).
  destruct (rev (chars f)) as [|x l] eqn:E.
  { exfalso. apply Hne. rewrite <- (unchars_chars f).
    rewrite <- (rev_involutive (chars f)), E. reflexivity. }
  rewrite <- app_comm_cons, drop_leading_other by (intros ->; apply Hrev; now left).
  rewrite app_comm_cons, before_app_stop by assumption.
  rewrite <- E, rev_involutive. apply unchars_chars.
Qed.

Lemma image_locator_guard (url f : string) :
  image_locator url f ->
  is_empty url = false /\ includes url "/uploads/images/" = true /\ basename url = f.
Proof.
  intros [Hp [origin ->]]. split; [|split].
  - apply is_empty_false, app_nonempty. discriminate.
  - apply includes_app.
  - assert (E : origin +:+ "/uploads/images/" +:+ f
                = unchars ((chars origin ++ chars "/uploads/images") ++ "/"%char :: chars f)).
    { rewrite <- (unchars_chars (origin +:+ _)), chars_app, <- app_assoc.
      reflexivity. }
    rewrite E. now apply basename_last_segment.
Qed.

Lemma glb_locator_guard (url f : string) :
  glb_locator url f ->
  is_empty url = false /\ includes url "/uploads/glb/" = true /\ basename url = f.
Proof.
  intros [Hp [origin ->]]. split; [|split].
  - apply is_empty_false, app_nonempty. discriminate.
  - apply includes_app.
  - assert (E : origin +:+ "/uploads/glb/" +:+ f
                = unchars ((chars origin ++ chars "/uploads/glb") ++ "/"%char :: chars f)).
    { rewrite <- (unchars_chars (origin +:+ _)), chars_app, <- app_assoc.
      reflexivity. }
    rewrite E. now apply basename_last_segment.
Qed.

End JsFacts.

(** * Facts about the collection *)

Module StoreFacts.
Import Js Store.

Section Lists.
Context `{Numbers}.

Lemma assets_id_modify_id (aid : string) (f : asset -> asset) (l : list asset) (a : asset) :
  assets_id aid l = Some a ->
  _id (f a) = _id a ->
  assets_id aid (modify_id aid f l) = Some (f a).
Proof.
  unfold assets_id. induction l as [|x l IH]; simpl; [discriminate|].
  destruct (String.eqb (_id x) aid) eqn:E; simpl.
  - intros [= ->] Hid. now rewrite Hid, E.
  - intros Hf Hid. rewrite E. auto.
Qed.

Lemma assets_id_modify_id_other (aid b : string) (f : asset -> asset) (l : list asset) :
  b <> aid ->
  (forall a, _id (f a) = _id a) ->
  assets_id b (modify_id aid f l) = assets_id b l.
Proof.
  intros Hne Hid. unfold assets_id. induction l as [|x l IH]; simpl; [reflexivity|].
  destruct (String.eqb (_id x) aid) eqn:E; simpl.
  - rewrite Hid. apply String.eqb_eq in E.
    destruct (String.eqb_spec (_id x) b); [congruence | reflexivity].
  - now rewrite IH.
Qed.

Lemma assets_id_none_modify_id (aid : string) (f : asset -> asset) (l : list asset) :
  assets_id aid l = None -> modify_id aid f l = l.
Proof.
  unfold assets_id. induction l as [|x l IH]; simpl; [reflexivity|].
  destruct (String.eqb (_id x) aid); [discriminate|].
  intros Hn. now rewrite IH.
Qed.

Lemma assets_id_pull_id (aid : string) (l : list asset) :
  assets_id aid (pull_id aid l) = None.
Proof.
  unfold assets_id, pull_id. induction l as [|x l IH]; simpl; [reflexivity|].
  destruct (String.eqb (_id x) aid) eqn:E; simpl; [assumption|].
  now rewrite E.
Qed.

Lemma assets_id_pull_id_other (aid b : string) (l : list asset) :
  b <> aid -> assets_id b (pull_id aid l) = assets_id b l.
Proof.
  intros Hne. unfold assets_id, pull_id. induction l as [|x l IH]; simpl; [reflexivity|].
  destruct (String.eqb_spec (_id x) aid) as [E|E]; simpl.
  - destruct (String.eqb_spec (_id x) b); [congruence | assumption].
  - now rewrite IH.
Qed.

Lemma assets_id_in (aid : string) (l : list asset) (a : asset) :
  assets_id aid l = Some a -> In a l /\ _id a = aid.
Proof.
  unfold assets_id. intros Hf. apply find_some in Hf as [Hin He].
  split; [assumption | now apply String.eqb_eq].
Qed.

Lemma Forall_modify_id (P : asset -> Prop) (aid : string) (f : asset -> asset) (l : list asset) :
  (forall a, P a -> P (f a)) -> Forall P l -> Forall P (modify_id aid f l).
Proof.
  intros Hf. induction 1 as [|x l Hx Hl IH]; simpl; [constructor|].
  destruct (String.eqb (_id x) aid); constructor; auto.
Qed.

Lemma Forall_modify_last (P : asset -> Prop) (f : asset -> asset) (l : list asset) :
  (forall a, P a -> P (f a)) -> Forall P l -> Forall P (modify_last f l).
Proof.
  intros Hf. induction 1 as [|x l Hx Hl IH]; simpl; [constructor|].
  destruct l; constructor; auto.
Qed.

Lemma Forall_pull_id (P : asset -> Prop) (aid : string) (l : list asset) :
  Forall P l -> Forall P (pull_id aid l).
Proof.
  unfold pull_id. induction 1 as [|x l Hx Hl IH]; simpl; [constructor|].
  destruct (negb (String.eqb (_id x) aid)); [constructor|]; auto.
Qed.

Lemma status_or_pending_id (s : asset_status) : status_or_pending s = s.
Proof. now destruct s. Qed.

Lemma save_lookup (uid : string) (doc : user) (db : gmap string user) :
  save uid doc db !! uid = Some doc.
Proof. apply lookup_insert_eq. Qed.

Lemma save_lookup_other (uid uid' : string) (doc : user) (db : gmap string user) :
  uid <> uid' -> save uid doc db !! uid' = db !! uid'.
Proof. intros. now apply lookup_insert_ne. Qed.

End Lists.
End StoreFacts.

(** * The asset routes *)

Module AssetsFacts.
Import Js Sniffer Store Files Env Assets StoreFacts.

Section Routes.
Context `{Runtime}.


Lemma attach_glb_found (uid assetId : string) (file : option string)
    (body : option (list (string * value))) (protocol : string)
    (host : option string) (now : Z) (db : gmap string user)
    (u : user) (a : asset) (v : value) (url : string) :
  db !! uid = Some u ->
  assets_id assetId (assets u) = Some a ->
  match file with
  | Some fname => Some (Str (origin protocol host +:+ "/uploads/glb/" +:+ fname))
  | None =>
      match body with
      | Some b => if truthy (assoc "glbUrl" b) then Some (assoc "glbUrl" b) else None
      | None => None
      end
  end = Some v ->
  stored_string v = Some url ->
  attach_glb uid assetId file body protocol host now db
  = (Json 200 (mark_ready url now a),
     save uid {| assets := modify_id assetId (mark_ready url now) (assets u) |} db).
Proof.
  intros Hu Ha Hv Hs. unfold attach_glb, findById. rewrite Hu, Ha.
  cbv zeta. rewrite Hv, Hs. reflexivity.
Qed.


Lemma unlink_image_gone (f : string) (fs : files) :
  images (unlink_image f fs) !! f = None /\ glbs (unlink_image f fs) = glbs fs.
Proof.
  unfold unlink_image. destruct (images fs !! f) eqn:E; simpl; [|now split].
  split; [apply lookup_delete_eq | reflexivity].
Qed.

Lemma unlink_glb_gone (f : string) (fs : files) :
  glbs (unlink_glb f fs) !! f = None /\ images (unlink_glb f fs) = images fs.
Proof.
  unfold unlink_glb. destruct (glbs fs !! f) eqn:E; simpl; [|now split].
  split; [apply lookup_delete_eq | reflexivity].
Qed.

Lemma unlink_artifacts_images (a : asset) (fs : files) (f : string) :
  image_locator (imageUrl a) f -> images (unlink_artifacts a fs) !! f = None.
Proof.
  intros Hl. apply JsFacts.image_locator_guard in Hl as (He & Hi & Hb).
  unfold unlink_artifacts. rewrite He, Hi, Hb. simpl.
  destruct (glbUrl a) as [g|]; [|apply unlink_image_gone].
  destruct (negb (is_empty g) && includes g "/uploads/glb/");
    [|apply unlink_image_gone].
  rewrite (proj2 (unlink_glb_gone _ _)). apply unlink_image_gone.
Qed.

Lemma unlink_artifacts_glbs (a : asset) (fs : files) (g f : string) :
  glbUrl a = Some g -> glb_locator g f -> glbs (unlink_artifacts a fs) !! f = None.
Proof.
  intros Hg Hl. apply JsFacts.glb_locator_guard in Hl as (He & Hi & Hb).
  unfold unlink_artifacts. rewrite Hg, He, Hi, Hb. simpl. apply unlink_glb_gone.
Qed.

(** The locators the upload route publishes are locators of stored files. *)
Lemma plain_name_wrapped (pre stamp post : string) :
  ~ In "/"%char (chars pre) -> ~ In "/"%char (chars post) -> pre <> "" ->
  plain_name stamp -> plain_name (pre +:+ stamp +:+ post).
Proof.
  intros Hpre Hpost Hne [_ Hs]. split.
  - destruct pre; [contradiction | discriminate].
  - rewrite !JsFacts.chars_app, !in_app_iff. tauto.
Qed.

Lemma saveBufferAsGlb_locator (stamp ext protocol host : string)
    (buffer : list Z) (fs : files) :
  plain_name stamp ->
  glb_locator (Create.saveBufferAsGlb stamp buffer ext protocol host fs).2
    ("generated-" +:+ stamp +:+ ".glb") /\
  glbs (Create.saveBufferAsGlb stamp buffer ext protocol host fs).1
    !! ("generated-" +:+ stamp +:+ ".glb") = Some buffer.
Proof.
  intros Hs. split; [split|].
  - apply plain_name_wrapped; try assumption; try discriminate;
      simpl; intros Hin; repeat (destruct Hin as [Hin|Hin]; [discriminate|]);
      exact Hin.
  - exists (protocol +:+ "://" +:+ host). simpl.
    now rewrite !JsFacts.append_assoc.
  - simpl. apply lookup_insert_eq.
Qed.

(** C9: deleting an existing asset answers success, leaves the user's
    collection without a record of that id (the other records untouched),
    and leaves no stored file under the record's image locator nor, when
    the record has one, under its GLB locator. *)
Theorem delete_asset_removes_record_and_files (uid assetId : string)
    (db : gmap string user) (fs : files) (u : user) (a : asset) :
  db !! uid = Some u ->
  assets_id assetId (assets u) = Some a ->
  let res := delete_asset uid assetId db fs in
  res.1.1 = Json 200 true /\
  (exists u', res.1.2 !! uid = Some u' /\
     assets_id assetId (assets u') = None /\
     forall b, b <> assetId -> assets_id b (assets u') = assets_id b (assets u)) /\
  (forall f, image_locator (imageUrl a) f -> images res.2 !! f = None) /\
  (forall g f, glbUrl a = Some g -> glb_locator g f -> glbs res.2 !! f = None).
Proof.
  intros Hu Ha. unfold delete_asset, findById. rewrite Hu, Ha. simpl.
  split; [reflexivity|]. split; [|split].
  - eexists. split; [apply save_lookup|]. simpl. split.
    + apply assets_id_pull_id.
    + intros b Hb. now apply assets_id_pull_id_other.
  - intros f. apply unlink_artifacts_images.
  - intros g f. apply unlink_artifacts_glbs.
Qed.

(** X23: Deleting an asset a second time answers 404 ("Asset not found",
    or "User not found" when the user is unknown both times) and changes
    neither the collection nor the files. *)
Theorem delete_asset_twice (uid assetId : string) (db : gmap string user) (fs : files) :
  let res := delete_asset uid assetId db fs in
  delete_asset uid assetId res.1.2 res.2
  = (match db !! uid with
     | Some _ => Error 404 "Asset not found"
     | None => Error 404 "User not found"
     end, res.1.2, res.2).
Proof.
  unfold delete_asset, findById. destruct (db !! uid) as [u|] eqn:Hu; simpl.
  - destruct (assets_id assetId (assets u)) eqn:Ha; simpl.
    + rewrite save_lookup. simpl. now rewrite assets_id_pull_id.
    + now rewrite Hu, Ha.
  - now rewrite Hu.
Qed.

End Routes.
End AssetsFacts.

(** * The upload route *)

Module CreateFacts.
Import Js Sniffer Store Files Env Create StoreFacts.

Section Route.
Context `{Runtime}.

(** ** Replies of no recognised shape *)

(** C3, as the code has it.  A reply of no recognised shape is an
    unrecognised string, a structured reply that cannot be resolved, or a
    reply that is neither string, buffer nor object.  The segmentation
    stage stores each as a [.txt] file of [uploads/images] (the string
    verbatim, the others as their JSON text) and reports the locator of
    that file as the segmented image: the phase writes it to
    [meta.segmentedImage] of the record and sends it in the reply.  The
    mesh stage stores a structured reply the same way and reports no mesh;
    an unrecognised string and a primitive reply it only logs.  In both
    stages a structured reply whose first non-empty field among [url],
    [link], [path], [file] is not a string makes the normalisation
    throw. *)
Theorem unrecognized_reply_is_stored_as_diagnostic (env : outside)
    (stamp protocol host : string) (fs : files) :
  let name := "processed-" +:+ stamp +:+ ".txt" in
  let locator := protocol +:+ "://" +:+ host +:+ "/uploads/images/" +:+ name in
  let kept (v : value) (text : string) :=
    (exists s, v = Str s /\ unrecognized s /\ text = s) \/
    (unresolvable v /\ text = json_stringify v) \/
    (primitive v /\ text = json_stringify (or_else v (Obj []))) in
  (forall s, unrecognized s ->
     normalize_segmented env stamp protocol host (Str s) fs
     = Returns (write_image name (utf8_bytes s) fs, Some locator)) /\
  (forall o, unresolvable o ->
     normalize_segmented env stamp protocol host o fs
     = Returns (write_image name (utf8_bytes (json_stringify o)) fs, Some locator)) /\
  (forall o, unresolvable o ->
     normalize_glb env stamp protocol host o fs
     = Returns (write_image name (utf8_bytes (json_stringify o)) fs, None)) /\
  (forall bytes, images (write_image name bytes fs) !! name = Some bytes) /\
  (forall v, primitive v ->
     normalize_segmented env stamp protocol host v fs
     = Returns (write_image name
                  (utf8_bytes (json_stringify (or_else v (Obj [])))) fs,
                Some locator)) /\
  (forall s, unrecognized s ->
     normalize_glb env stamp protocol host (Str s) fs = Returns (fs, None)) /\
  (forall v, primitive v ->
     normalize_glb env stamp protocol host v fs = Returns (fs, None)) /\
  (forall o, ill_typed o ->
     normalize_segmented env stamp protocol host o fs = Throws /\
     normalize_glb env stamp protocol host o fs = Throws) /\
  (forall cx db u a fileBuffer data text,
     cx_protocol cx = protocol -> cx_host cx = host ->
     images fs !! filename (cx_file cx) = Some fileBuffer ->
     process_image env
       {| blob_bytes := fileBuffer;
          blob_type := or_default (mimetype (cx_file cx)) "image/png" |}
     = Returns data ->
     kept (first_output data) text ->
     db !! cx_uid cx = Some u ->
     assets_id (cx_assetId cx) (assets u) = Some a ->
     let res := segment env stamp cx db fs in
     res.2 = Some locator /\
     images res.1.1.2 !! name = Some (utf8_bytes text) /\
     (exists u', res.1.1.1 !! cx_uid cx = Some u' /\
        assets_id (cx_assetId cx) (assets u')
        = Some (set_segmentedImage locator a)) /\
     r_segmentedImageUrl (respond res.1.2 res.2) = Some locator).
Proof.
  intros name locator kept.
  assert (Hstr : forall s, unrecognized s ->
            normalize_segmented env stamp protocol host (Str s) fs
            = Returns (write_image name (utf8_bytes s) fs, Some locator)).
  { intros s (Hd & Hh & Hb). unfold normalize_segmented. now rewrite Hd, Hh, Hb. }
  assert (Hobj : forall o, unresolvable o ->
            normalize_segmented env stamp protocol host o fs
            = Returns (write_image name (utf8_bytes (json_stringify o)) fs,
                       Some locator)).
  { intros o [[[fields ->]|[items ->]] Hc]; unfold normalize_segmented;
      (destruct Hc as [Hc | (u & Hu & Hh)];
       [ now rewrite Hc
       | rewrite Hu in *; simpl truthy; rewrite Hh;
         now destruct (negb (is_empty u)) ]). }
  assert (Hprim : forall v, primitive v ->
            normalize_segmented env stamp protocol host v fs
            = Returns (write_image name
                         (utf8_bytes (json_stringify (or_else v (Obj [])))) fs,
                       Some locator)).
  { intros v Hv. destruct v; try contradiction; reflexivity. }
  split; [exact Hstr|]. split; [exact Hobj|].
  split; [|split; [|split; [exact Hprim|split; [|split; [|split]]]]].
  - intros o [[[fields ->]|[items ->]] Hc]; unfold normalize_glb;
      (destruct Hc as [Hc | (u & Hu & Hh)];
       [ now rewrite Hc
       | rewrite Hu in *; simpl truthy; rewrite Hh;
         now destruct (negb (is_empty u)) ]).
  - intros bytes. apply lookup_insert_eq.
  - intros s (Hd & Hh & Hb). unfold normalize_glb. now rewrite Hd, Hh, Hb.
  - intros v Hv. destruct v; try contradiction; reflexivity.
  - intros o ([[fields ->]|[items ->]] & Ht & Hn);
      unfold normalize_segmented, normalize_glb; rewrite Ht;
      (destruct (candidateUrl_of _) as [| |b|n|u|bytes|l|o'] eqn:Hc;
       try (split; reflexivity); exfalso; now apply (Hn u)).
  - intros cx db u a fileBuffer data text Hp Hh Hfile Hpi Hkept Hu Ha.
    assert (Hnorm : normalize_segmented env stamp protocol host (first_output data) fs
                    = Returns (write_image name (utf8_bytes text) fs, Some locator)).
    { destruct Hkept as [(s & -> & Hs & ->)|[(Hv & ->)|(Hv & ->)]]; auto. }
    assert (Hne : is_empty locator = false).
    { apply JsFacts.is_empty_false. unfold locator.
      apply JsFacts.app_nonempty. discriminate. }
    unfold segment. rewrite Hfile, Hpi, Hp, Hh, Hnorm.
    unfold attach_segmented, findById. rewrite Hne, Hu, Ha. cbn [fst snd].
    split; [reflexivity|]. split; [simpl; apply lookup_insert_eq|]. split.
    + eexists. split; [apply save_lookup|]. simpl.
      now apply assets_id_modify_id.
    + unfold respond, present. cbn [r_segmentedImageUrl]. now rewrite Hne.
Qed.

(** X9: An unrecognised string in the mesh stage is only logged: no file is
    written and no mesh is reported, where the segmentation stage stores
    such a string as a diagnostic. *)
Theorem unrecognized_mesh_string_is_dropped (env : outside)
    (stamp protocol host : string) (fs : files) (s : string) :
  unrecognized s ->
  normalize_glb env stamp protocol host (Str s) fs = Returns (fs, None).
Proof.
  intros (Hd & Hh & Hb). unfold normalize_glb. now rewrite Hd, Hh, Hb.
Qed.

(** ** The parameters sent to [/process_3d] *)

(** A parameter that is absent takes its default; one that is given as a
    number or a string is converted with [Number]. *)
Lemma build_payload_numbers (body : list (string * value))
    (seedFor3d : option number) (b : blob) :
  let p := build_payload body seedFor3d b in
  let sent k d v :=
    match assoc k body with
    | Undefined => v = lit d
    | Null => v = Number Null
    | x => v = Number x
    end in
  sent "num_steps" 50 (num_steps p) /\
  sent "cfg_scale" 7 (cfg_scale p) /\
  sent "grid_res" 384 (grid_res p) /\
  sent "target_num_faces" 100000 (target_num_faces p) /\
  p_seed p = default (lit 0) seedFor3d /\
  input_image p = b.
Proof.
  unfold build_payload; simpl.
  repeat split;
    try (match goal with |- context [assoc ?k body] => destruct (assoc k body) end;
         reflexivity).
  now destruct seedFor3d.
Qed.

Lemma build_payload_simplify_default (body : list (string * value))
    (seedFor3d : option number) (b : blob) :
  assoc "simplify_mesh" body = Undefined ->
  simplify_mesh (build_payload body seedFor3d b) = Bool false.
Proof. intros Hb. unfold build_payload; simpl. now rewrite Hb. Qed.

(** C4, at the inputs where the code departs from it: a caller who asks for
    [simplify_mesh] (["true"] in the form, or [true]) has [false] forwarded,
    and one who declines (["false"], or [false]) has [true] forwarded; the
    numeric parameters and the seed of that same request are forwarded as
    given. *)
Theorem simplify_mesh_is_forwarded_negated (seedFor3d : option number) (b : blob)
    (rest : list (string * value)) :
  simplify_mesh (build_payload (("simplify_mesh", Str "true") :: rest) seedFor3d b)
    = Bool false /\
  simplify_mesh (build_payload (("simplify_mesh", Bool true) :: rest) seedFor3d b)
    = Bool false /\
  simplify_mesh (build_payload (("simplify_mesh", Str "false") :: rest) seedFor3d b)
    = Bool true /\
  simplify_mesh (build_payload (("simplify_mesh", Bool false) :: rest) seedFor3d b)
    = Bool true /\
  num_steps (build_payload [("simplify_mesh", Str "true")] seedFor3d b) = lit 50 /\
  cfg_scale (build_payload [("simplify_mesh", Str "true")] seedFor3d b) = lit 7 /\
  grid_res (build_payload [("simplify_mesh", Str "true")] seedFor3d b) = lit 384 /\
  target_num_faces (build_payload [("simplify_mesh", Str "true")] seedFor3d b)
    = lit 100000 /\
  p_seed (build_payload [("simplify_mesh", Str "true")] seedFor3d b)
    = default (lit 0) seedFor3d.
Proof.
  repeat split; try reflexivity. now destruct seedFor3d.
Qed.

(** ** The seed *)

Lemma resolve_seed_is_some (env : outside) (providedSeed : option number)
    (randomize_seed : value) :
  is_Some (resolve_seed env providedSeed randomize_seed).
Proof.
  unfold resolve_seed.
  destruct (get_random_seed env _ _) as [data|].
  - destruct (usable_seed _); [eauto|]. destruct providedSeed; eauto.
  - destruct providedSeed; eauto.
Qed.

(** C5, as the code has it: the remote operation is asked on every request,
    with the flag and the caller's seed ([0] for none or [NaN]).  A number
    or a string of digits in its reply is the seed; any other reply, or a
    failure of the call, leaves the caller's seed, or [0] when there is
    none.  So the caller's seed is used, without randomisation, when the
    remote operation hands it back. *)
Theorem resolve_seed_follows_remote (env : outside) (providedSeed : option number)
    (randomize_seed : value) :
  let reply :=
    get_random_seed env (truthy randomize_seed) (seed_argument providedSeed) in
  let seedFor3d := resolve_seed env providedSeed randomize_seed in
  (forall data, reply = Returns data -> usable_seed (first_output data) = true ->
     seedFor3d = Some (Number (first_output data))) /\
  (forall data, reply = Returns data -> usable_seed (first_output data) = false ->
     seedFor3d = Some (default (lit 0) providedSeed)) /\
  (reply = Throws -> seedFor3d = Some (default (lit 0) providedSeed)) /\
  (forall n, providedSeed = Some n -> isNaN n = false ->
     reply = Returns (Num n) -> seedFor3d = Some n) /\
  (providedSeed = None -> seed_argument providedSeed = lit 0).
Proof.
  unfold resolve_seed. repeat split.
  - intros data -> ->. reflexivity.
  - intros data -> ->. now destruct providedSeed.
  - intros ->. now destruct providedSeed.
  - intros n -> Hn ->. reflexivity.
  - now intros ->.
Qed.

(** ** The source image of the 3D generation *)

Lemma is_image_some (d : option detected) :
  is_image d = true -> exists i, d = Some i /\ mime_of d = mime i.
Proof. destruct d as [i|]; [eauto | discriminate]. Qed.

Lemma segLocalPath_of_segmented (u f uploadName : string) (fs : files) (seg : list Z) :
  u <> "" -> url_basename u = Some f -> images fs !! f = Some seg ->
  segLocalPath_of (Some u) uploadName fs = f.
Proof.
  intros Hu Hf Hseg. unfold segLocalPath_of, exists_image.
  rewrite JsFacts.is_empty_false, Hf, Hseg by assumption.
  rewrite bool_decide_eq_true_2 by eauto. now rewrite orb_true_r.
Qed.

Lemma select_source_first (segmentedImageUrl : option string) (uploadName : string)
    (fs : files) (first : list Z) :
  images fs !! segLocalPath_of segmentedImageUrl uploadName fs = Some first ->
  is_image (detectMimeFromBuffer first) = true ->
  select_source segmentedImageUrl uploadName fs
  = Returns (Some (first, mime_of (detectMimeFromBuffer first)),
             detectMimeFromBuffer first).
Proof. intros Hf Hi. unfold select_source. now rewrite Hf, Hi. Qed.

Lemma select_source_second (segmentedImageUrl : option string) (uploadName : string)
    (fs : files) (first orig : list Z) :
  images fs !! segLocalPath_of segmentedImageUrl uploadName fs = Some first ->
  is_image (detectMimeFromBuffer first) = false ->
  images fs !! uploadName = Some orig ->
  select_source segmentedImageUrl uploadName fs
  = Returns (if is_image (detectMimeFromBuffer orig)
             then Some (orig, mime_of (detectMimeFromBuffer orig))
             else None,
             detectMimeFromBuffer first).
Proof.
  intros Hf Hi Ho. unfold select_source. rewrite Hf, Hi, Ho. simpl.
  now destruct (is_image (detectMimeFromBuffer orig)).
Qed.

Lemma set_status_same (a : asset) : set_status (status_or_pending (status a)) a = a.
Proof. rewrite status_or_pending_id. now destruct a. Qed.

Lemma modify_id_same (aid : string) (f : asset -> asset) (l : list asset) :
  (forall a, f a = a) -> modify_id aid f l = l.
Proof.
  intros Hf. induction l as [|x l IH]; simpl; [reflexivity|].
  destruct (String.eqb (_id x) aid); [now rewrite Hf | now rewrite IH].
Qed.

Lemma segLocalPath_of_none (uploadName : string) (fs : files) :
  segLocalPath_of None uploadName fs = uploadName.
Proof. reflexivity. Qed.

(** The abort path leaves the collection as it is. *)
Lemma abort_update_unchanged (cx : context) (db : gmap string user) :
  abort_update cx db
  = match db !! cx_uid cx with Some _ => Returns db | None => Throws end.
Proof.
  unfold abort_update, findById, save.
  destruct (db !! cx_uid cx) as [u|] eqn:Hu; [|reflexivity].
  destruct (assets_id _ _); [|reflexivity].
  rewrite modify_id_same by apply set_status_same.
  f_equal. apply insert_id. now destruct u.
Qed.

Lemma fetch_and_save_ext (env env' : outside)
    (store : list Z -> string -> files -> files * string)
    (url dflt : string) (fs : files) :
  fetch env' = fetch env ->
  fetch_and_save env' store url dflt fs = fetch_and_save env store url dflt fs.
Proof. intros Hf. unfold fetch_and_save. now rewrite Hf. Qed.

Lemma normalize_glb_ext (env env' : outside) (stamp protocol host : string)
    (raw3d : value) (fs : files) :
  fetch env' = fetch env ->
  normalize_glb env' stamp protocol host raw3d fs
  = normalize_glb env stamp protocol host raw3d fs.
Proof.
  intros Hf. unfold normalize_glb, fetch_and_save. now rewrite Hf.
Qed.

Lemma attach_generated_ext (env env' : outside) (cx : context)
    (glbUrl : option string) (now : Z) (db : gmap string user) :
  accepts_stale_save env' = accepts_stale_save env ->
  attach_generated env' cx glbUrl now db = attach_generated env cx glbUrl now db.
Proof. intros Ha. unfold attach_generated. now rewrite Ha. Qed.

(** C7: the file read first is the segmented image when the handler holds a
    locator for it and its file is on disk.  That image is selected when
    the sniffer classifies it as an image; otherwise the uploaded image is
    selected when the sniffer classifies that one as an image; and when
    neither is an image the task ends at once, no exception leaving it,
    with the collection, the files and the handler's variables as they
    were.  The selected image is the one used: [/process_3d] is called
    with a payload whose [input_image] holds its bytes and MIME type (or
    its conversion to PNG), the task goes on from the reply to that call,
    and its result depends on the remote generation through that reply
    alone. *)
Theorem source_image_is_segmented_else_upload (env : outside) (stamp : string) (now : Z)
    (cx : context) (segmentedImageUrl : option string) (seedFor3d : option number)
    (db : gmap string user) (fs : files) (orig : list Z) :
  images fs !! filename (cx_file cx) = Some orig ->
  let uploadName := filename (cx_file cx) in
  let chosen := select_source segmentedImageUrl uploadName fs in
  let image_of (buf : list Z) (sent : option (list Z * string)) :=
    exists i, detectMimeFromBuffer buf = Some i /\ sent = Some (buf, mime i) in
  (forall u f seg,
     segmentedImageUrl = Some u -> u <> "" -> url_basename u = Some f ->
     images fs !! f = Some seg ->
     (is_image (detectMimeFromBuffer seg) = true ->
        exists sent, chosen = Returns (sent, detectMimeFromBuffer seg) /\
                     image_of seg sent) /\
     (is_image (detectMimeFromBuffer seg) = false ->
      is_image (detectMimeFromBuffer orig) = true ->
        exists sent, chosen = Returns (sent, detectMimeFromBuffer seg) /\
                     image_of orig sent) /\
     (is_image (detectMimeFromBuffer seg) = false ->
      is_image (detectMimeFromBuffer orig) = false ->
        chosen = Returns (None, detectMimeFromBuffer seg))) /\
  (segLocalPath_of segmentedImageUrl uploadName fs = uploadName ->
     (is_image (detectMimeFromBuffer orig) = true ->
        exists sent, chosen = Returns (sent, detectMimeFromBuffer orig) /\
                     image_of orig sent) /\
     (is_image (detectMimeFromBuffer orig) = false ->
        chosen = Returns (None, detectMimeFromBuffer orig))) /\
  (forall detected, chosen = Returns (None, detected) ->
     generate env stamp now cx segmentedImageUrl seedFor3d db fs
     = (db, fs, cx, match db !! cx_uid cx with Some _ => Aborted | None => Caught end)) /\
  (forall buf m detected, chosen = Returns (Some (buf, m), detected) ->
     let sent := transcode (buf, m) detected in
     let payload :=
       build_payload (cx_body cx) seedFor3d
         {| blob_bytes := sent.1; blob_type := sent.2 |} in
     (sent = (buf, m) \/
      exists png, png_of_webp buf = Some png /\ sent = (png, "image/png")) /\
     input_image payload = {| blob_bytes := sent.1; blob_type := sent.2 |} /\
     generate env stamp now cx segmentedImageUrl seedFor3d db fs
     = match process_3d env payload with
       | Throws => (db, fs, cx, Caught)
       | Returns data =>
           match normalize_glb env stamp (cx_protocol cx) (cx_host cx)
                   (first_output data) fs with
           | Throws => (db, fs, cx, Caught)
           | Returns (fs', glbUrl) =>
               match (attach_generated env cx glbUrl now db).2 with
               | Throws =>
                   (db, fs', (attach_generated env cx glbUrl now db).1, Caught)
               | Returns (db', e) =>
                   (db', fs', (attach_generated env cx glbUrl now db).1, e)
               end
           end
       end /\
     forall env',
       process_3d env' payload = process_3d env payload ->
       fetch env' = fetch env ->
       accepts_stale_save env' = accepts_stale_save env ->
       generate env' stamp now cx segmentedImageUrl seedFor3d db fs
       = generate env stamp now cx segmentedImageUrl seedFor3d db fs).
Proof.
  intros Horig uploadName chosen image_of. split; [|split; [|split]].
  - intros u f seg -> Hu Hf Hseg.
    assert (Hpath : images fs !! segLocalPath_of (Some u) uploadName fs = Some seg)
      by (now rewrite (segLocalPath_of_segmented u f uploadName fs seg)).
    split; [|split].
    + intros Hi. destruct (is_image_some _ Hi) as (i & Hd & Hm).
      eexists. split; [now apply select_source_first|].
      exists i. now rewrite Hm.
    + intros Hi Ho. destruct (is_image_some _ Ho) as (i & Hd & Hm).
      eexists. split; [now apply (select_source_second _ _ _ seg orig)|].
      rewrite Ho. exists i. now rewrite Hm.
    + intros Hi Ho. unfold chosen.
      rewrite (select_source_second _ _ _ seg orig) by assumption. now rewrite Ho.
  - intros Hpath.
    assert (Hfirst : images fs !! segLocalPath_of segmentedImageUrl uploadName fs
                     = Some orig) by (now rewrite Hpath).
    split.
    + intros Ho. destruct (is_image_some _ Ho) as (i & Hd & Hm).
      eexists. split; [now apply select_source_first|].
      exists i. now rewrite Hm.
    + intros Ho. unfold chosen.
      rewrite (select_source_second _ _ _ orig orig) by assumption. now rewrite Ho.
  - intros detected Hc. unfold generate. fold uploadName. fold chosen. rewrite Hc.
    rewrite abort_update_unchanged. now destruct (db !! cx_uid cx).
  - intros buf m detected Hc sent payload.
    assert (Hgen : forall e : outside,
              generate e stamp now cx segmentedImageUrl seedFor3d db fs
              = match process_3d e payload with
                | Throws => (db, fs, cx, Caught)
                | Returns data =>
                    match normalize_glb e stamp (cx_protocol cx) (cx_host cx)
                            (first_output data) fs with
                    | Throws => (db, fs, cx, Caught)
                    | Returns (fs', glbUrl) =>
                        match (attach_generated e cx glbUrl now db).2 with
                        | Throws =>
                            (db, fs', (attach_generated e cx glbUrl now db).1, Caught)
                        | Returns (db', e0) =>
                            (db', fs', (attach_generated e cx glbUrl now db).1, e0)
                        end
                    end
                end).
    { intros e. unfold generate. fold uploadName. fold chosen. rewrite Hc.
      unfold payload, sent. destruct (transcode (buf, m) detected) as [b t].
      cbn [fst snd]. destruct (process_3d e _) as [data|]; [|reflexivity].
      destruct (normalize_glb _ _ _ _ _ _) as [[fs' glbUrl]|]; [|reflexivity].
      now destruct (attach_generated e cx glbUrl now db) as [cx' [[db' e0]|]]. }
    split; [|split; [reflexivity|split; [apply Hgen|]]].
    + unfold sent, transcode. cbn [fst].
      destruct detected as [d|]; [|now left].
      destruct (String.eqb (ext d) "webp"); [|now left].
      destruct (png_of_webp buf) as [png|]; [|now left].
      right. now exists png.
    + intros env' Hp Hf Ha. rewrite !Hgen, Hp.
      destruct (process_3d env payload) as [data|]; [|reflexivity].
      rewrite (normalize_glb_ext env env') by assumption.
      destruct (normalize_glb _ _ _ _ _ _) as [[fs' glbUrl]|]; [|reflexivity].
      now rewrite (attach_generated_ext env env').
Qed.

(** ** What the two phases do to the collection *)

Lemma all_assets_save (P : asset -> Prop) (uid : string) (doc : user)
    (db : gmap string user) :
  all_assets P db -> Forall P (assets doc) -> all_assets P (save uid doc db).
Proof.
  intros Hdb Hdoc uid' u'. unfold save. rewrite lookup_insert.
  case_decide; [intros [= <-]; assumption | apply Hdb].
Qed.

Lemma attach_segmented_preserves (P : asset -> Prop) (env : outside)
    (cx : context) (segmentedImageUrl : option string) (db : gmap string user) :
  (forall url a, P a -> P (set_segmentedImage url a)) ->
  all_assets P db -> Forall P (assets (cx_user cx)) ->
  Forall P (assets (cx_user (attach_segmented env cx segmentedImageUrl db).1)) /\
  forall db', (attach_segmented env cx segmentedImageUrl db).2 = Returns db' ->
              all_assets P db'.
Proof.
  intros Hset Hdb Hcx. unfold attach_segmented, findById.
  destruct segmentedImageUrl as [url|]; [|split; [auto|now intros db' [= <-]]].
  destruct (is_empty url); [split; [auto|now intros db' [= <-]]|].
  destruct (db !! cx_uid cx) as [fresh|] eqn:Hu; [|split; [auto|discriminate]].
  destruct (assets_id _ _).
  - split; [assumption|]. intros db' [= <-].
    apply all_assets_save; [assumption|]. simpl.
    apply Forall_modify_id; eauto.
  - assert (Forall P (modify_last (set_segmentedImage url) (assets (cx_user cx))))
      by (apply Forall_modify_last; auto).
    split; [assumption|]. cbn [snd].
    destruct (accepts_stale_save env); [|discriminate].
    intros db' [= <-]. now apply all_assets_save.
Qed.

Lemma segment_preserves (P : asset -> Prop) (env : outside) (stamp : string)
    (cx cx' : context) (db db' : gmap string user) (fs fs' : files)
    (seg : option string) :
  (forall url a, P a -> P (set_segmentedImage url a)) ->
  all_assets P db -> Forall P (assets (cx_user cx)) ->
  segment env stamp cx db fs = (db', fs', cx', seg) ->
  all_assets P db' /\ Forall P (assets (cx_user cx')).
Proof.
  intros Hset Hdb Hcx. unfold segment.
  destruct (images fs !! _); [|intros [= <- <- <- <-]; auto].
  destruct (process_image env _); [|intros [= <- <- <- <-]; auto].
  destruct (normalize_segmented _ _ _ _ _ _) as [[fs1 seg1]|];
    [|intros [= <- <- <- <-]; auto].
  destruct (attach_segmented_preserves P env cx seg1 db Hset Hdb Hcx) as [Hcx1 Hdb1].
  destruct (attach_segmented env cx seg1 db) as [cx1 [db1|]];
    intros [= <- <- <- <-]; auto.
Qed.

Lemma attach_generated_preserves (P : asset -> Prop) (env : outside)
    (cx : context) (glbUrl : option string) (now : Z) (db : gmap string user) :
  (forall url a, P a -> P (mark_ready url now a)) ->
  all_assets P db -> Forall P (assets (cx_user cx)) ->
  Forall P (assets (cx_user (attach_generated env cx glbUrl now db).1)) /\
  forall db' e, (attach_generated env cx glbUrl now db).2 = Returns (db', e) ->
                all_assets P db'.
Proof.
  intros Hset Hdb Hcx. unfold attach_generated, findById.
  destruct glbUrl as [url|]; [|split; [auto|now intros db' e [= <- _]]].
  destruct (is_empty url); [split; [auto|now intros db' e [= <- _]]|].
  destruct (db !! cx_uid cx) as [fresh|] eqn:Hu; [|split; [auto|discriminate]].
  destruct (assets_id _ _).
  - split; [assumption|]. intros db' e [= <- _].
    apply all_assets_save; [assumption|]. simpl.
    apply Forall_modify_id; eauto.
  - assert (Forall P (modify_last (mark_ready url now) (assets (cx_user cx))))
      by (apply Forall_modify_last; auto).
    split; [assumption|]. cbn [snd].
    destruct (accepts_stale_save env); [|discriminate].
    intros db' e [= <- _]. now apply all_assets_save.
Qed.

Lemma generate_preserves (P : asset -> Prop) (env : outside) (stamp : string)
    (now : Z) (cx cx' : context) (seg seed : option _)
    (db db' : gmap string user) (fs fs' : files) (e : ending) :
  (forall url a, P a -> P (mark_ready url now a)) ->
  all_assets P db -> Forall P (assets (cx_user cx)) ->
  generate env stamp now cx seg seed db fs = (db', fs', cx', e) ->
  all_assets P db' /\ Forall P (assets (cx_user cx')).
Proof.
  intros Hset Hdb Hcx. unfold generate.
  destruct (select_source _ _ _) as [[[sel|] detected]|];
    [| |intros [= <- <- <- <-]; auto].
  - destruct (transcode sel detected) as [bufferToSend mimeToSend].
    destruct (process_3d env _); [|intros [= <- <- <- <-]; auto].
    destruct (normalize_glb _ _ _ _ _ _) as [[fs1 glb]|];
      [|intros [= <- <- <- <-]; auto].
    destruct (attach_generated_preserves P env cx glb now db Hset Hdb Hcx)
      as [Hcx1 Hdb1].
    destruct (attach_generated env cx glb now db) as [cx1 [[db1 e1]|]];
      intros [= <- <- <- <-]; eauto.
  - rewrite abort_update_unchanged.
    destruct (db !! cx_uid cx); intros [= <- <- <- <-]; auto.
Qed.

Lemma background_preserves (P : asset -> Prop) (env : outside) (stamp : string)
    (now : Z) (cx cx' : context) (seg : option string)
    (db db' : gmap string user) (fs fs' : files) (e : ending) :
  (forall url a, P a -> P (mark_ready url now a)) ->
  all_assets P db -> Forall P (assets (cx_user cx)) ->
  background env stamp now cx seg db fs = (db', fs', cx', e) ->
  all_assets P db' /\ Forall P (assets (cx_user cx')).
Proof. unfold background. apply generate_preserves. Qed.

(** ** A record that is gone when it is re-read *)

(** C2, as the code has it: when the re-read collection no longer holds the
    asset, the update is not dropped.  The handler assigns the new fields
    through the asset it created at the start of the request and saves the
    document it loaded then.  Where the store accepts that save, the
    document, the asset included, becomes the stored one; where the store
    rejects it, [save] throws into the enclosing [catch].  Only the abort
    path leaves a missing record alone. *)
Theorem missing_record_is_saved_from_created_asset (env : outside) (cx : context)
    (url : string) (now : Z) (db : gmap string user) (fresh : user) :
  url <> "" ->
  db !! cx_uid cx = Some fresh ->
  assets_id (cx_assetId cx) (assets fresh) = None ->
  let with_segmented :=
    {| assets := modify_last (set_segmentedImage url) (assets (cx_user cx)) |} in
  let with_glb :=
    {| assets := modify_last (mark_ready url now) (assets (cx_user cx)) |} in
  attach_segmented env cx (Some url) db
    = (with_user with_segmented cx,
       if accepts_stale_save env
       then Returns (save (cx_uid cx) with_segmented db)
       else Throws) /\
  attach_generated env cx (Some url) now db
    = (with_user with_glb cx,
       if accepts_stale_save env
       then Returns (save (cx_uid cx) with_glb db, MarkedReadyFallback)
       else Throws) /\
  save (cx_uid cx) with_glb db !! cx_uid cx = Some with_glb /\
  abort_update cx db = Returns db.
Proof.
  intros Hurl Hu Ha. unfold attach_segmented, attach_generated, abort_update, findById.
  rewrite JsFacts.is_empty_false, Hu, Ha by assumption.
  repeat split. apply save_lookup.
Qed.

(** ** The segmented image of a record *)




End Route.
End CreateFacts.

(** * The invariant of the records *)

Module LifecycleFacts.
Import Js Sniffer Store Files Env Create Assets Lifecycle StoreFacts CreateFacts.

Section System.
Context `{Runtime}.

Lemma glb_iff_ready_pending (a : asset) :
  glbUrl a = None -> status a = Pending -> glb_iff_ready a.
Proof. unfold glb_iff_ready. intros -> ->. split; [congruence | discriminate]. Qed.

Lemma glb_iff_ready_mark_ready (url : string) (now : Z) (a : asset) :
  glb_iff_ready (mark_ready url now a).
Proof. unfold glb_iff_ready. simpl. split; [reflexivity | discriminate]. Qed.

Lemma glb_iff_ready_set_segmentedImage (url : string) (a : asset) :
  glb_iff_ready a -> glb_iff_ready (set_segmentedImage url a).
Proof. unfold glb_iff_ready. simpl. auto. Qed.

(** After the creation, [createdAsset] is the last asset of the document the
    handler holds, it is the stored one, and [assetId] is its id. *)
Lemma created_asset_is_last (aid : string) (now : Z) (req : request)
    (db db' : gmap string user) (cx : context) :
  create_asset aid now req db = inr (db', cx) ->
  exists a,
    last_asset (assets (cx_user cx)) = Some a /\
    _id a = cx_assetId cx /\ glbUrl a = None /\ status a = Pending /\
    db' !! cx_uid cx = Some (cx_user cx).
Proof.
  unfold create_asset, findById.
  destruct (file req) as [f|]; [|discriminate].
  destruct (is_empty (userId req)); [discriminate|].
  destruct (db !! userId req) as [user0|]; [|discriminate].
  intros [= <- <-]. simpl. eexists. split.
  - unfold last_asset. rewrite map_app. exact (last_last _ _ _).
  - repeat split. apply save_lookup.
Qed.

Lemma create_asset_preserves (aid : string) (now : Z) (req : request)
    (db db' : gmap string user) (cx : context) :
  all_assets glb_iff_ready db ->
  create_asset aid now req db = inr (db', cx) ->
  all_assets glb_iff_ready db' /\ Forall glb_iff_ready (assets (cx_user cx)).
Proof.
  intros Hdb. unfold create_asset, findById.
  destruct (file req) as [f|]; [|discriminate].
  destruct (is_empty (userId req)); [discriminate|].
  destruct (db !! userId req) as [user0|] eqn:Hu; [|discriminate].
  intros [= <- <-]. simpl.
  assert (Forall glb_iff_ready
            (assets user0 ++ [newAsset aid
               (or_default (protocol req) "http" +:+ "://" +:+
                or_default (default "" (host req)) "localhost:5000" +:+
                "/uploads/images/" +:+ filename f)
               (providedSeed_of (assoc "seed" (body req))) now])).
  { apply Forall_app. split; [eapply Hdb; eauto|].
    constructor; [|constructor]. now apply glb_iff_ready_pending. }
  split; [now apply all_assets_save | assumption].
Qed.

Lemma upload_image_preserves (uid aid : string) (file : option string)
    (protocol : string) (host : option string) (now : Z)
    (db db' : gmap string user) (r : response asset) :
  all_assets glb_iff_ready db ->
  upload_image uid aid file protocol host now db = (r, db') ->
  all_assets glb_iff_ready db'.
Proof.
  intros Hdb. unfold upload_image, findById.
  destruct file as [fname|]; [|now intros [= <- <-]].
  destruct (db !! uid) as [user0|] eqn:Hu; intros [= <- <-]; [|assumption].
  apply all_assets_save; [assumption|]. simpl.
  constructor; [now apply glb_iff_ready_pending | eapply Hdb; eauto].
Qed.

Lemma attach_glb_preserves (uid aid : string) (file : option string)
    (body : option (list (string * value))) (protocol : string)
    (host : option string) (now : Z) (db db' : gmap string user)
    (r : response asset) :
  all_assets glb_iff_ready db ->
  attach_glb uid aid file body protocol host now db = (r, db') ->
  all_assets glb_iff_ready db'.
Proof.
  intros Hdb. unfold attach_glb, findById.
  destruct (db !! uid) as [user0|] eqn:Hu; [|now intros [= <- <-]].
  destruct (assets_id aid (assets user0)); [|now intros [= <- <-]].
  match goal with |- context [match ?g with Some v => _ | None => _ end = _] =>
    destruct g as [v|] end; [|now intros [= <- <-]].
  destruct (stored_string v) as [url|]; intros [= <- <-]; [|assumption].
  apply all_assets_save; [assumption|]. simpl.
  apply Forall_modify_id; [intros; apply glb_iff_ready_mark_ready | eapply Hdb; eauto].
Qed.

Lemma delete_asset_preserves (uid aid : string) (db db' : gmap string user)
    (fs fs' : files) (r : response bool) :
  all_assets glb_iff_ready db ->
  delete_asset uid aid db fs = (r, db', fs') ->
  all_assets glb_iff_ready db'.
Proof.
  intros Hdb. unfold delete_asset, findById.
  destruct (db !! uid) as [user0|] eqn:Hu; [|now intros [= <- <- <-]].
  destruct (assets_id aid (assets user0)); intros [= <- <- <-]; [|assumption].
  apply all_assets_save; [assumption|]. simpl.
  apply Forall_pull_id. eapply Hdb; eauto.
Qed.

Lemma initial_invariant (s : state) : initial s -> invariant s.
Proof.
  intros [Hempty Hup]. split.
  - intros uid u Hu. rewrite (Hempty uid u Hu). constructor.
  - rewrite Hup. constructor.
Qed.

Lemma step_invariant (s s' : state) : invariant s -> step s s' -> invariant s'.
Proof.
  intros [Hdb Hup] Hstep.
  destruct Hstep as
    [ s uid Hfree
    | s req f bytes aid now db' cx Hfile Hcreate
    | s pre cx seg0 post env stamp db' fs' cx' seg Hsplit Hseg
    | s pre cx seg post env stamp now db' fs' cx' e Hsplit Hbg
    | s uid aid fname bytes protocol host now r db' Himg
    | s uid aid upload body protocol host now r db' fs' Hattach
    | s uid aid r db' fs' Hdel ];
    unfold invariant; simpl.
  - split; [|assumption]. intros uid' u'. rewrite lookup_insert.
    case_decide; [intros [= <-]; constructor | apply Hdb].
  - destruct (create_asset_preserves _ _ _ _ _ _ Hdb Hcreate) as [Hdb' Hcx].
    split; [assumption | now constructor].
  - rewrite Hsplit in Hup. apply Forall_app in Hup as [Hpre Hrest].
    apply Forall_cons in Hrest as [Hcx Hpost].
    destruct (segment_preserves glb_iff_ready _ _ _ _ _ _ _ _ _
                glb_iff_ready_set_segmentedImage Hdb Hcx Hseg) as [Hdb' Hcx'].
    split; [assumption|]. apply Forall_app. split; [assumption | now constructor].
  - rewrite Hsplit in Hup. apply Forall_app in Hup as [Hpre Hrest].
    apply Forall_cons in Hrest as [Hcx Hpost].
    destruct (background_preserves glb_iff_ready _ _ _ _ _ _ _ _ _ _ _
                (fun url a _ => glb_iff_ready_mark_ready url now a) Hdb Hcx Hbg)
      as [Hdb' _].
    split; [assumption|]. apply Forall_app. now split.
  - split; [|assumption]. eapply upload_image_preserves; eauto.
  - split; [|assumption]. unfold post_attach_glb in Hattach.
    destruct (attach_glb _ _ _ _ _ _ _ _) as [r0 db0] eqn:Ha.
    injection Hattach as <- <- <-. eapply attach_glb_preserves; eauto.
  - split; [|assumption]. eapply delete_asset_preserves; eauto.
Qed.

Lemma reachable_invariant (s : state) : reachable s -> invariant s.
Proof.
  induction 1 as [s Hi | s s' _ IH Hstep].
  - now apply initial_invariant.
  - eapply step_invariant; eauto.
Qed.

(** C1: in every state the system reaches from a collection without assets,
    by registrations, uploads with their segmentation and background
    steps, image uploads, attach-glb requests and deletions in any order,
    every record of the collection has a [glbUrl] exactly when its status
    is [ready]. *)
Theorem glbUrl_iff_ready (s : state) (uid : string) (u : user) (a : asset) :
  reachable s ->
  db s !! uid = Some u ->
  In a (assets u) ->
  glbUrl a <> None <-> status a = Ready.
Proof.
  intros Hr Hu Ha. destruct (reachable_invariant s Hr) as [Hdb _].
  specialize (Hdb uid u Hu). rewrite List.Forall_forall in Hdb. now apply Hdb.
Qed.

End System.
End LifecycleFacts.

(** * Scenarios: the model run on the sample data *)

Module Scenarios.
Import Js Sniffer Store Files Env Create Assets Lifecycle Sample.


Lemma delete_asset_removes_record_and_files_witness :
  db1 !! "u1" = Some {| assets := [asset1] |} /\
  assets_id "a1" [asset1] = Some asset1 /\
  image_locator (imageUrl asset1) "1700-42.png" /\
  images (snd (delete_asset "u1" "a1" db1 fs1)) !! "1700-42.png" = None.
Proof.
  assert (Hloc : image_locator (imageUrl asset1) "1700-42.png").
  { split; [split; [discriminate|]|].
    - simpl. intros Hin. repeat (destruct Hin as [Hin|Hin]; [discriminate|]).
      exact Hin.
    - exists "http://localhost:5000". reflexivity. }
  split; [reflexivity|]. split; [reflexivity|]. split; [exact Hloc|].
  destruct (AssetsFacts.delete_asset_removes_record_and_files
              "u1" "a1" db1 fs1 {| assets := [asset1] |} asset1 eq_refl eq_refl)
    as (_ & _ & Himg & _).
  exact (Himg "1700-42.png" Hloc).
Defined.

(** C5 fails as stated: with the seed 5 supplied and no randomisation asked
    for, a remote reply of 7 makes 7 the seed of the mesh generation. *)
Lemma supplied_seed_is_replaced :
  truthy (Bool false) = false /\
  resolve_seed (answering Throws (Returns (Num (Some 7))) Throws)
    (Some (Some 5)) (Bool false) = Some (Some 7) /\
  resolve_seed (answering Throws (Returns (Num (Some 7))) Throws)
    (Some (Some 5)) (Bool false) <> Some (Some 5).
Proof. repeat split. discriminate. Qed.

(** C3 fails as stated: an unrecognised segmentation reply is stored as a
    diagnostic, and the diagnostic's locator is reported as the stage's
    artifact: it is written to the record and sent in the reply.  And an
    object whose [url] is a number, which is no absolute URL, makes the
    normalisation throw. *)
Lemma diagnostic_locator_is_reported :
  let env := answering (Returns (Str "oops")) Throws Throws in
  let res := segment env "s1" cx1 db1 fs1 in
  let diagnostic := "http://localhost:5000/uploads/images/processed-s1.txt" in
  unrecognized "oops" /\
  res.2 = Some diagnostic /\
  (assets <$> res.1.1.1 !! "u1") = Some [set_segmentedImage diagnostic asset1] /\
  r_segmentedImageUrl (respond res.1.2 res.2) = Some diagnostic /\
  images res.1.1.2 !! "processed-s1.txt" = Some (utf8_bytes "oops") /\
  normalize_segmented env "s1" "http" "localhost:5000"
    (Obj [("url", Num (Some 5))]) fs1 = Throws.
Proof. repeat split. Qed.

Lemma unrecognized_reply_is_stored_as_diagnostic_witness :
  unrecognized "oops" /\
  normalize_segmented offline "s1" "http" "localhost:5000" (Str "oops") fs1
  = Returns (write_image "processed-s1.txt" (utf8_bytes "oops") fs1,
             Some "http://localhost:5000/uploads/images/processed-s1.txt").
Proof.
  assert (Hs : unrecognized "oops") by (repeat split).
  split; [exact Hs|].
  destruct (CreateFacts.unrecognized_reply_is_stored_as_diagnostic
              offline "s1" "http" "localhost:5000" fs1) as (Hstr & _).
  exact (Hstr "oops" Hs).
Defined.

Lemma resolve_seed_follows_remote_witness :
  isNaN (Some 5) = false /\
  get_random_seed echoing (truthy (Bool false)) (seed_argument (Some (Some 5)))
    = Returns (Num (Some 5)) /\
  resolve_seed echoing (Some (Some 5)) (Bool false) = Some (Some 5).
Proof.
  split; [reflexivity|]. split; [reflexivity|].
  destruct (CreateFacts.resolve_seed_follows_remote echoing (Some (Some 5)) (Bool false))
    as (_ & _ & _ & Hecho & _).
  exact (Hecho (Some 5) eq_refl eq_refl eq_refl).
Defined.

(** Scenario A: the segmentation answers with a data URI. *)
Example data_uri_reply_is_stored :
  let res :=
    segment (answering (Returns (Arr [Str "data:image/png;base64,iVBORw0KGgo="]))
               Throws Throws) "s1" cx1 db1 fs1 in
  res.2 = Some segmented1 /\
  images res.1.1.2 !! "processed-s1.png"
    = Some [0x89; 0x50; 0x4e; 0x47; 0x0d; 0x0a; 0x1a; 0x0a] /\
  (assets <$> res.1.1.1 !! "u1") = Some [set_segmentedImage segmented1 asset1].
Proof. repeat split. Qed.

(** Scenario B: the segmentation call fails; the reply carries no segmented
    image and the record stays pending. *)
Example failed_segmentation_is_absorbed :
  segment offline "s1" cx1 db1 fs1 = (db1, fs1, cx1, None) /\
  r_segmentedImageUrl (respond cx1 None) = None /\
  (status <$> assets_id "a1" [asset1]) = Some Pending.
Proof. repeat split. Qed.

(** A Gradio file object with a server-local path is kept as its JSON
    text, and is no mesh. *)
Example object_reply_is_serialised :
  let reply := Obj [("path", Str "/tmp/out.png"); ("url", Null)] in
  unresolvable reply /\
  json_stringify reply
    = "{" +:+ quote "path" +:+ ":" +:+ quote "/tmp/out.png" +:+ ","
      +:+ quote "url" +:+ ":null}" /\
  normalize_glb offline "s2" "http" "localhost:5000" reply fs1
    = Returns (write_image "processed-s2.txt" (utf8_bytes (json_stringify reply)) fs1,
               None).
Proof.
  split; [|split; reflexivity].
  split; [left; eexists; reflexivity|]. right. exists "/tmp/out.png". now split.
Qed.

(** Scenario C: the generation answers with a URL; the mesh is fetched,
    stored and the record marked ready. *)
Example mesh_by_url_is_fetched :
  let res := background service_by_url "s2" 1900 cx1 None db1 fs1 in
  res.2 = MarkedReady /\
  (assets <$> res.1.1.1 !! "u1") = Some [mark_ready generated1 1900 asset1] /\
  (take 4 <$> glbs res.1.1.2 !! "generated-s2.glb") = Some (utf8_bytes "glTF") /\
  resolve_seed service_by_url (cx_providedSeed cx1) Undefined = Some (Some 77).
Proof. repeat split. Qed.

(** Scenario D: bytes that are no GLB are stored and linked all the same. *)
Example mesh_without_header_is_linked :
  let res :=
    background (answering Throws Throws (Returns (Bin png_bytes)))
      "s2" 1900 cx1 None db1 fs1 in
  res.2 = MarkedReady /\
  glbs res.1.1.2 !! "generated-s2.glb" = Some png_bytes /\
  (assets <$> res.1.1.1 !! "u1") = Some [mark_ready generated1 1900 asset1].
Proof. repeat split. Qed.

Example sample_upload : create_asset "a1" 1700 req1 db0 = inr (db1, cx1).
Proof. reflexivity. Qed.

Example sample_background :
  background service "s2" 1900 cx1 None db1 fs1
  = (db state2, fs state2, cx1, MarkedReady).
Proof. reflexivity. Qed.

Lemma state2_reachable : reachable state2.
Proof.
  apply (reach_step state1).
  - apply (reach_step state0).
    + apply reach_initial. split; [|reflexivity].
      intros uid u Hu. cbn [db state0] in Hu. unfold db0 in Hu.
      apply lookup_singleton_Some in Hu as [_ <-]. reflexivity.
    + exact (step_create state0 req1 _ png_bytes "a1" 1700 db1 cx1 eq_refl eq_refl).
  - exact (step_background state1 [] cx1 None [] service "s2" 1900
             (db state2) (fs state2) cx1 MarkedReady eq_refl eq_refl).
Qed.

Lemma glbUrl_iff_ready_witness :
  reachable state2 /\
  db state2 !! "u1" = Some {| assets := [mark_ready generated1 1900 asset1] |} /\
  In (mark_ready generated1 1900 asset1) [mark_ready generated1 1900 asset1] /\
  (glbUrl (mark_ready generated1 1900 asset1) <> None
   <-> status (mark_ready generated1 1900 asset1) = Ready).
Proof.
  split; [exact state2_reachable|]. split; [reflexivity|].
  split; [now left|].
  exact (LifecycleFacts.glbUrl_iff_ready state2 "u1"
           {| assets := [mark_ready generated1 1900 asset1] |}
           (mark_ready generated1 1900 asset1)
           state2_reachable eq_refl (or_introl eq_refl)).
Defined.

(** C2 fails as stated: the asset is deleted while its mesh is generated, and
    the background task then finds it gone.  In front of a store that
    accepts the save of the original document the asset is stored again,
    marked ready; in front of one that rejects it the update ends in an
    exception, caught by the task. *)
Lemma deleted_asset_is_saved_again :
  let segmented := segment service "s1" cx1 db1 fs1 in
  let deleted := delete_asset "u1" "a1" segmented.1.1.1 segmented.1.1.2 in
  let finished :=
    background service "s2" 1900 segmented.1.2 segmented.2 deleted.1.2 deleted.2 in
  let finished_versioned :=
    background service_versioned "s2" 1900 segmented.1.2 segmented.2
      deleted.1.2 deleted.2 in
  (assets <$> segmented.1.1.1 !! "u1") = Some [set_segmentedImage segmented1 asset1] /\
  deleted.1.1 = Json 200 true /\
  (assets <$> deleted.1.2 !! "u1") = Some [] /\
  finished.2 = MarkedReadyFallback /\
  (assets <$> finished.1.1.1 !! "u1") = Some [mark_ready generated1 1900 asset1] /\
  attach_generated service_versioned cx1 (Some generated1) 1900 deleted.1.2
    = (with_user {| assets := [mark_ready generated1 1900 asset1] |} cx1, Throws) /\
  finished_versioned.2 = Caught.
Proof. repeat split. Qed.

Lemma missing_record_is_saved_from_created_asset_witness :
  generated1 <> "" /\
  db0 !! cx_uid cx1 = Some {| assets := [] |} /\
  assets_id (cx_assetId cx1) [] = None /\
  attach_generated service cx1 (Some generated1) 1900 db0
  = (with_user {| assets := [mark_ready generated1 1900 asset1] |} cx1,
     Returns (save "u1" {| assets := [mark_ready generated1 1900 asset1] |} db0,
              MarkedReadyFallback)).
Proof.
  assert (Hurl : generated1 <> "") by discriminate.
  split; [exact Hurl|]. split; [reflexivity|]. split; [reflexivity|].
  destruct (CreateFacts.missing_record_is_saved_from_created_asset
              service cx1 generated1 1900 db0 {| assets := [] |} Hurl eq_refl eq_refl)
    as (_ & Hglb & _).
  exact Hglb.
Defined.

(** Scenario F: the segmentation left a diagnostic text file; the uploaded
    image is sent instead. *)
Lemma source_image_is_segmented_else_upload_witness :
  let diagnostic := "http://localhost:5000/uploads/images/processed-s1.txt" in
  let files := write_image "processed-s1.txt" (utf8_bytes "oops") fs1 in
  images files !! filename (cx_file cx1) = Some png_bytes /\
  url_basename diagnostic = Some "processed-s1.txt" /\
  is_image (detectMimeFromBuffer (utf8_bytes "oops")) = false /\
  is_image (detectMimeFromBuffer png_bytes) = true /\
  exists sent,
    select_source (Some diagnostic) (filename (cx_file cx1)) files
    = Returns (sent, detectMimeFromBuffer (utf8_bytes "oops")) /\
    exists i, detectMimeFromBuffer png_bytes = Some i /\
              sent = Some (png_bytes, mime i).
Proof.
  cbv zeta.
  split; [reflexivity|]. split; [reflexivity|]. split; [reflexivity|].
  split; [reflexivity|].
  destruct (CreateFacts.source_image_is_segmented_else_upload
              offline "s2" 1900 cx1
              (Some "http://localhost:5000/uploads/images/processed-s1.txt")
              (Some (Some 5)) db1
              (write_image "processed-s1.txt" (utf8_bytes "oops") fs1)
              png_bytes eq_refl) as (Hseg & _).
  destruct (Hseg "http://localhost:5000/uploads/images/processed-s1.txt"
              "processed-s1.txt" (utf8_bytes "oops") eq_refl
              ltac:(discriminate) eq_refl eq_refl) as (_ & Hfallback & _).
  exact (Hfallback eq_refl eq_refl).
Defined.


End Scenarios.

(** * More on the upload route *)

Module PipelineFacts.
Import Js Sniffer Store Files Env Create Names StoreFacts CreateFacts.

Section Route.
Context `{Runtime}.

(** ** What the normalisers store and report *)

Lemma fetch_and_save_result (env : outside)
    (store : list Z -> string -> files -> files * string)
    (url dflt : string) (fs fs' : files) (loc : option string) :
  fetch_and_save env store url dflt fs = (fs', loc) ->
  (fs' = fs /\ loc = None) \/
  exists buffer ext, fs' = (store buffer ext fs).1 /\ loc = Some (store buffer ext fs).2.
Proof.
  unfold fetch_and_save.
  destruct (fetch env url) as [| |buffer]; try (intros [= <- <-]; now left).
  destruct (url_ext url) as [e|]; [|intros [= <- <-]; now left].
  destruct (store buffer (or_default e dflt) fs) as [fs1 loc1] eqn:E.
  intros [= <- <-]. right. exists buffer, (or_default e dflt). now rewrite E.
Qed.

Ltac split_reply :=
  repeat match goal with
  | |- context [match ?x with _ => _ end] => destruct x eqn:?
  | |- context [if ?b then _ else _] => destruct b eqn:?
  end.

Lemma normalize_segmented_result (env : outside) (stamp protocol host : string)
    (rawOut : value) (fs fs' : files) (loc : option string) :
  normalize_segmented env stamp protocol host rawOut fs = Returns (fs', loc) ->
  (fs' = fs /\ loc = None) \/
  exists buffer ext,
    fs' = write_image (image_name stamp ext) buffer fs /\
    loc = Some (image_url protocol host (image_name stamp ext)).
Proof.
  assert (Hfetch : forall url dflt,
    fetch_and_save env
      (fun buffer ext fs => saveBufferAsImage stamp buffer ext protocol host fs)
      url dflt fs = (fs', loc) ->
    (fs' = fs /\ loc = None) \/
    exists buffer ext,
      fs' = write_image (image_name stamp ext) buffer fs /\
      loc = Some (image_url protocol host (image_name stamp ext))).
  { intros url dflt Hf. apply fetch_and_save_result in Hf as [?|(b & e & -> & ->)];
      [now left | right; now exists b, e]. }
  unfold normalize_segmented.
  destruct rawOut; split_reply; intros Hr;
    try discriminate;
    try (injection Hr as <- <-; right; eexists _, _; split; reflexivity);
    try (injection Hr as Hr; destruct (fetch_and_save _ _ _ _ _) as [fs1 loc1] eqn:Hf;
         injection Hr as <- <-; eapply Hfetch; eassumption).
Qed.

Lemma normalize_glb_result (env : outside) (stamp protocol host : string)
    (raw3d : value) (fs fs' : files) (loc : option string) :
  normalize_glb env stamp protocol host raw3d fs = Returns (fs', loc) ->
  (loc = None /\ glbs fs' = glbs fs /\
   (fs' = fs \/ exists buffer, fs' = write_image (image_name stamp "txt") buffer fs)) \/
  exists buffer,
    fs' = write_glb (glb_name stamp) buffer fs /\
    loc = Some (glb_url protocol host (glb_name stamp)).
Proof.
  assert (Hfetch : forall url dflt,
    fetch_and_save env
      (fun buffer ext fs => saveBufferAsGlb stamp buffer ext protocol host fs)
      url dflt fs = (fs', loc) ->
    (loc = None /\ glbs fs' = glbs fs /\
     (fs' = fs \/ exists buffer, fs' = write_image (image_name stamp "txt") buffer fs)) \/
    exists buffer,
      fs' = write_glb (glb_name stamp) buffer fs /\
      loc = Some (glb_url protocol host (glb_name stamp))).
  { intros url dflt Hf. apply fetch_and_save_result in Hf as [[-> ->]|(b & e & -> & ->)];
      [left; auto | right; now exists b]. }
  unfold normalize_glb.
  destruct raw3d; split_reply; intros Hr;
    try discriminate;
    try (injection Hr as <- <-; right; eexists; split; reflexivity);
    try (injection Hr as <- <-; left; split; [reflexivity|]; split; [reflexivity|];
         first [left; reflexivity | right; eexists; reflexivity]);
    try (injection Hr as Hr; destruct (fetch_and_save _ _ _ _ _) as [fs1 loc1] eqn:Hf;
         injection Hr as <- <-; eapply Hfetch; eassumption).
Qed.

Lemma image_url_nonempty (protocol host name : string) :
  is_empty (image_url protocol host name) = false.
Proof.
  apply JsFacts.is_empty_false. unfold image_url.
  apply JsFacts.app_nonempty. discriminate.
Qed.

Lemma glb_url_nonempty (protocol host name : string) :
  is_empty (glb_url protocol host name) = false.
Proof.
  apply JsFacts.is_empty_false. unfold glb_url.
  apply JsFacts.app_nonempty. discriminate.
Qed.

(** ** The segmentation phase *)

(** The phase for an upload whose asset is in the collection: nothing
    changes, or one image is stored and its locator recorded. *)
Lemma segment_own (env : outside) (stamp : string) (cx : context)
    (db : gmap string user) (fs : files) (u : user) (a : asset) :
  db !! cx_uid cx = Some u ->
  assets_id (cx_assetId cx) (assets u) = Some a ->
  segment env stamp cx db fs = (db, fs, cx, None) \/
  exists buffer ext,
    segment env stamp cx db fs
    = (save (cx_uid cx)
         {| assets := modify_id (cx_assetId cx)
                        (set_segmentedImage
                           (image_url (cx_protocol cx) (cx_host cx)
                              (image_name stamp ext)))
                        (assets u) |} db,
       write_image (image_name stamp ext) buffer fs, cx,
       Some (image_url (cx_protocol cx) (cx_host cx) (image_name stamp ext))).
Proof.
  intros Hu Ha. unfold segment.
  destruct (images fs !! _) as [fileBuffer|]; [|now left].
  destruct (process_image env _) as [data|]; [|now left].
  destruct (normalize_segmented _ _ _ _ _ _) as [[fs1 seg]|] eqn:Hn; [|now left].
  apply normalize_segmented_result in Hn as [[-> ->]|(buffer & ext & -> & ->)].
  - now left.
  - right. exists buffer, ext.
    unfold attach_segmented, findById. now rewrite image_url_nonempty, Hu, Ha.
Qed.

(** X1: When the segmentation phase ends without a segmented image (the file
    is gone, the call or the normalisation throws, a fetch fails), it has
    changed nothing: not the collection, not the files, not what the
    handler holds. *)
Theorem segment_without_image_changes_nothing (env : outside) (stamp : string)
    (cx : context) (db : gmap string user) (fs : files) :
  (segment env stamp cx db fs).2 = None ->
  segment env stamp cx db fs = (db, fs, cx, None).
Proof.
  unfold segment.
  destruct (images fs !! _); [|reflexivity].
  destruct (process_image env _); [|reflexivity].
  destruct (normalize_segmented _ _ _ _ _ _) as [[fs1 seg]|] eqn:Hn; [|reflexivity].
  apply normalize_segmented_result in Hn as [[-> ->]|(buffer & ext & -> & ->)].
  - reflexivity.
  - destruct (attach_segmented _ _ _ _) as [cx1 [db1|]]; discriminate.
Qed.

(** X2: When the segmentation phase reports a segmented image and the asset
    is still in the collection, the reported locator names the file just
    written to [uploads/images], the record carries that same locator in
    [meta.segmentedImage] with nothing else changed, the other records are
    untouched, and the reply sent to the caller carries it too. *)
Theorem segment_records_what_it_reports (env : outside) (stamp : string)
    (cx : context) (db : gmap string user) (fs : files)
    (u : user) (a : asset) (url : string) :
  db !! cx_uid cx = Some u ->
  assets_id (cx_assetId cx) (assets u) = Some a ->
  (segment env stamp cx db fs).2 = Some url ->
  let res := segment env stamp cx db fs in
  (exists buffer ext,
     url = image_url (cx_protocol cx) (cx_host cx) (image_name stamp ext) /\
     images res.1.1.2 !! image_name stamp ext = Some buffer) /\
  (exists u',
     res.1.1.1 !! cx_uid cx = Some u' /\
     assets_id (cx_assetId cx) (assets u') = Some (set_segmentedImage url a) /\
     forall b, b <> cx_assetId cx -> assets_id b (assets u') = assets_id b (assets u)) /\
  res.1.2 = cx /\
  r_segmentedImageUrl (respond res.1.2 res.2) = Some url.
Proof.
  intros Hu Ha. unfold segment.
  destruct (images fs !! _); [|discriminate].
  destruct (process_image env _); [|discriminate].
  destruct (normalize_segmented _ _ _ _ _ _) as [[fs1 seg]|] eqn:Hn; [|discriminate].
  apply normalize_segmented_result in Hn as [[-> ->]|(buffer & ext & -> & ->)].
  { simpl. discriminate. }
  unfold attach_segmented, findById. rewrite image_url_nonempty, Hu, Ha.
  cbn [fst snd]. intros [= <-]. split; [|split; [|split]].
  - exists buffer, ext. split; [reflexivity|]. simpl. apply lookup_insert_eq.
  - eexists. split; [apply save_lookup|]. simpl. split.
    + now apply assets_id_modify_id.
    + intros b Hb. now apply assets_id_modify_id_other.
  - reflexivity.
  - unfold respond, present. cbn [r_segmentedImageUrl].
    now rewrite image_url_nonempty.
Qed.

(** ** The background task *)

Lemma attach_generated_outcome (env : outside) (cx cx' : context)
    (glbUrl : option string) (now : Z) (db : gmap string user)
    (r : outcome (gmap string user * ending)) :
  attach_generated env cx glbUrl now db = (cx', r) ->
  match r with
  | Returns (db', MarkedReady) =>
      exists u a url,
        glbUrl = Some url /\ db !! cx_uid cx = Some u /\
        assets_id (cx_assetId cx) (assets u) = Some a /\ cx' = cx /\
        db' = save (cx_uid cx)
                {| assets := modify_id (cx_assetId cx) (mark_ready url now) (assets u) |}
                db
  | Returns (db', MarkedReadyFallback) =>
      exists u url,
        glbUrl = Some url /\ db !! cx_uid cx = Some u /\
        assets_id (cx_assetId cx) (assets u) = None /\
        accepts_stale_save env = true /\
        db' = save (cx_uid cx)
                {| assets := modify_last (mark_ready url now) (assets (cx_user cx)) |}
                db
  | Returns (db', NoGlb) => db' = db /\ cx' = cx /\ present glbUrl = false
  | Returns (_, (Aborted | Caught)) => False
  | Throws =>
      cx' = cx \/
      accepts_stale_save env = false /\ ~ own_record_present cx db /\
      exists url,
        cx' = with_user
                {| assets := modify_last (mark_ready url now) (assets (cx_user cx)) |}
                cx
  end.
Proof.
  unfold attach_generated, findById, present.
  destruct glbUrl as [url|]; [|intros [= <- <-]; auto].
  destruct (is_empty url) eqn:He; [intros [= <- <-]; auto|].
  destruct (db !! cx_uid cx) as [u|] eqn:Hu; [|intros [= <- <-]; auto].
  destruct (assets_id (cx_assetId cx) (assets u)) as [a|] eqn:Ha.
  - intros [= <- <-]. now exists u, a, url.
  - destruct (accepts_stale_save env) eqn:Hs; intros [= <- <-].
    + now exists u, url.
    + right. split; [reflexivity|]. split; [|now exists url].
      intros (u1 & a1 & Hu1 & Ha1). congruence.
Qed.

(** X3: When the background task ends in anything but a record marked ready
    (no mesh produced, neither file an image, an exception caught), the
    collection is exactly as it was: no status is changed, in particular
    none is set to [failed].  What the handler holds is as it was too,
    except where the task found its asset gone, assigned [glbUrl] and
    [status] through [createdAsset], and the store then rejected the save
    of the document. *)
Theorem background_without_mesh_keeps_collection (env : outside) (stamp : string)
    (now : Z) (cx : context) (segmentedImageUrl : option string)
    (db : gmap string user) (fs : files) :
  let res := background env stamp now cx segmentedImageUrl db fs in
  res.2 <> MarkedReady ->
  res.2 <> MarkedReadyFallback ->
  res.1.1.1 = db /\
  (res.1.2 = cx \/
   res.2 = Caught /\ accepts_stale_save env = false /\
   ~ own_record_present cx db /\
   exists url,
     res.1.2
     = with_user
         {| assets := modify_last (mark_ready url now) (assets (cx_user cx)) |} cx) /\
  (own_record_present cx db -> res.1.2 = cx).
Proof.
  cbn zeta. intros H1 H2.
  assert (Hmain :
    (background env stamp now cx segmentedImageUrl db fs).1.1.1 = db /\
    ((background env stamp now cx segmentedImageUrl db fs).1.2 = cx \/
     (background env stamp now cx segmentedImageUrl db fs).2 = Caught /\
     accepts_stale_save env = false /\ ~ own_record_present cx db /\
     exists url,
       (background env stamp now cx segmentedImageUrl db fs).1.2
       = with_user
           {| assets := modify_last (mark_ready url now) (assets (cx_user cx)) |}
           cx)).
  { revert H1 H2. unfold background, generate.
    destruct (select_source _ _ _) as [[[sel|] detected]|]; [| |auto].
    - destruct (transcode sel detected) as [bufferToSend mimeToSend].
      destruct (process_3d env _) as [data|]; [|auto].
      destruct (normalize_glb _ _ _ _ _ _) as [[fs1 glb]|]; [|auto].
      destruct (attach_generated env cx glb now db) as [cx1 r] eqn:Hg.
      apply attach_generated_outcome in Hg.
      destruct r as [[db1 e1]|]; cbn [fst snd].
      + destruct e1; try contradiction; try tauto.
      + intros _ _. split; [reflexivity|]. destruct Hg as [->|Hg]; [now left|].
        right. split; [reflexivity|]. exact Hg.
    - rewrite abort_update_unchanged. destruct (db !! cx_uid cx); auto. }
  destruct Hmain as [Hdb Hcx]. split; [exact Hdb|]. split; [exact Hcx|].
  intros Hown. destruct Hcx as [Hcx|(_ & _ & Hno & _)]; [exact Hcx|contradiction].
Qed.

Lemma background_marked_ready (env : outside) (stamp : string)
    (now : Z) (cx : context) (segmentedImageUrl : option string)
    (db : gmap string user) (fs : files) :
  (background env stamp now cx segmentedImageUrl db fs).2 = MarkedReady ->
  exists u a buffer,
    db !! cx_uid cx = Some u /\
    assets_id (cx_assetId cx) (assets u) = Some a /\
    background env stamp now cx segmentedImageUrl db fs
    = (save (cx_uid cx)
         {| assets := modify_id (cx_assetId cx)
                        (mark_ready (glb_url (cx_protocol cx) (cx_host cx)
                                       (glb_name stamp)) now)
                        (assets u) |} db,
       write_glb (glb_name stamp) buffer fs, cx, MarkedReady).
Proof.
  unfold background, generate.
  destruct (select_source _ _ _) as [[[sel|] detected]|]; [| |discriminate].
  - destruct (transcode sel detected) as [bufferToSend mimeToSend].
    destruct (process_3d env _) as [raw3d|]; [|discriminate].
    destruct (normalize_glb _ _ _ _ _ _) as [[fs1 glb]|] eqn:Hn; [|discriminate].
    destruct (attach_generated env cx glb now db) as [cx1 [[db1 e1]|]] eqn:Hg;
      [|discriminate].
    cbn [fst snd]. intros ->.
    apply attach_generated_outcome in Hg as (u & a & url & -> & Hu & Hf & -> & ->).
    apply normalize_glb_result in Hn as [[Hnone _]|(buffer & -> & [= ->])];
      [discriminate|].
    now exists u, a, buffer.
  - destruct (abort_update cx db); discriminate.
Qed.

(** X4: When the background task marks a record ready, the [glbUrl] it writes
    is the locator of [generated-<stamp>.glb] under [uploads/glb], that
    file has just been stored, and the re-read record is the old one with
    [glbUrl] and [status] assigned: a record never becomes ready without
    its mesh on disk. *)
Theorem marked_ready_points_at_stored_mesh (env : outside) (stamp : string)
    (now : Z) (cx : context) (segmentedImageUrl : option string)
    (db : gmap string user) (fs : files) :
  let res := background env stamp now cx segmentedImageUrl db fs in
  let url := glb_url (cx_protocol cx) (cx_host cx) (glb_name stamp) in
  res.2 = MarkedReady ->
  (exists buffer, glbs res.1.1.2 !! glb_name stamp = Some buffer) /\
  exists u a u',
    db !! cx_uid cx = Some u /\
    assets_id (cx_assetId cx) (assets u) = Some a /\
    res.1.1.1 !! cx_uid cx = Some u' /\
    assets_id (cx_assetId cx) (assets u') = Some (mark_ready url now a) /\
    forall b, b <> cx_assetId cx -> assets_id b (assets u') = assets_id b (assets u).
Proof.
  cbn zeta. intros He.
  apply background_marked_ready in He as (u & a & buffer & Hu & Ha & ->).
  cbn [fst snd]. split.
  - exists buffer. simpl. apply lookup_insert_eq.
  - exists u, a. eexists. split; [assumption|]. split; [assumption|].
    split; [apply save_lookup|]. simpl. split.
    + now apply assets_id_modify_id.
    + intros b Hb. now apply assets_id_modify_id_other.
Qed.

Lemma glb_name_plain (stamp : string) : plain_name stamp -> plain_name (glb_name stamp).
Proof.
  intros Hs. unfold glb_name.
  apply AssetsFacts.plain_name_wrapped; try assumption; try discriminate;
    simpl; intros Hin; repeat (destruct Hin as [Hin|Hin]; [discriminate|]);
    exact Hin.
Qed.

Lemma glb_url_locator (protocol host stamp : string) :
  plain_name stamp -> glb_locator (glb_url protocol host (glb_name stamp)) (glb_name stamp).
Proof.
  intros Hs. split; [now apply glb_name_plain|].
  exists (protocol +:+ "://" +:+ host). unfold glb_url.
  now rewrite !JsFacts.append_assoc.
Qed.

(** X5: A mesh generated for an asset is removed with it: when the background
    task has marked the record ready and the asset is deleted afterwards,
    the file [generated-<stamp>.glb] is gone from [uploads/glb], the record
    is gone from the collection and a further GET answers 404. *)
Theorem generated_mesh_is_removed_on_delete (env : outside) (stamp : string)
    (now : Z) (cx : context) (segmentedImageUrl : option string)
    (db : gmap string user) (fs : files) :
  plain_name stamp ->
  let res := background env stamp now cx segmentedImageUrl db fs in
  res.2 = MarkedReady ->
  let del := Assets.delete_asset (cx_uid cx) (cx_assetId cx) res.1.1.1 res.1.1.2 in
  del.1.1 = Assets.Json 200 true /\
  glbs del.2 !! glb_name stamp = None /\
  Assets.get_asset (cx_uid cx) (cx_assetId cx) del.1.2
  = Assets.Error 404 "Asset not found".
Proof.
  intros Hs. cbn zeta. intros He.
  apply background_marked_ready in He as (u & a & buffer & Hu & Ha & ->).
  cbn [fst snd]. unfold Assets.delete_asset, Assets.get_asset, findById.
  rewrite save_lookup. cbn [assets].
  rewrite (assets_id_modify_id _ _ _ _ Ha) by reflexivity. cbn [fst snd].
  split; [reflexivity|]. split.
  - eapply AssetsFacts.unlink_artifacts_glbs; [reflexivity|].
    now apply glb_url_locator.
  - rewrite save_lookup. cbn [assets]. now rewrite assets_id_pull_id.
Qed.

(** ** What the two phases write *)

Lemma segment_files (env : outside) (stamp : string) (cx : context)
    (db : gmap string user) (fs : files) :
  (segment env stamp cx db fs).1.1.2 = fs \/
  exists buffer ext,
    (segment env stamp cx db fs).1.1.2 = write_image (image_name stamp ext) buffer fs.
Proof.
  unfold segment.
  destruct (images fs !! _) as [fileBuffer|]; [|now left].
  destruct (process_image env _) as [data|]; [|now left].
  destruct (normalize_segmented _ _ _ _ _ _) as [[fs1 seg]|] eqn:Hn; [|now left].
  apply normalize_segmented_result in Hn as [[-> ->]|(buffer & ext & -> & ->)].
  - left. now destruct (attach_segmented _ _ _ _) as [cx1 [db1|]].
  - right. exists buffer, ext. now destruct (attach_segmented _ _ _ _) as [cx1 [db1|]].
Qed.

Lemma generate_files (env : outside) (stamp : string) (now : Z) (cx : context)
    (segmentedImageUrl : option string) (seedFor3d : option number)
    (db : gmap string user) (fs : files) :
  let fs' := (generate env stamp now cx segmentedImageUrl seedFor3d db fs).1.1.2 in
  fs' = fs \/
  (exists buffer, fs' = write_image (image_name stamp "txt") buffer fs) \/
  (exists buffer, fs' = write_glb (glb_name stamp) buffer fs).
Proof.
  unfold generate.
  destruct (select_source _ _ _) as [[[sel|] detected]|]; [| |now left].
  - destruct (transcode sel detected) as [bufferToSend mimeToSend].
    destruct (process_3d env _) as [data|]; [|now left].
    destruct (normalize_glb _ _ _ _ _ _) as [[fs1 g]|] eqn:Hn; [|now left].
    assert (E : (let '(cx', saved) := attach_generated env cx g now db in
                 match saved with
                 | Returns (db', e) => (db', fs1, cx', e)
                 | Throws => (db, fs1, cx', Caught)
                 end).1.1.2 = fs1)
      by (now destruct (attach_generated env cx g now db) as [cx1 [[db1 e1]|]]).
    cbn zeta. rewrite E.
    apply normalize_glb_result in Hn
      as [(_ & _ & [->|[buffer ->]])|(buffer & -> & _)]; eauto.
  - left. now destruct (abort_update cx db).
Qed.

(** X6: The segmentation phase writes at most one file, an image named
    [processed-<stamp>.<ext>]: every other image is as it was, none is
    removed, and the mesh directory is not touched. *)
Theorem segment_writes_one_processed_image (env : outside) (stamp : string)
    (cx : context) (db : gmap string user) (fs : files) :
  let fs' := (segment env stamp cx db fs).1.1.2 in
  glbs fs' = glbs fs /\
  (exists ext, forall name,
     name <> image_name stamp ext -> images fs' !! name = images fs !! name) /\
  (forall name, is_Some (images fs !! name) -> is_Some (images fs' !! name)).
Proof.
  cbn zeta.
  destruct (segment_files env stamp cx db fs) as [->|(buffer & ext & ->)].
  - split; [reflexivity|]. split; [now exists ""|auto].
  - split; [reflexivity|]. split.
    + exists ext. intros name Hn. simpl. now apply lookup_insert_ne.
    + intros name Hs. simpl.
      destruct (decide (image_name stamp ext = name)) as [->|Hn].
      * rewrite lookup_insert_eq. eauto.
      * now rewrite lookup_insert_ne.
Qed.

(** X7: The background task writes at most one file: the mesh
    [generated-<stamp>.glb], or the diagnostic [processed-<stamp>.txt] in
    the image directory when the reply is an object it cannot resolve.
    Every other file of both directories is as it was and none is
    removed; the files of the request are kept whatever the ending. *)
Theorem background_writes_one_file (env : outside) (stamp : string)
    (now : Z) (cx : context) (segmentedImageUrl : option string)
    (db : gmap string user) (fs : files) :
  let fs' := (background env stamp now cx segmentedImageUrl db fs).1.1.2 in
  (forall name, name <> image_name stamp "txt" ->
     images fs' !! name = images fs !! name) /\
  (forall name, name <> glb_name stamp -> glbs fs' !! name = glbs fs !! name) /\
  (images fs' = images fs \/ glbs fs' = glbs fs) /\
  (forall name, is_Some (images fs !! name) -> is_Some (images fs' !! name)) /\
  (forall name, is_Some (glbs fs !! name) -> is_Some (glbs fs' !! name)).
Proof.
  cbn zeta. unfold background.
  destruct (generate_files env stamp now cx segmentedImageUrl
              (resolve_seed env (cx_providedSeed cx)
                 (with_default (assoc "randomize_seed" (cx_body cx)) (Bool false)))
              db fs) as [->|[(buffer & ->)|(buffer & ->)]].
  - repeat split; auto.
  - simpl. repeat split; auto.
    + intros name Hn. now apply lookup_insert_ne.
    + intros name Hs.
      destruct (decide (image_name stamp "txt" = name)) as [->|Hn].
      * rewrite lookup_insert_eq. eauto.
      * now rewrite lookup_insert_ne.
  - simpl. repeat split; auto.
    + intros name Hn. now apply lookup_insert_ne.
    + intros name Hs.
      destruct (decide (glb_name stamp = name)) as [->|Hn].
      * rewrite lookup_insert_eq. eauto.
      * now rewrite lookup_insert_ne.
Qed.

(** ** Whose document the two phases write *)

Lemma attach_segmented_saves (env : outside) (cx : context)
    (seg : option string) (db db' : gmap string user) :
  (attach_segmented env cx seg db).2 = Returns db' ->
  db' = db \/ exists doc, db' = save (cx_uid cx) doc db.
Proof.
  unfold attach_segmented.
  destruct seg as [url|]; [|intros [= <-]; now left].
  destruct (is_empty url); [intros [= <-]; now left|].
  destruct (findById _ _) as [u|]; [|discriminate].
  destruct (assets_id _ _) as [a|].
  - intros [= <-]. right. eauto.
  - cbn [snd]. destruct (accepts_stale_save env); [|discriminate].
    intros [= <-]. right. eauto.
Qed.

Lemma segment_saves (env : outside) (stamp : string) (cx : context)
    (db : gmap string user) (fs : files) :
  (segment env stamp cx db fs).1.1.1 = db \/
  exists doc, (segment env stamp cx db fs).1.1.1 = save (cx_uid cx) doc db.
Proof.
  unfold segment.
  destruct (images fs !! _) as [fileBuffer|]; [|now left].
  destruct (process_image env _) as [data|]; [|now left].
  destruct (normalize_segmented _ _ _ _ _ _) as [[fs1 seg]|]; [|now left].
  pose proof (attach_segmented_saves env cx seg db) as Hs.
  destruct (attach_segmented _ _ _ _) as [cx1 [db1|]]; [|now left].
  now apply Hs.
Qed.

Lemma generate_saves (env : outside) (stamp : string) (now : Z) (cx : context)
    (segmentedImageUrl : option string) (seedFor3d : option number)
    (db : gmap string user) (fs : files) :
  let db' := (generate env stamp now cx segmentedImageUrl seedFor3d db fs).1.1.1 in
  db' = db \/ exists doc, db' = save (cx_uid cx) doc db.
Proof.
  unfold generate.
  destruct (select_source _ _ _) as [[[sel|] detected]|]; [| |now left].
  - destruct (transcode sel detected) as [bufferToSend mimeToSend].
    destruct (process_3d env _) as [data|]; [|now left].
    destruct (normalize_glb _ _ _ _ _ _) as [[fs1 g]|]; [|now left].
    destruct (attach_generated _ _ _ _ _) as [cx1 [[db1 e1]|]] eqn:Hg; [|now left].
    apply attach_generated_outcome in Hg. cbn [fst snd].
    destruct e1; try contradiction.
    + destruct Hg as (u & a & url & _ & _ & _ & _ & ->). right. eauto.
    + destruct Hg as (u & url & _ & _ & _ & _ & ->). right. eauto.
    + destruct Hg as (-> & _). now left.
  - left. rewrite abort_update_unchanged. now destruct (db !! cx_uid cx).
Qed.

(** X8: Neither phase of an upload reads or writes the document of another
    user: whatever the remote service answers, the document stored under
    any other id is the one that was there. *)
Theorem upload_leaves_other_users (env : outside) (stamp : string) (now : Z)
    (cx : context) (segmentedImageUrl : option string)
    (db : gmap string user) (fs : files) (uid : string) :
  uid <> cx_uid cx ->
  (segment env stamp cx db fs).1.1.1 !! uid = db !! uid /\
  (background env stamp now cx segmentedImageUrl db fs).1.1.1 !! uid = db !! uid.
Proof.
  intros Hu. split.
  - destruct (segment_saves env stamp cx db fs) as [->|[doc ->]]; [reflexivity|].
    now apply save_lookup_other.
  - unfold background.
    destruct (generate_saves env stamp now cx segmentedImageUrl
                (resolve_seed env (cx_providedSeed cx)
                   (with_default (assoc "randomize_seed" (cx_body cx)) (Bool false)))
                db fs) as [->|[doc ->]]; [reflexivity|].
    now apply save_lookup_other.
Qed.

End Route.
End PipelineFacts.

(** * The asset routes and the upload route together *)

Module RoutesFacts.
Import Js Sniffer Store Files Env Create Assets Names Multer UploadRoute.
Import StoreFacts AssetsFacts CreateFacts.

Section Routes.
Context `{Runtime}.

Lemma user_eta (u : user) : {| assets := assets u |} = u.
Proof. now destruct u. Qed.

Lemma assets_id_app (aid : string) (l : list asset) (a : asset) :
  assets_id aid (l ++ [a])
  = match assets_id aid l with
    | Some x => Some x
    | None => if String.eqb (_id a) aid then Some a else None
    end.
Proof.
  unfold assets_id. induction l as [|x l IH]; simpl.
  - now destruct (String.eqb (_id a) aid).
  - now destruct (String.eqb (_id x) aid).
Qed.

Lemma pull_id_fresh (aid : string) (l : list asset) :
  assets_id aid l = None -> pull_id aid l = l.
Proof.
  unfold assets_id, pull_id. induction l as [|x l IH]; simpl; [reflexivity|].
  destruct (String.eqb (_id x) aid); simpl; [discriminate|].
  intros Hl. now rewrite IH.
Qed.

Lemma pull_id_single (aid : string) (a : asset) :
  _id a = aid -> pull_id aid [a] = [].
Proof. intros <-. unfold pull_id. simpl. now rewrite String.eqb_refl. Qed.

Lemma pull_id_modify_id (aid : string) (f : asset -> asset) (l : list asset) :
  (forall a, _id (f a) = _id a) ->
  pull_id aid (modify_id aid f l) = pull_id aid l.
Proof.
  intros Hf. unfold pull_id. induction l as [|x l IH]; simpl; [reflexivity|].
  destruct (String.eqb (_id x) aid) eqn:E; simpl.
  - now rewrite Hf, E.
  - now rewrite E, IH.
Qed.

Lemma pull_id_app (aid : string) (l r : list asset) :
  pull_id aid (l ++ r) = (pull_id aid l ++ pull_id aid r)%list.
Proof. unfold pull_id. apply List.filter_app. Qed.

Lemma image_url_locator (protocol host f : string) :
  plain_name f ->
  image_locator (protocol +:+ "://" +:+ host +:+ "/uploads/images/" +:+ f) f.
Proof.
  intros Hf. split; [assumption|].
  exists (protocol +:+ "://" +:+ host). now rewrite !JsFacts.append_assoc.
Qed.

(** X13: The upload route accepts a request exactly when it carries a file, an
    authenticated user id and that user exists; the missing file is
    reported first (400), then the missing id (401), then the missing
    user (404), and a refused request leaves the collection as it was. *)
Theorem create_asset_accepts_iff (aid : string) (now : Z) (req : request)
    (db : gmap string user) :
  ((exists db' cx, create_asset aid now req db = inr (db', cx))
   <-> is_Some (file req) /\ userId req <> "" /\ is_Some (db !! userId req)) /\
  (file req = None ->
     create_asset aid now req db = inl (400%nat, "No image file provided")) /\
  (is_Some (file req) -> userId req = "" ->
     create_asset aid now req db = inl (401%nat, "Authorization required")) /\
  (is_Some (file req) -> userId req <> "" -> db !! userId req = None ->
     create_asset aid now req db = inl (404%nat, "User not found")).
Proof.
  unfold create_asset, findById. split; [split|split; [|split]].
  - intros (db' & cx & Hc).
    destruct (file req) as [f|]; [|discriminate].
    destruct (String.eqb_spec (userId req) "") as [E|E];
      unfold is_empty in Hc.
    + rewrite E in Hc. discriminate.
    + destruct (db !! userId req) as [u|]; [eauto|].
      destruct (userId req =? "")%string; discriminate.
  - intros ([f ->] & Hne & [u ->]). rewrite JsFacts.is_empty_false by assumption.
    eauto.
  - now intros ->.
  - intros [f ->] ->. reflexivity.
  - intros [f ->] Hne ->. now rewrite JsFacts.is_empty_false.
Qed.


(** X19: An image uploaded through [/api/assets/upload-image] is put in front
    of the user's assets: the GET route serves the new record under its id
    even where an older record has the same id, and serves every other id
    as before. *)
Theorem uploaded_image_is_served (uid aid fname protocol : string)
    (host : option string) (now : Z) (db : gmap string user) (u : user) :
  db !! uid = Some u ->
  let res := upload_image uid aid (Some fname) protocol host now db in
  exists a,
    res.1 = Json 201 a /\
    get_asset uid aid res.2 = Json 200 a /\
    _id a = aid /\ status a = Pending /\ glbUrl a = None /\
    (plain_name fname -> image_locator (imageUrl a) fname) /\
    forall b, b <> aid -> get_asset uid b res.2 = get_asset uid b db.
Proof.
  intros Hu. unfold upload_image, findById. rewrite Hu. cbn [fst snd].
  eexists. split; [reflexivity|].
  unfold get_asset, findById. rewrite save_lookup, Hu. cbn [assets assets_id find _id].
  rewrite String.eqb_refl.
  split; [reflexivity|]. do 3 (split; [reflexivity|]). split.
  - intros Hf. split; [assumption|]. now exists (origin protocol host).
  - intros b Hb. destruct (String.eqb_spec aid b); [congruence | reflexivity].
Qed.

(** ** What a deletion leaves *)

Lemma unlink_image_other (f name : string) (fs : files) :
  name <> f -> images (unlink_image f fs) !! name = images fs !! name.
Proof.
  intros Hn. unfold unlink_image. destruct (images fs !! f); [|reflexivity].
  simpl. now apply lookup_delete_ne.
Qed.

Lemma unlink_glb_other (f name : string) (fs : files) :
  name <> f -> glbs (unlink_glb f fs) !! name = glbs fs !! name.
Proof.
  intros Hn. unfold unlink_glb. destruct (glbs fs !! f); [|reflexivity].
  simpl. now apply lookup_delete_ne.
Qed.

(** X22: A deletion removes at most the two files named by the last segment of
    the record's [imageUrl] and [glbUrl]: every other file of both
    directories stays, the file of [meta.segmentedImage] included, and a
    locator outside the upload directories removes nothing. *)
Theorem delete_asset_keeps_other_files (uid assetId : string)
    (db : gmap string user) (fs : files) (u : user) (a : asset) :
  db !! uid = Some u ->
  assets_id assetId (assets u) = Some a ->
  let fs' := (delete_asset uid assetId db fs).2 in
  (forall name, name <> basename (imageUrl a) ->
     images fs' !! name = images fs !! name) /\
  (forall name, (forall g, glbUrl a = Some g -> name <> basename g) ->
     glbs fs' !! name = glbs fs !! name) /\
  (includes (imageUrl a) "/uploads/images/" = false -> images fs' = images fs) /\
  (forall g, glbUrl a = Some g -> includes g "/uploads/glb/" = false ->
     glbs fs' = glbs fs).
Proof.
  intros Hu Ha. unfold delete_asset, findById. rewrite Hu, Ha. cbn [snd].
  unfold unlink_artifacts.
  set (fs1 := if negb (is_empty (imageUrl a)) && includes (imageUrl a) "/uploads/images/"
              then unlink_image (basename (imageUrl a)) fs else fs).
  assert (Hg1 : glbs fs1 = glbs fs).
  { unfold fs1. destruct (_ && _); [|reflexivity]. apply unlink_image_gone. }
  assert (Hi1 : forall name, name <> basename (imageUrl a) ->
            images fs1 !! name = images fs !! name).
  { intros name Hn. unfold fs1. destruct (_ && _); [|reflexivity].
    now apply unlink_image_other. }
  assert (Hno1 : includes (imageUrl a) "/uploads/images/" = false ->
            images fs1 = images fs).
  { intros Hno. unfold fs1. now rewrite Hno, andb_false_r. }
  clearbody fs1.
  assert (Hi2 : forall g,
            images (if negb (is_empty g) && includes g "/uploads/glb/"
                    then unlink_glb (basename g) fs1 else fs1) = images fs1).
  { intros g. destruct (_ && _); [|reflexivity]. apply unlink_glb_gone. }
  split; [|split; [|split]].
  - intros name Hn. rewrite <- (Hi1 name Hn).
    destruct (glbUrl a) as [g|]; [now rewrite Hi2 | reflexivity].
  - intros name Hn. destruct (glbUrl a) as [g|]; [|now rewrite Hg1].
    destruct (_ && _); [|now rewrite Hg1].
    rewrite unlink_glb_other by now apply Hn. now rewrite Hg1.
  - intros Hno. rewrite <- (Hno1 Hno).
    destruct (glbUrl a) as [g|]; [now rewrite Hi2 | reflexivity].
  - intros g Hg Hno. rewrite Hg, Hno, andb_false_r. exact Hg1.
Qed.

(** X21: The file a deletion removes is decided by the text of [glbUrl] alone.
    After an attach-glb request that gives a URL ending in
    [/uploads/glb/<f>], on any origin, deleting the asset removes the file
    [f] of [uploads/glb], whether or not that file was ever stored for this
    asset. *)
Theorem attached_url_names_the_deleted_file (uid assetId : string)
    (b : list (string * value)) (s f protocol : string) (host : option string)
    (now : Z) (db : gmap string user) (fs : files) (u : user) (a : asset) :
  db !! uid = Some u ->
  assets_id assetId (assets u) = Some a ->
  assoc "glbUrl" b = Str s ->
  glb_locator s f ->
  let att := attach_glb uid assetId None (Some b) protocol host now db in
  let del := delete_asset uid assetId att.2 fs in
  att.1 = Json 200 (mark_ready s now a) /\
  del.1.1 = Json 200 true /\
  glbs del.2 !! f = None.
Proof.
  intros Hu Ha Hb Hl. cbn zeta.
  pose proof (JsFacts.glb_locator_guard _ _ Hl) as (He & _ & _).
  rewrite (attach_glb_found uid assetId None (Some b) protocol host now db u a
             (Str s) s Hu Ha).
  - cbn [fst snd]. split; [reflexivity|].
    unfold delete_asset, findById. rewrite save_lookup. cbn [assets].
    rewrite (assets_id_modify_id _ _ _ _ Ha) by reflexivity. cbn [fst snd].
    split; [reflexivity|].
    now apply (unlink_artifacts_glbs _ _ s f).
  - rewrite Hb. simpl. now rewrite He.
  - reflexivity.
Qed.

(** X20: An attach-glb request with a file for an asset that does not exist is
    refused with 404 and changes no record, but the uploaded file has
    already been stored and stays in [uploads/glb]. *)
Theorem refused_attach_keeps_uploaded_file (uid assetId fname : string)
    (bytes : list Z) (body : option (list (string * value)))
    (protocol : string) (host : option string) (now : Z)
    (db : gmap string user) (fs : files) :
  (forall u, db !! uid = Some u -> assets_id assetId (assets u) = None) ->
  let res :=
    post_attach_glb uid assetId (Some (fname, bytes)) body protocol host now db fs in
  (exists message, res.1.1 = Error 404 message) /\
  res.1.2 = db /\
  glbs res.2 !! fname = Some bytes.
Proof.
  intros Hmiss. unfold post_attach_glb, attach_glb, findById. cbn [fst snd].
  split; [|split].
  - destruct (db !! uid) as [u|]; [|eauto].
    rewrite (Hmiss u eq_refl). eauto.
  - destruct (db !! uid) as [u|]; [|reflexivity].
    now rewrite (Hmiss u eq_refl).
  - simpl. apply lookup_insert_eq.
Qed.

End Routes.
End RoutesFacts.

(** * The multer configuration and the upload route behind it *)

Module MulterFacts.
Import Js Store Files Env Create Assets Names Multer UploadRoute.
Import StoreFacts AssetsFacts PipelineFacts RoutesFacts.

Lemma before_no_stop (c : ascii) (l : list ascii) : ~ In c (before c l).
Proof.
  induction l as [|x l IH]; simpl; [tauto|].
  destruct (Ascii.eqb_spec x c) as [->|Hx]; simpl; [tauto|].
  intros [E|Hin]; [congruence | tauto].
Qed.

Lemma before_incl (c x : ascii) (l : list ascii) : In x (before c l) -> In x l.
Proof.
  induction l as [|y l IH]; simpl; [tauto|].
  destruct (Ascii.eqb y c); simpl; tauto.
Qed.

Lemma before_app_nostop (c : ascii) (l r : list ascii) :
  ~ In c l -> before c (l ++ r) = (l ++ before c r)%list.
Proof.
  induction l as [|x l IH]; simpl; intros Hn; [reflexivity|].
  destruct (Ascii.eqb_spec x c) as [->|_]; [exfalso; auto|].
  rewrite IH; auto.
Qed.

Lemma after_app_stop (c : ascii) (l r : list ascii) :
  ~ In c l -> after c (l ++ c :: r) = Some r.
Proof.
  induction l as [|x l IH]; simpl; intros Hn.
  - now rewrite Ascii.eqb_refl.
  - destruct (Ascii.eqb_spec x c) as [->|_]; [exfalso; auto|].
    apply IH. auto.
Qed.

Lemma after_none (c : ascii) (l : list ascii) : ~ In c l -> after c l = None.
Proof.
  induction l as [|x l IH]; simpl; intros Hn; [reflexivity|].
  destruct (Ascii.eqb_spec x c) as [->|_]; [exfalso; auto|].
  apply IH. auto.
Qed.

Lemma drop_leading_incl (c x : ascii) (l : list ascii) :
  In x (drop_leading c l) -> In x l.
Proof.
  induction l as [|y l IH]; simpl; [tauto|].
  destruct (Ascii.eqb y c); simpl; tauto.
Qed.

Lemma chars_unchars (l : list ascii) : chars (unchars l) = l.
Proof. apply list_ascii_of_string_of_list_ascii. Qed.

Lemma rev_nonempty (s : string) : s <> "" -> rev (chars s) <> [].
Proof.
  intros Hs E. apply Hs. rewrite <- (JsFacts.unchars_chars s).
  rewrite <- (rev_involutive (chars s)), E. reflexivity.
Qed.

(** The extension never holds a slash. *)
Lemma extname_no_slash (p : string) : ~ In "/"%char (chars (extname p)).
Proof.
  unfold extname.
  set (rb := before "/" (drop_leading "/" (rev (chars p)))).
  assert (Hrb : ~ In "/"%char rb) by apply before_no_stop.
  assert (Hout : ~ In "/"%char (chars (unchars ("."%char :: rev (before "." rb))))).
  { rewrite chars_unchars. intros [E|Hin]; [discriminate|].
    apply Hrb. apply (before_incl "."). now apply in_rev. }
  destruct (after "." rb) as [[|x pre]|]; try (simpl; tauto).
  destruct (before "." rb) as [|y e] eqn:He; [|exact Hout].
  destruct x as [[] [] [] [] [] [] [] []]; try exact Hout.
  destruct pre; [simpl; tauto | exact Hout].
Qed.

(** A name without a dot has no extension. *)
Lemma extname_no_dot (p : string) : ~ In "."%char (chars p) -> extname p = "".
Proof.
  intros Hp. unfold extname. rewrite after_none; [reflexivity|].
  intros Hin. apply Hp. apply in_rev.
  apply (drop_leading_incl "/"). now apply (before_incl "/").
Qed.

(** The extension of [<base>.<e>]. *)
Lemma extname_dotted (base e : string) (b : list ascii) (c : ascii) :
  chars base = (b ++ [c])%list -> c <> "/"%char ->
  e <> "" -> ~ In "."%char (chars e) -> ~ In "/"%char (chars e) ->
  extname (base +:+ "." +:+ e) = "." +:+ e.
Proof.
  intros Hb Hc He Hdot Hslash. unfold extname.
  rewrite JsFacts.chars_app, Hb.
  change (chars ("." +:+ e)) with ("."%char :: chars e).
  rewrite rev_app_distr. simpl rev. rewrite rev_app_distr. simpl rev.
  rewrite <- !app_assoc. simpl app.
  assert (Hd : ~ In "."%char (rev (chars e))) by (now rewrite <- in_rev).
  assert (Hs : ~ In "/"%char (rev (chars e))) by (now rewrite <- in_rev).
  pose proof (rev_nonempty e He) as Hne.
  destruct (rev (chars e)) as [|x E] eqn:HE; [contradiction|].
  rewrite <- app_comm_cons, JsFacts.drop_leading_other
    by (intros ->; apply Hs; now left).
  rewrite app_comm_cons, before_app_nostop by assumption.
  change (before "/" ("."%char :: c :: rev b))
    with ("."%char :: if Ascii.eqb c "/" then [] else c :: before "/" (rev b)).
  destruct (Ascii.eqb_spec c "/") as [->|_]; [contradiction|].
  rewrite after_app_stop, JsFacts.before_app_stop by assumption.
  change (rev E ++ [x])%list with (rev (x :: E)). rewrite <- HE, rev_involutive.
  change (String "." (unchars (chars e)) = "." +:+ e).
  now rewrite JsFacts.unchars_chars.
Qed.

Lemma toLowerCase_dot (e : string) :
  toLowerCase ("." +:+ e) = "." +:+ toLowerCase e.
Proof. reflexivity. Qed.

Lemma append_empty_r (s : string) : s +:+ "" = s.
Proof.
  induction s as [|x s IH]; [reflexivity|].
  change (String x (s +:+ "") = String x s). now rewrite IH.
Qed.

Lemma uniqueName_plain (stamp originalname : string) :
  plain_name stamp -> plain_name (uniqueName stamp originalname).
Proof.
  intros [Hne Hs]. unfold uniqueName. split.
  - destruct stamp; [contradiction | discriminate].
  - rewrite JsFacts.chars_app, in_app_iff.
    intros [Hin|Hin]; [auto | now apply extname_no_slash in Hin].
Qed.

(** X15: The name multer stores an upload under has no slash, whatever the name
    the client sent, so it names a file of [uploads/images] itself; it ends
    in the extension of the client's name; and for a missing name it is the
    bare stamp, the extension of the fallback [".png"] being empty. *)
Theorem uniqueName_is_plain (stamp originalname : string) :
  plain_name stamp ->
  plain_name (uniqueName stamp originalname) /\
  (forall base e b c,
     originalname = base +:+ "." +:+ e ->
     chars base = (b ++ [c])%list -> c <> "/"%char ->
     e <> "" -> ~ In "."%char (chars e) -> ~ In "/"%char (chars e) ->
     uniqueName stamp originalname = stamp +:+ "." +:+ e) /\
  uniqueName stamp "" = stamp.
Proof.
  intros Hp. split; [now apply uniqueName_plain|]. destruct Hp as [Hne Hs]. split.
  - intros base e b c -> Hb Hc He Hdot Hslash. unfold uniqueName.
    assert (Hn : is_empty (base +:+ "." +:+ e) = false).
    { apply JsFacts.is_empty_false, JsFacts.app_nonempty. discriminate. }
    rewrite Hn. now rewrite (extname_dotted base e b c).
  - unfold uniqueName. change (extname (if is_empty "" then ".png" else "")) with "".
    apply append_empty_r.
Qed.

(** X16: The file filter refuses every name without a dot and every MIME type
    that holds none of [jpeg], [jpg], [png]; it accepts [<base>.<e>] with
    [e] one of [png], [jpg], [jpeg] in any case together with a MIME type
    that holds one of the three words. *)
Theorem fileFilter_accepts_image_names (originalname mimetype : string) :
  (~ In "."%char (chars originalname) -> fileFilter originalname mimetype = false) /\
  (allowedTypes mimetype = false -> fileFilter originalname mimetype = false) /\
  (forall base e b c,
     originalname = base +:+ "." +:+ e ->
     chars base = (b ++ [c])%list -> c <> "/"%char ->
     In (toLowerCase e) ["png"; "jpg"; "jpeg"] ->
     allowedTypes mimetype = true ->
     fileFilter originalname mimetype = true).
Proof.
  unfold fileFilter. split; [|split].
  - intros Hn. now rewrite extname_no_dot.
  - intros ->. apply andb_false_r.
  - intros base e b c -> Hb Hc He ->. rewrite andb_true_r.
    assert (Hlow : forall x, In x (chars e) -> In (lower x) (chars (toLowerCase e))).
    { intros x Hx. unfold toLowerCase. rewrite chars_unchars. now apply in_map. }
    assert (Hok : e <> "" /\ ~ In "."%char (chars e) /\ ~ In "/"%char (chars e)).
    { split; [|split].
      - intros ->. destruct He as [He|[He|[He|[]]]]; discriminate.
      - intros Hin. apply Hlow in Hin. change (lower ".") with "."%char in Hin.
        destruct He as [He|[He|[He|[]]]]; rewrite <- He in Hin; simpl in Hin;
          intuition discriminate.
      - intros Hin. apply Hlow in Hin. change (lower "/") with "/"%char in Hin.
        destruct He as [He|[He|[He|[]]]]; rewrite <- He in Hin; simpl in Hin;
          intuition discriminate. }
    destruct Hok as (Hne & Hdot & Hslash).
    rewrite (extname_dotted base e b c), toLowerCase_dot by assumption.
    destruct He as [He|[He|[He|[]]]]; rewrite <- He; reflexivity.
Qed.

Section Route.
Context `{Runtime}.

(** X17: What the upload route leaves behind when it refuses a request.  A
    file the filter refuses is not stored.  A file that passes the filter
    is stored before the handler runs, so a request refused for its missing
    user id (401) or its unknown user (404) leaves the uploaded file in
    [uploads/images] although no record is created. *)
Theorem refused_upload_keeps_stored_file (stamp aid : string) (now : Z)
    (req : request) (p : part) (db : gmap string user) (fs : files) :
  let res := post_upload stamp aid now req (Some p) db fs in
  let stored :=
    write_image (uniqueName stamp (originalname p)) (content p) fs in
  (fileFilter (originalname p) (part_mimetype p) = false ->
     res = (inl (400%nat, "Only .png, .jpg, and .jpeg files are allowed"), db, fs)) /\
  (fileFilter (originalname p) (part_mimetype p) = true ->
     (userId req = "" ->
        res = (inl (401%nat, "Authorization required"), db, stored)) /\
     (userId req <> "" -> db !! userId req = None ->
        res = (inl (404%nat, "User not found"), db, stored)) /\
     images stored !! uniqueName stamp (originalname p) = Some (content p)).
Proof.
  cbn zeta. unfold post_upload, receive. split.
  - now intros ->.
  - intros ->. unfold create_asset, findById. cbn [file userId with_file].
    split; [|split].
    + now intros ->.
    + intros Hne ->. now rewrite JsFacts.is_empty_false.
    + simpl. apply lookup_insert_eq.
Qed.

Lemma unlink_uploaded (name : string) (bytes : list Z) (fs : files) :
  images fs !! name = None ->
  unlink_image name (write_image name bytes fs) = fs.
Proof.
  intros Hfree. unfold unlink_image, write_image. cbn [images glbs].
  rewrite lookup_insert_eq, delete_insert_id by assumption. now destruct fs.
Qed.

Lemma unlink_uploaded_after (name other : string) (bytes buffer : list Z) (fs : files) :
  images fs !! name = None ->
  unlink_image name (write_image other buffer (write_image name bytes fs))
  = if decide (other = name) then fs else write_image other buffer fs.
Proof.
  intros Hfree. unfold unlink_image, write_image. cbn [images glbs].
  destruct (decide (other = name)) as [->|Hne].
  - rewrite lookup_insert_eq, insert_insert_eq, delete_insert_id by assumption.
    now destruct fs.
  - rewrite lookup_insert_ne, lookup_insert_eq by assumption.
    rewrite delete_insert_ne, delete_insert_id by auto. reflexivity.
Qed.

(** X18: Uploading an image through the whole request (multer, the creation
    of the asset, the segmentation phase, the reply) and then deleting the
    asset: for a new asset id and a stored name that was free, the
    deletion answers success, the collection is exactly as it was before
    the upload, the uploaded file is gone and [uploads/glb] is as it was.
    The image the segmentation phase stored, if any, stays in
    [uploads/images]: the directories are as before exactly when the phase
    stored nothing, which is the case when the reply carries no segmented
    image. *)
Theorem upload_then_delete_restores (env : outside) (stamp stamp' aid : string)
    (now : Z) (req : request) (p : part) (db : gmap string user) (fs : files)
    (u : user) :
  plain_name stamp ->
  fileFilter (originalname p) (part_mimetype p) = true ->
  userId req <> "" ->
  db !! userId req = Some u ->
  assets_id aid (assets u) = None ->
  images fs !! uniqueName stamp (originalname p) = None ->
  let res := upload env stamp stamp' aid now req (Some p) db fs in
  let del := delete_asset (userId req) aid res.1.2 res.2 in
  (exists reply cx seg,
     res.1.1 = inr (reply, cx, seg) /\ r_assetId reply = aid /\
     r_segmentedImageUrl reply = seg /\
     (seg = None -> del.2 = fs)) /\
  del.1.1 = Json 200 true /\
  del.1.2 = db /\
  glbs del.2 = glbs fs /\
  images del.2 !! uniqueName stamp (originalname p) = None /\
  (del.2 = fs \/
   exists buffer ext,
     image_name stamp' ext <> uniqueName stamp (originalname p) /\
     del.2 = write_image (image_name stamp' ext) buffer fs).
Proof.
  intros Hs Hfilter Hne Hu Hfresh Hfree. cbn zeta.
  unfold upload, post_upload, receive. rewrite Hfilter.
  unfold create_asset, findById.
  cbn [file userId with_file body protocol host filename].
  rewrite JsFacts.is_empty_false, Hu by assumption.
  set (uname := uniqueName stamp (originalname p)) in *.
  set (proto := or_default (protocol req) "http").
  set (hst := or_default (default "" (host req)) "localhost:5000").
  set (new := newAsset aid (proto +:+ "://" +:+ hst +:+ "/uploads/images/" +:+ uname)
                (providedSeed_of (assoc "seed" (body req))) now).
  set (cx := {| cx_uid := userId req; cx_user := {| assets := assets u ++ [new] |};
                cx_assetId := aid;
                cx_file := {| filename := uname; mimetype := part_mimetype p |};
                cx_body := body req;
                cx_providedSeed := providedSeed_of (assoc "seed" (body req));
                cx_protocol := proto; cx_host := hst;
                cx_imagePath := "/uploads/images/" +:+ uname;
                cx_imageUrl := proto +:+ "://" +:+ hst +:+ "/uploads/images/" +:+ uname |}).
  set (db1 := save (userId req) {| assets := assets u ++ [new] |} db).
  set (fs1 := write_image uname (content p) fs).
  assert (Hnew : assets_id aid (assets u ++ [new]) = Some new).
  { rewrite assets_id_app, Hfresh. unfold new. cbn [_id newAsset].
    now rewrite String.eqb_refl. }
  assert (Hpull : pull_id aid (assets u ++ [new]) = assets u).
  { rewrite pull_id_app, pull_id_fresh by assumption.
    rewrite pull_id_single by reflexivity. apply app_nil_r. }
  assert (Hback : forall doc, save (userId req) {| assets := assets u |}
                                (save (userId req) doc db) = db).
  { intros doc. rewrite user_eta. unfold save.
    rewrite insert_insert_eq. now apply insert_id. }
  assert (Hguard : is_empty (imageUrl new) = false /\
                   includes (imageUrl new) "/uploads/images/" = true /\
                   basename (imageUrl new) = uname).
  { apply JsFacts.image_locator_guard. unfold new. cbn [imageUrl newAsset].
    apply image_url_locator. now apply uniqueName_plain. }
  destruct Hguard as (He & Hi & Hb).
  assert (Hunlink : forall (a : asset) (files0 : files),
            imageUrl a = imageUrl new -> glbUrl a = None ->
            unlink_artifacts a files0 = unlink_image uname files0).
  { intros a files0 Himg Hglb. unfold unlink_artifacts.
    now rewrite Hglb, Himg, He, Hi, Hb. }
  assert (Hdel1 : delete_asset (userId req) aid db1 fs1 = (Json 200 true, db, fs)).
  { unfold delete_asset, findById, db1. rewrite save_lookup. cbn [assets].
    rewrite Hnew, Hpull, Hback, Hunlink by reflexivity. unfold fs1.
    now rewrite unlink_uploaded. }
  assert (Hdel2 : forall url buffer ext,
            delete_asset (userId req) aid
              (save (cx_uid cx)
                 {| assets := modify_id (cx_assetId cx) (set_segmentedImage url)
                                (assets {| assets := assets u ++ [new] |}) |} db1)
              (write_image (image_name stamp' ext) buffer fs1)
            = (Json 200 true, db,
               if decide (image_name stamp' ext = uname) then fs
               else write_image (image_name stamp' ext) buffer fs)).
  { intros url buffer ext. unfold delete_asset, findById. cbn [cx_uid cx_assetId cx].
    rewrite save_lookup. cbn [assets].
    rewrite (assets_id_modify_id _ _ _ _ Hnew) by reflexivity.
    rewrite pull_id_modify_id by reflexivity. rewrite Hpull.
    rewrite Hunlink by reflexivity. unfold fs1.
    rewrite unlink_uploaded_after by assumption.
    rewrite user_eta. unfold db1, save. rewrite !insert_insert_eq.
    now rewrite insert_id. }
  destruct (segment_own env stamp' cx db1 fs1 {| assets := assets u ++ [new] |} new)
    as [Hseg|(buffer & ext & Hseg)];
    [apply save_lookup | exact Hnew | |]; rewrite Hseg; cbn [fst snd].
  - rewrite Hdel1. cbn [fst snd].
    split; [|split; [reflexivity|split; [reflexivity|split; [reflexivity|
             split; [assumption|now left]]]]].
    eexists. eexists. eexists. split; [reflexivity|]. now repeat split.
  - rewrite Hdel2. cbn [fst snd].
    split; [|split; [reflexivity|split; [reflexivity|split; [|split]]]].
    + eexists. eexists. eexists. split; [reflexivity|].
      split; [reflexivity|]. split; [|discriminate].
      unfold respond, present. cbn [r_segmentedImageUrl].
      now rewrite image_url_nonempty.
    + now destruct (decide _).
    + destruct (decide (image_name stamp' ext = uname)) as [E|E]; [assumption|].
      simpl. now rewrite lookup_insert_ne.
    + destruct (decide (image_name stamp' ext = uname)) as [E|E]; [now left|].
      right. now exists buffer, ext.
Qed.

End Route.
End MulterFacts.

(** * The shape of the records the system reaches *)

Module ShapeFacts.
Import Js Sniffer Store Files Env Create Assets Lifecycle Shape.
Import StoreFacts CreateFacts.

Section System.
Context `{Runtime}.

Lemma includes_image_url (origin f : string) :
  includes (origin +:+ "/uploads/images/" +:+ f) "/uploads/images/" = true.
Proof. apply JsFacts.includes_app. Qed.

Lemma settled_pending (a : asset) :
  includes (imageUrl a) "/uploads/images/" = true ->
  status a = Pending -> glbUrl a = None -> settled a.
Proof. intros. split; [assumption|]. left. auto. Qed.

Lemma settled_mark_ready (url : string) (now : Z) (a : asset) :
  settled a -> settled (mark_ready url now a).
Proof. intros [Hi _]. split; [exact Hi|]. right. simpl. eauto. Qed.

Lemma settled_set_segmentedImage (url : string) (a : asset) :
  settled a -> settled (set_segmentedImage url a).
Proof. intros Hs. exact Hs. Qed.

Lemma create_asset_settled (aid : string) (now : Z) (req : request)
    (db db' : gmap string user) (cx : context) :
  all_assets settled db ->
  create_asset aid now req db = inr (db', cx) ->
  all_assets settled db' /\ Forall settled (assets (cx_user cx)).
Proof.
  intros Hdb. unfold create_asset, findById.
  destruct (file req) as [f|]; [|discriminate].
  destruct (is_empty (userId req)); [discriminate|].
  destruct (db !! userId req) as [user0|] eqn:Hu; [|discriminate].
  intros [= <- <-]. cbn [cx_user assets].
  match goal with |- _ /\ Forall settled ?l =>
    assert (Hl : Forall settled l) end.
  { apply Forall_app. split; [eapply Hdb; eauto|].
    constructor; [|constructor].
    apply settled_pending; try reflexivity. cbn [imageUrl newAsset].
    rewrite <- !JsFacts.append_assoc. rewrite JsFacts.append_assoc.
    apply includes_image_url. }
  split; [now apply all_assets_save | assumption].
Qed.

Lemma upload_image_settled (uid aid : string) (file : option string)
    (protocol : string) (host : option string) (now : Z)
    (db db' : gmap string user) (r : response asset) :
  all_assets settled db ->
  upload_image uid aid file protocol host now db = (r, db') ->
  all_assets settled db'.
Proof.
  intros Hdb. unfold upload_image, findById.
  destruct file as [fname|]; [|now intros [= <- <-]].
  destruct (db !! uid) as [user0|] eqn:Hu; intros [= <- <-]; [|assumption].
  apply all_assets_save; [assumption|]. simpl.
  constructor; [|eapply Hdb; eauto].
  apply settled_pending; try reflexivity. apply includes_image_url.
Qed.

Lemma attach_glb_settled (uid aid : string) (file : option string)
    (body : option (list (string * value))) (protocol : string)
    (host : option string) (now : Z) (db db' : gmap string user)
    (r : response asset) :
  all_assets settled db ->
  attach_glb uid aid file body protocol host now db = (r, db') ->
  all_assets settled db'.
Proof.
  intros Hdb. unfold attach_glb, findById.
  destruct (db !! uid) as [user0|] eqn:Hu; [|now intros [= <- <-]].
  destruct (assets_id aid (assets user0)); [|now intros [= <- <-]].
  match goal with |- context [match ?g with Some v => _ | None => _ end = _] =>
    destruct g as [v|] end; [|now intros [= <- <-]].
  destruct (stored_string v) as [url|]; intros [= <- <-]; [|assumption].
  apply all_assets_save; [assumption|]. simpl.
  apply Forall_modify_id; [intros; now apply settled_mark_ready | eapply Hdb; eauto].
Qed.

Lemma delete_asset_settled (uid aid : string) (db db' : gmap string user)
    (fs fs' : files) (r : response bool) :
  all_assets settled db ->
  delete_asset uid aid db fs = (r, db', fs') ->
  all_assets settled db'.
Proof.
  intros Hdb. unfold delete_asset, findById.
  destruct (db !! uid) as [user0|] eqn:Hu; [|now intros [= <- <- <-]].
  destruct (assets_id aid (assets user0)); intros [= <- <- <-]; [|assumption].
  apply all_assets_save; [assumption|]. simpl.
  apply Forall_pull_id. eapply Hdb; eauto.
Qed.

Lemma initial_settled (s : state) : initial s -> settled_everywhere s.
Proof.
  intros [Hempty Hup]. split.
  - intros uid u Hu. rewrite (Hempty uid u Hu). constructor.
  - rewrite Hup. constructor.
Qed.

Lemma step_settled (s s' : state) :
  settled_everywhere s -> step s s' -> settled_everywhere s'.
Proof.
  intros [Hdb Hup] Hstep.
  destruct Hstep as
    [ s uid Hfree
    | s req f bytes aid now db' cx Hfile Hcreate
    | s pre cx seg0 post env stamp db' fs' cx' seg Hsplit Hseg
    | s pre cx seg post env stamp now db' fs' cx' e Hsplit Hbg
    | s uid aid fname bytes protocol host now r db' Himg
    | s uid aid upload body protocol host now r db' fs' Hattach
    | s uid aid r db' fs' Hdel ];
    unfold settled_everywhere; simpl.
  - split; [|assumption]. intros uid' u'. rewrite lookup_insert.
    case_decide; [intros [= <-]; constructor | apply Hdb].
  - destruct (create_asset_settled _ _ _ _ _ _ Hdb Hcreate) as [Hdb' Hcx].
    split; [assumption | now constructor].
  - rewrite Hsplit in Hup. apply Forall_app in Hup as [Hpre Hrest].
    apply Forall_cons in Hrest as [Hcx Hpost].
    destruct (segment_preserves settled _ _ _ _ _ _ _ _ _
                settled_set_segmentedImage Hdb Hcx Hseg) as [Hdb' Hcx'].
    split; [assumption|]. apply Forall_app. split; [assumption | now constructor].
  - rewrite Hsplit in Hup. apply Forall_app in Hup as [Hpre Hrest].
    apply Forall_cons in Hrest as [Hcx Hpost].
    destruct (background_preserves settled _ _ _ _ _ _ _ _ _ _ _
                (fun url a => settled_mark_ready url now a) Hdb Hcx Hbg)
      as [Hdb' _].
    split; [assumption|]. apply Forall_app. now split.
  - split; [|assumption]. eapply upload_image_settled; eauto.
  - split; [|assumption]. unfold post_attach_glb in Hattach.
    destruct (attach_glb _ _ _ _ _ _ _ _) as [r0 db0] eqn:Ha.
    injection Hattach as <- <- <-. eapply attach_glb_settled; eauto.
  - split; [|assumption]. eapply delete_asset_settled; eauto.
Qed.

Lemma reachable_settled (s : state) : reachable s -> settled_everywhere s.
Proof.
  induction 1 as [s Hi | s s' _ IH Hstep].
  - now apply initial_settled.
  - eapply step_settled; eauto.
Qed.

(** X24: No route ever assigns the statuses [processing] and [failed] of the
    schema: in every state the system reaches, a record is either pending
    with no mesh, or ready with a mesh.  A failed generation leaves the
    record pending. *)
Theorem status_is_pending_or_ready (s : state) (uid : string) (u : user) (a : asset) :
  reachable s ->
  db s !! uid = Some u ->
  In a (assets u) ->
  (status a = Pending /\ glbUrl a = None) \/
  (status a = Ready /\ is_Some (glbUrl a)).
Proof.
  intros Hr Hu Ha. destruct (reachable_settled s Hr) as [Hdb _].
  specialize (Hdb uid u Hu). rewrite List.Forall_forall in Hdb.
  now destruct (Hdb a Ha).
Qed.

(** X25: Every record the system reaches has an [imageUrl] that holds
    [/uploads/images/]: a deletion always takes the branch that unlinks
    the file named by the last segment of [imageUrl]. *)
Theorem imageUrl_is_under_uploads (s : state) (uid : string) (u : user) (a : asset)
    (files0 : files) :
  reachable s ->
  db s !! uid = Some u ->
  In a (assets u) ->
  includes (imageUrl a) "/uploads/images/" = true /\
  images (unlink_artifacts a files0) !! basename (imageUrl a) = None.
Proof.
  intros Hr Hu Ha. destruct (reachable_settled s Hr) as [Hdb _].
  specialize (Hdb uid u Hu). rewrite List.Forall_forall in Hdb.
  destruct (Hdb a Ha) as [Hi _]. split; [assumption|].
  assert (He : is_empty (imageUrl a) = false).
  { destruct (imageUrl a); [discriminate | reflexivity]. }
  unfold unlink_artifacts. rewrite He, Hi. cbn [negb andb].
  destruct (glbUrl a) as [g|]; [|apply AssetsFacts.unlink_image_gone].
  destruct (negb (is_empty g) && includes g "/uploads/glb/");
    [|apply AssetsFacts.unlink_image_gone].
  rewrite (proj2 (AssetsFacts.unlink_glb_gone _ _)).
  apply AssetsFacts.unlink_image_gone.
Qed.

End System.
End ShapeFacts.

(** * The image sent to the generation and the types of the replies *)

Module SelectionFacts.
Import Js Sniffer Store Files Env Create Names.
Import MulterFacts.

Lemma is_image_cases (buf : list Z) :
  is_image (detectMimeFromBuffer buf) = true ->
  (12 <= length buf)%nat /\
  exists i, detectMimeFromBuffer buf = Some i /\
            In i [png_info; jpeg_info; webp_info].
Proof.
  unfold detectMimeFromBuffer.
  destruct (Nat.ltb_spec (length buf) 12) as [Hlt|Hge]; [discriminate|].
  intros Hi. split; [assumption|]. revert Hi.
  repeat match goal with
         | |- context [if ?b then _ else _] => destruct b
         end; simpl; try discriminate; intros _; eexists; (split; [reflexivity|]);
    simpl; auto.
Qed.

Lemma not_image_not_webp (buf : list Z) :
  is_image (detectMimeFromBuffer buf) = false ->
  detectMimeFromBuffer buf <> Some webp_info.
Proof. intros Hi E. rewrite E in Hi. discriminate. Qed.

Lemma before_none (c : ascii) (l : list ascii) : ~ In c l -> before c l = l.
Proof.
  induction l as [|x l IH]; simpl; intros Hn; [reflexivity|].
  destruct (Ascii.eqb_spec x c) as [->|_]; [exfalso; auto|].
  rewrite IH; auto.
Qed.

Section Route.
Context `{Runtime}.

(** X12: Whatever the background task sends to [/process_3d] is the content of
    a stored image file, of at least twelve bytes, that the sniffer
    classifies as PNG, JPEG or WebP, and it is declared with the MIME type
    of that classification: a GLB or a text file is never sent.  The
    conversion to PNG is tried only when the file read first is WebP and is
    the one sent; a WebP upload sent because the first file is no image
    goes out as WebP. *)
Theorem selected_source_is_sniffed_image (segmentedImageUrl : option string)
    (uploadName : string) (fs : files) (buf : list Z) (m : string)
    (d : option detected) :
  select_source segmentedImageUrl uploadName fs = Returns (Some (buf, m), d) ->
  (images fs !! segLocalPath_of segmentedImageUrl uploadName fs = Some buf \/
   images fs !! uploadName = Some buf) /\
  (12 <= length buf)%nat /\
  (exists i, detectMimeFromBuffer buf = Some i /\ m = mime i /\
             In i [png_info; jpeg_info; webp_info]) /\
  (transcode (buf, m) d = (buf, m) \/
   d = Some webp_info /\ detectMimeFromBuffer buf = Some webp_info /\
   exists png, png_of_webp buf = Some png /\
               transcode (buf, m) d = (png, "image/png")) /\
  (is_image d = false -> transcode (buf, m) d = (buf, m)).
Proof.
  unfold select_source.
  destruct (images fs !! segLocalPath_of _ _ _) as [segBuffer|] eqn:Hseg;
    [|discriminate].
  destruct (is_image (detectMimeFromBuffer segBuffer)) eqn:Hi; cbn [negb].
  - intros [= <- <- <-].
    destruct (is_image_cases _ Hi) as (Hlen & i & Hd & Hin).
    split; [now left|]. split; [assumption|]. split.
    { exists i. rewrite Hd. auto. }
    split; [|congruence].
    rewrite Hd. unfold transcode. cbn [fst].
    destruct Hin as [<-|[<-|[<-|[]]]]; cbn [ext png_info jpeg_info webp_info];
      try (now left).
    change ("webp" =? "webp")%string with true. cbv iota.
    destruct (png_of_webp segBuffer) as [png|]; [|now left].
    right. split; [reflexivity|]. split; [reflexivity|]. now exists png.
  - destruct (images fs !! uploadName) as [origBuf|] eqn:Horig; [|discriminate].
    destruct (is_image (detectMimeFromBuffer origBuf)) eqn:Ho; cbn [negb];
      [|discriminate].
    intros [= <- <- <-].
    destruct (is_image_cases _ Ho) as (Hlen & i & Hd & Hin).
    assert (Hsame : transcode (origBuf, mime_of (detectMimeFromBuffer origBuf))
                      (detectMimeFromBuffer segBuffer)
                    = (origBuf, mime_of (detectMimeFromBuffer origBuf))).
    { unfold transcode.
      destruct (detectMimeFromBuffer segBuffer) as [dseg|] eqn:Hds; [|reflexivity].
      destruct (String.eqb_spec (ext dseg) "webp") as [Hw|]; [|reflexivity].
      exfalso. revert Hi Hw. clear -Hds. unfold detectMimeFromBuffer in Hds.
      repeat match type of Hds with
             | (if ?b then _ else _) = _ => destruct b
             end; simplify_eq; simpl; discriminate. }
    split; [now right|]. split; [assumption|]. split.
    { exists i. rewrite Hd. auto. }
    split; [now left | auto].
Qed.

(** X11: The extension taken from a MIME type is its subtype, without a
    [+suffix] and without anything after a second slash; the default
    stands in for an empty subtype; and a type without a slash has none,
    which in the routes is the [TypeError] that ends the [try] block. *)
Theorem mime_ext_is_the_subtype (t sub rest dflt mime : string) :
  ~ In "/"%char (chars t) ->
  ~ In "/"%char (chars sub) -> ~ In "+"%char (chars sub) ->
  (rest = "" \/ exists r, rest = "+" +:+ r \/ rest = "/" +:+ r) ->
  mime_ext (t +:+ "/" +:+ sub +:+ rest) dflt = Some (or_default sub dflt) /\
  (~ In "/"%char (chars mime) -> mime_ext mime dflt = None).
Proof.
  intros Ht Hs Hp Hrest. split.
  - unfold mime_ext. rewrite JsFacts.chars_app.
    change (chars ("/" +:+ sub +:+ rest)) with ("/"%char :: chars (sub +:+ rest)).
    rewrite after_app_stop by assumption. rewrite JsFacts.chars_app.
    assert (E : before "+" (before "/" (chars sub ++ chars rest)) = chars sub).
    { destruct Hrest as [->|[r [->| ->]]].
      - change (chars "") with (@nil ascii). rewrite app_nil_r.
        rewrite (before_none "/") by assumption. now apply before_none.
      - change (chars ("+" +:+ r)) with ("+"%char :: chars r).
        rewrite before_app_nostop by assumption.
        change (before "/" ("+"%char :: chars r))
          with ("+"%char :: before "/" (chars r)).
        now apply JsFacts.before_app_stop.
      - change (chars ("/" +:+ r)) with ("/"%char :: chars r).
        rewrite JsFacts.before_app_stop by assumption.
        now apply before_none. }
    rewrite E, JsFacts.unchars_chars. reflexivity.
  - intros Hm. unfold mime_ext. now rewrite after_none.
Qed.

(** X10: A reply that is a data URI is decoded and stored whatever its bytes
    are.  The segmentation stores it under the subtype of its MIME type as
    extension; the mesh stage stores it as [generated-<stamp>.glb] and
    reports it as the mesh whatever the type says (a missing [glTF] header
    is only logged); a type without a slash makes both throw. *)
Theorem data_uri_is_stored_by_subtype (env : outside)
    (stamp protocol host s mime base64 : string) (fs : files) :
  startsWith s "data:" = true ->
  match_data_uri s = Some (mime, base64) ->
  (forall ext, mime_ext mime "png" = Some ext ->
     normalize_segmented env stamp protocol host (Str s) fs
     = Returns (write_image (image_name stamp ext) (base64_decode base64) fs,
                Some (image_url protocol host (image_name stamp ext)))) /\
  (forall ext, mime_ext mime "glb" = Some ext ->
     normalize_glb env stamp protocol host (Str s) fs
     = Returns (write_glb (glb_name stamp) (base64_decode base64) fs,
                Some (glb_url protocol host (glb_name stamp)))) /\
  (~ In "/"%char (chars mime) ->
     normalize_segmented env stamp protocol host (Str s) fs = Throws /\
     normalize_glb env stamp protocol host (Str s) fs = Throws).
Proof.
  intros Hd Hm. unfold normalize_segmented, normalize_glb. rewrite Hd, Hm.
  split; [|split].
  - now intros ext ->.
  - now intros ext ->.
  - intros Hno. unfold mime_ext. now rewrite after_none.
Qed.

End Route.
End SelectionFacts.

(** * The status poller of the Create page *)

Module ClientFacts.
Import Js Store Files Env Create Assets Client.

Section Poller.
Context `{Runtime}.

Lemma poll_loop_exhausts (server : nat -> polled) (needSegmented needGlb : bool)
    (remaining attempt : nat) :
  (forall k, (attempt <= k < attempt + remaining)%nat ->
     poll_turn needSegmented needGlb (server k) = None) ->
  poll_loop server needSegmented needGlb attempt remaining
  = (None, (attempt + remaining)%nat).
Proof.
  revert attempt. induction remaining as [|n IH]; intros attempt Hnone; simpl.
  - now rewrite Nat.add_0_r.
  - rewrite Hnone by lia. rewrite IH.
    + f_equal. lia.
    + intros k Hk. apply Hnone. lia.
Qed.

Lemma poll_loop_first (server : nat -> polled) (needSegmented needGlb : bool)
    (remaining attempt k : nat) (r : option PollResult) :
  (attempt <= k < attempt + remaining)%nat ->
  (forall j, (attempt <= j < k)%nat ->
     poll_turn needSegmented needGlb (server j) = None) ->
  poll_turn needSegmented needGlb (server k) = Some r ->
  poll_loop server needSegmented needGlb attempt remaining = (r, S k).
Proof.
  revert attempt. induction remaining as [|n IH]; intros attempt Hk Hnone Hr; simpl.
  - lia.
  - destruct (decide (attempt = k)) as [->|Hne].
    + now rewrite Hr.
    + rewrite Hnone by lia. apply IH; [lia | | assumption].
      intros j Hj. apply Hnone. lia.
Qed.

Lemma poll_loop_sound (server : nat -> polled) (needSegmented needGlb : bool)
    (remaining attempt fetches : nat) (res : PollResult) :
  poll_loop server needSegmented needGlb attempt remaining = (Some res, fetches) ->
  exists k, (attempt <= k < attempt + remaining)%nat /\ fetches = S k /\
            poll_turn needSegmented needGlb (server k) = Some (Some res).
Proof.
  revert attempt. induction remaining as [|n IH]; intros attempt; simpl.
  - discriminate.
  - destruct (poll_turn needSegmented needGlb (server attempt)) as [r|] eqn:Hr.
    + intros [= -> <-]. exists attempt. split; [lia|]. now split.
    + intros Hl. apply IH in Hl as (k & Hk & -> & Hres).
      exists k. split; [lia|]. now split.
Qed.

Lemma poll_turn_sound (needSegmented needGlb : bool) (r : polled) (res : PollResult) :
  poll_turn needSegmented needGlb r = Some (Some res) ->
  (needSegmented = true -> present (segmented res) = true) /\
  (needGlb = true -> present (glb res) = true) /\
  exists status body, r = Http status body /\ ok status = true /\
                      polled_asset res = body.
Proof.
  unfold poll_turn. destruct r as [|status body]; [discriminate|].
  destruct (ok status) eqn:Hok; cbn [negb].
  2:{ destruct (_ || _); discriminate. }
  set (seg := or_null (body ≫= fun a => segmentedImage (meta a))).
  set (g := or_null (body ≫= glbUrl)).
  destruct needSegmented, needGlb; cbn [andb negb];
    destruct (present seg) eqn:Hs; destruct (present g) eqn:Hg; cbn [andb];
    try discriminate; intros [= <-]; cbn [segmented glb polled_asset];
    (split; [|split]); try (intros; assumption); try discriminate; eauto.
Qed.

(** X26: When no fetch is decisive the poller returns [null] after exactly
    [maxAttempts] fetches; without an asset id it returns [null] without
    a single fetch. *)
Theorem pollForAsset_gives_up (server : nat -> polled) (assetId : string)
    (needSegmented needGlb : bool) (maxAttempts : nat) :
  (forall k, (k < maxAttempts)%nat ->
     poll_turn needSegmented needGlb (server k) = None) ->
  pollForAsset server assetId needSegmented needGlb maxAttempts
  = (None, if is_empty assetId then O else maxAttempts).
Proof.
  intros Hnone. unfold pollForAsset. destruct (is_empty assetId); [reflexivity|].
  rewrite poll_loop_exhausts; [reflexivity|]. intros k Hk. apply Hnone. lia.
Qed.

(** X27: The poller stops at the first decisive answer (a result, or an
    authorisation error), after one fetch per turn up to that one; what
    the server would answer later is never asked for. *)
Theorem pollForAsset_stops_at_first_answer (server : nat -> polled)
    (assetId : string) (needSegmented needGlb : bool) (maxAttempts k : nat)
    (r : option PollResult) :
  assetId <> "" ->
  (k < maxAttempts)%nat ->
  (forall j, (j < k)%nat -> poll_turn needSegmented needGlb (server j) = None) ->
  poll_turn needSegmented needGlb (server k) = Some r ->
  pollForAsset server assetId needSegmented needGlb maxAttempts = (r, S k) /\
  forall server',
    (forall j, (j <= k)%nat -> server' j = server j) ->
    pollForAsset server' assetId needSegmented needGlb maxAttempts = (r, S k).
Proof.
  intros Hid Hk Hnone Hr. unfold pollForAsset.
  rewrite JsFacts.is_empty_false by assumption. split.
  - apply poll_loop_first; [lia | | assumption]. intros j Hj. apply Hnone. lia.
  - intros server' Hsame. apply poll_loop_first; [lia | |].
    + intros j Hj. rewrite Hsame by lia. apply Hnone. lia.
    + now rewrite Hsame by lia.
Qed.

(** X28: A result of the poller always has what was asked for: it comes from a
    response with a success status, within [maxAttempts] fetches, and its
    segmented image, respectively its mesh, is a non-empty locator when
    that was needed. *)
Theorem pollForAsset_result_has_what_was_asked (server : nat -> polled)
    (assetId : string) (needSegmented needGlb : bool) (maxAttempts fetches : nat)
    (res : PollResult) :
  pollForAsset server assetId needSegmented needGlb maxAttempts
  = (Some res, fetches) ->
  assetId <> "" /\
  (1 <= fetches <= maxAttempts)%nat /\
  (needSegmented = true -> present (segmented res) = true) /\
  (needGlb = true -> present (glb res) = true) /\
  exists status, server (fetches - 1)%nat = Http status (polled_asset res) /\
                 ok status = true.
Proof.
  unfold pollForAsset. unfold is_empty.
  destruct (String.eqb_spec assetId "") as [->|Hid]; [discriminate|].
  intros Hl. apply poll_loop_sound in Hl as (k & Hk & -> & Hres).
  apply poll_turn_sound in Hres as (Hs & Hg & status & body & Hr & Hok & Hb).
  split; [assumption|]. split; [lia|]. split; [assumption|]. split; [assumption|].
  exists status. replace (S k - 1)%nat with k by lia. rewrite Hr, Hb. now split.
Qed.

(** X29: The poller in front of the GET route, on a collection that does not
    change.  For an asset that is not there (deleted, say) the 404 is not
    taken as final and every attempt is used.  For an asset that is
    there, the poll for the segmented image returns at the first fetch
    when the record has one and otherwise uses every attempt, also when
    the mesh is already there; the poll for the mesh does the same on
    [glbUrl]. *)
Theorem pollForAsset_on_get_asset (uid assetId : string) (db : gmap string user)
    (maxAttempts : nat) :
  assetId <> "" ->
  let server := fun _ : nat => answer (get_asset uid assetId db) in
  let found (a : asset) :=
    Some {| segmented := or_null (segmentedImage (meta a));
            glb := or_null (glbUrl a); polled_asset := Some a |} in
  (forall message needSegmented needGlb,
     get_asset uid assetId db = Error 404 message ->
     pollForAsset server assetId needSegmented needGlb maxAttempts
     = (None, maxAttempts)) /\
  (forall a, get_asset uid assetId db = Json 200 a ->
     pollForAsset server assetId true false (S maxAttempts)
     = (if present (segmentedImage (meta a)) then (found a, 1%nat)
        else (None, S maxAttempts)) /\
     pollForAsset server assetId false true (S maxAttempts)
     = (if present (glbUrl a) then (found a, 1%nat)
        else (None, S maxAttempts))).
Proof.
  intros Hid server found. unfold pollForAsset.
  rewrite JsFacts.is_empty_false by assumption.
  assert (Hpresent : forall x, present (or_null x) = present x).
  { intros x. unfold or_null. destruct (present x) eqn:E; [assumption | reflexivity]. }
  split.
  - intros message needSegmented needGlb Hget.
    apply (poll_loop_exhausts server needSegmented needGlb maxAttempts 0).
    intros k _. unfold server. rewrite Hget. reflexivity.
  - intros a Hget. split.
    + destruct (present (segmentedImage (meta a))) eqn:Hs.
      * apply (poll_loop_first server true false (S maxAttempts) 0 0); [lia | lia |].
        unfold server. rewrite Hget. unfold answer, poll_turn.
        change (ok 200) with true. cbn [negb andb mbind option_bind].
        now rewrite Hpresent, Hs.
      * apply (poll_loop_exhausts server true false (S maxAttempts) 0).
        intros k _. unfold server. rewrite Hget. unfold answer, poll_turn.
        change (ok 200) with true. cbn [negb andb mbind option_bind].
        now rewrite Hpresent, Hs.
    + destruct (present (glbUrl a)) eqn:Hg.
      * apply (poll_loop_first server false true (S maxAttempts) 0 0); [lia | lia |].
        unfold server. rewrite Hget. unfold answer, poll_turn.
        change (ok 200) with true. cbn [negb andb mbind option_bind].
        now rewrite Hpresent, Hg.
      * apply (poll_loop_exhausts server false true (S maxAttempts) 0).
        intros k _. unfold server. rewrite Hget. unfold answer, poll_turn.
        change (ok 200) with true. cbn [negb andb mbind option_bind].
        now rewrite Hpresent, Hg.
Qed.

End Poller.
End ClientFacts.

(** * The theorems above at the sample data *)

Module Checks.
Import Js Sniffer Store Files Env Create Assets Lifecycle Names Multer.
Import UploadRoute Client Sample Cases.

Lemma plain_s2 : plain_name "s2".
Proof.
  split; [discriminate|]. simpl. intros Hin.
  repeat (destruct Hin as [Hin|Hin]; [discriminate|]). exact Hin.
Qed.

Lemma plain_stamp : plain_name "1700-42".
Proof.
  split; [discriminate|]. simpl. intros Hin.
  repeat (destruct Hin as [Hin|Hin]; [discriminate|]). exact Hin.
Qed.

Lemma plain_other : plain_name "other.glb".
Proof.
  split; [discriminate|]. simpl. intros Hin.
  repeat (destruct Hin as [Hin|Hin]; [discriminate|]). exact Hin.
Qed.

Lemma segment_without_image_changes_nothing_witness :
  (segment offline "s1" cx1 db1 fs1).2 = None /\
  segment offline "s1" cx1 db1 fs1 = (db1, fs1, cx1, None).
Proof.
  split; [reflexivity|].
  exact (PipelineFacts.segment_without_image_changes_nothing
           offline "s1" cx1 db1 fs1 eq_refl).
Defined.

Lemma segment_records_what_it_reports_witness :
  db1 !! cx_uid cx1 = Some {| assets := [asset1] |} /\
  assets_id (cx_assetId cx1) [asset1] = Some asset1 /\
  (segment service "s1" cx1 db1 fs1).2 = Some segmented1 /\
  r_segmentedImageUrl
    (respond (segment service "s1" cx1 db1 fs1).1.2
       (segment service "s1" cx1 db1 fs1).2) = Some segmented1.
Proof.
  split; [reflexivity|]. split; [reflexivity|]. split; [reflexivity|].
  destruct (PipelineFacts.segment_records_what_it_reports
              service "s1" cx1 db1 fs1 {| assets := [asset1] |} asset1 segmented1
              eq_refl eq_refl eq_refl) as (_ & _ & _ & Hreply).
  exact Hreply.
Defined.

Lemma background_without_mesh_keeps_collection_witness :
  let res := background service_versioned "s2" 1900 cx1 None db0 fs1 in
  res.2 <> MarkedReady /\
  res.2 <> MarkedReadyFallback /\
  res.1.1.1 = db0 /\
  res.2 = Caught /\
  res.1.2 = with_user {| assets := [mark_ready generated1 1900 asset1] |} cx1.
Proof.
  cbv zeta.
  assert (H1 : (background service_versioned "s2" 1900 cx1 None db0 fs1).2
               <> MarkedReady) by (vm_compute; discriminate).
  assert (H2 : (background service_versioned "s2" 1900 cx1 None db0 fs1).2
               <> MarkedReadyFallback) by (vm_compute; discriminate).
  split; [exact H1|]. split; [exact H2|].
  destruct (PipelineFacts.background_without_mesh_keeps_collection
              service_versioned "s2" 1900 cx1 None db0 fs1 H1 H2) as [Hdb _].
  split; [exact Hdb|]. split; reflexivity.
Defined.

Lemma marked_ready_points_at_stored_mesh_witness :
  (background service "s2" 1900 cx1 None db1 fs1).2 = MarkedReady /\
  exists buffer,
    glbs (background service "s2" 1900 cx1 None db1 fs1).1.1.2 !! glb_name "s2"
    = Some buffer.
Proof.
  split; [reflexivity|].
  destruct (PipelineFacts.marked_ready_points_at_stored_mesh
              service "s2" 1900 cx1 None db1 fs1 eq_refl) as [Hfile _].
  exact Hfile.
Defined.

Lemma generated_mesh_is_removed_on_delete_witness :
  plain_name "s2" /\
  (background service "s2" 1900 cx1 None db1 fs1).2 = MarkedReady /\
  glbs (delete_asset "u1" "a1"
          (background service "s2" 1900 cx1 None db1 fs1).1.1.1
          (background service "s2" 1900 cx1 None db1 fs1).1.1.2).2
    !! glb_name "s2" = None.
Proof.
  split; [exact plain_s2|]. split; [reflexivity|].
  destruct (PipelineFacts.generated_mesh_is_removed_on_delete
              service "s2" 1900 cx1 None db1 fs1 plain_s2 eq_refl)
    as (_ & Hgone & _).
  exact Hgone.
Defined.

Lemma upload_leaves_other_users_witness :
  "u2" <> cx_uid cx1 /\
  (segment service "s1" cx1 db1 fs1).1.1.1 !! "u2" = db1 !! "u2" /\
  (background service "s2" 1900 cx1 None db1 fs1).1.1.1 !! "u2" = db1 !! "u2".
Proof.
  assert (Hne : "u2" <> cx_uid cx1) by discriminate.
  split; [exact Hne|].
  exact (PipelineFacts.upload_leaves_other_users
           service "s1" 1900 cx1 None db1 fs1 "u2" Hne).
Defined.


Lemma uploaded_image_is_served_witness :
  db1 !! "u1" = Some {| assets := [asset1] |} /\
  exists a,
    (upload_image "u1" "a1" (Some "x.png") "http" (Some "localhost:5000")
       1800 db1).1 = Json 201 a /\
    get_asset "u1" "a1"
      (upload_image "u1" "a1" (Some "x.png") "http" (Some "localhost:5000")
         1800 db1).2 = Json 200 a.
Proof.
  split; [reflexivity|].
  destruct (RoutesFacts.uploaded_image_is_served
              "u1" "a1" "x.png" "http" (Some "localhost:5000") 1800 db1
              {| assets := [asset1] |} eq_refl) as (a & Hr & Hg & _).
  exists a. split; assumption.
Defined.

Lemma delete_asset_keeps_other_files_witness :
  db2 !! "u1" = Some {| assets := [asset1_segmented] |} /\
  assets_id "a1" [asset1_segmented] = Some asset1_segmented /\
  "processed-s1.png" <> basename (imageUrl asset1_segmented) /\
  images (delete_asset "u1" "a1" db2 fs1_segmented).2 !! "processed-s1.png"
  = images fs1_segmented !! "processed-s1.png".
Proof.
  assert (Hne : "processed-s1.png" <> basename (imageUrl asset1_segmented))
    by (vm_compute; discriminate).
  split; [reflexivity|]. split; [reflexivity|]. split; [exact Hne|].
  destruct (RoutesFacts.delete_asset_keeps_other_files
              "u1" "a1" db2 fs1_segmented {| assets := [asset1_segmented] |}
              asset1_segmented eq_refl eq_refl) as (Himg & _).
  exact (Himg "processed-s1.png" Hne).
Defined.

Lemma attached_url_names_the_deleted_file_witness :
  db1 !! "u1" = Some {| assets := [asset1] |} /\
  assets_id "a1" [asset1] = Some asset1 /\
  assoc "glbUrl" [("glbUrl", Str foreign_url)] = Str foreign_url /\
  glb_locator foreign_url "other.glb" /\
  glbs fs1_with_mesh !! "other.glb" = Some glb_bytes /\
  glbs (delete_asset "u1" "a1"
          (attach_glb "u1" "a1" None (Some [("glbUrl", Str foreign_url)])
             "http" (Some "localhost:5000") 1800 db1).2
          fs1_with_mesh).2 !! "other.glb" = None.
Proof.
  assert (Hloc : glb_locator foreign_url "other.glb").
  { split; [exact plain_other|]. now exists "http://elsewhere.example". }
  split; [reflexivity|]. split; [reflexivity|]. split; [reflexivity|].
  split; [exact Hloc|]. split; [reflexivity|].
  destruct (RoutesFacts.attached_url_names_the_deleted_file
              "u1" "a1" [("glbUrl", Str foreign_url)] foreign_url "other.glb"
              "http" (Some "localhost:5000") 1800 db1 fs1_with_mesh
              {| assets := [asset1] |} asset1 eq_refl eq_refl eq_refl Hloc)
    as (_ & _ & Hgone).
  exact Hgone.
Defined.

Lemma refused_attach_keeps_uploaded_file_witness :
  (forall u, db1 !! "u1" = Some u -> assets_id "zz" (assets u) = None) /\
  (post_attach_glb "u1" "zz" (Some ("m.glb", glb_bytes)) None
     "http" (Some "localhost:5000") 1800 db1 fs1).1.2 = db1 /\
  glbs (post_attach_glb "u1" "zz" (Some ("m.glb", glb_bytes)) None
          "http" (Some "localhost:5000") 1800 db1 fs1).2 !! "m.glb"
  = Some glb_bytes.
Proof.
  assert (Hmiss : forall u, db1 !! "u1" = Some u -> assets_id "zz" (assets u) = None).
  { intros u Hu. unfold db1 in Hu. apply lookup_singleton_Some in Hu as [_ <-].
    reflexivity. }
  split; [exact Hmiss|].
  destruct (RoutesFacts.refused_attach_keeps_uploaded_file
              "u1" "zz" "m.glb" glb_bytes None "http" (Some "localhost:5000")
              1800 db1 fs1 Hmiss) as (_ & Hdb & Hfile).
  split; assumption.
Defined.

Lemma unrecognized_mesh_string_is_dropped_witness :
  unrecognized "oops" /\
  normalize_glb offline "s2" "http" "localhost:5000" (Str "oops") fs1
  = Returns (fs1, None).
Proof.
  assert (Hs : unrecognized "oops") by (repeat split).
  split; [exact Hs|].
  exact (CreateFacts.unrecognized_mesh_string_is_dropped
           offline "s2" "http" "localhost:5000" fs1 "oops" Hs).
Defined.

Lemma uniqueName_is_plain_witness :
  plain_name "1700-42" /\ plain_name (uniqueName "1700-42" "photo.PNG").
Proof.
  split; [exact plain_stamp|].
  destruct (MulterFacts.uniqueName_is_plain "1700-42" "photo.PNG" plain_stamp)
    as [Hplain _].
  exact Hplain.
Defined.

Lemma upload_then_delete_restores_witness :
  let res := upload service "1700-42" "s1" "a1" 1700 req0 (Some part1) db0 empty_files in
  let del := delete_asset (userId req0) "a1" res.1.2 res.2 in
  plain_name "1700-42" /\
  fileFilter (originalname part1) (part_mimetype part1) = true /\
  userId req0 <> "" /\
  db0 !! userId req0 = Some {| assets := [] |} /\
  assets_id "a1" [] = None /\
  images empty_files !! uniqueName "1700-42" (originalname part1) = None /\
  del.1.2 = db0 /\
  images del.2 !! uniqueName "1700-42" (originalname part1) = None /\
  images del.2 !! "processed-s1.png" = Some png_bytes.
Proof.
  cbv zeta.
  assert (Hne : userId req0 <> "") by discriminate.
  split; [exact plain_stamp|]. split; [reflexivity|]. split; [exact Hne|].
  split; [reflexivity|]. split; [reflexivity|]. split; [reflexivity|].
  destruct (MulterFacts.upload_then_delete_restores
              service "1700-42" "s1" "a1" 1700 req0 part1 db0 empty_files
              {| assets := [] |}
              plain_stamp eq_refl Hne eq_refl eq_refl eq_refl)
    as (_ & _ & Hdb & _ & Hgone & _).
  split; [exact Hdb|]. split; [exact Hgone|]. reflexivity.
Defined.

Lemma status_is_pending_or_ready_witness :
  reachable state2 /\
  db state2 !! "u1" = Some {| assets := [mark_ready generated1 1900 asset1] |} /\
  In (mark_ready generated1 1900 asset1) [mark_ready generated1 1900 asset1] /\
  (status (mark_ready generated1 1900 asset1) = Pending /\
   glbUrl (mark_ready generated1 1900 asset1) = None \/
   status (mark_ready generated1 1900 asset1) = Ready /\
   is_Some (glbUrl (mark_ready generated1 1900 asset1))).
Proof.
  split; [exact Scenarios.state2_reachable|]. split; [reflexivity|].
  split; [now left|].
  exact (ShapeFacts.status_is_pending_or_ready state2 "u1"
           {| assets := [mark_ready generated1 1900 asset1] |}
           (mark_ready generated1 1900 asset1)
           Scenarios.state2_reachable eq_refl (or_introl eq_refl)).
Defined.

Lemma imageUrl_is_under_uploads_witness :
  reachable state2 /\
  db state2 !! "u1" = Some {| assets := [mark_ready generated1 1900 asset1] |} /\
  In (mark_ready generated1 1900 asset1) [mark_ready generated1 1900 asset1] /\
  includes (imageUrl (mark_ready generated1 1900 asset1)) "/uploads/images/" = true.
Proof.
  split; [exact Scenarios.state2_reachable|]. split; [reflexivity|].
  split; [now left|].
  destruct (ShapeFacts.imageUrl_is_under_uploads state2 "u1"
              {| assets := [mark_ready generated1 1900 asset1] |}
              (mark_ready generated1 1900 asset1) fs1
              Scenarios.state2_reachable eq_refl (or_introl eq_refl))
    as [Hi _].
  exact Hi.
Defined.

Lemma selected_source_is_sniffed_image_witness :
  select_source None "1700-42.png" fs1
  = Returns (Some (png_bytes, "image/png"), Some png_info) /\
  (12 <= length png_bytes)%nat /\
  transcode (png_bytes, "image/png") (Some png_info) = (png_bytes, "image/png").
Proof.
  split; [reflexivity|].
  destruct (SelectionFacts.selected_source_is_sniffed_image
              None "1700-42.png" fs1 png_bytes "image/png" (Some png_info) eq_refl)
    as (_ & Hlen & _ & _ & _).
  split; [exact Hlen | reflexivity].
Defined.

Lemma mime_ext_is_the_subtype_witness :
  ~ In "/"%char (chars "image") /\
  ~ In "/"%char (chars "svg") /\ ~ In "+"%char (chars "svg") /\
  mime_ext ("image" +:+ "/" +:+ "svg" +:+ "+xml") "png" = Some "svg".
Proof.
  assert (H1 : ~ In "/"%char (chars "image"))
    by (simpl; intros Hin; repeat (destruct Hin as [Hin|Hin]; [discriminate|]);
        exact Hin).
  assert (H2 : ~ In "/"%char (chars "svg"))
    by (simpl; intros Hin; repeat (destruct Hin as [Hin|Hin]; [discriminate|]);
        exact Hin).
  assert (H3 : ~ In "+"%char (chars "svg"))
    by (simpl; intros Hin; repeat (destruct Hin as [Hin|Hin]; [discriminate|]);
        exact Hin).
  split; [exact H1|]. split; [exact H2|]. split; [exact H3|].
  destruct (SelectionFacts.mime_ext_is_the_subtype
              "image" "svg" "+xml" "png" "png" H1 H2 H3
              (or_intror (ex_intro _ "xml" (or_introl eq_refl)))) as [Hsub _].
  exact Hsub.
Defined.

Lemma data_uri_is_stored_by_subtype_witness :
  startsWith "data:image/png;base64,iVBORw0KGgo=" "data:" = true /\
  match_data_uri "data:image/png;base64,iVBORw0KGgo="
    = Some ("image/png", "iVBORw0KGgo=") /\
  mime_ext "image/png" "glb" = Some "png" /\
  normalize_glb offline "s2" "http" "localhost:5000"
    (Str "data:image/png;base64,iVBORw0KGgo=") fs1
  = Returns (write_glb (glb_name "s2") (base64_decode "iVBORw0KGgo=") fs1,
             Some (glb_url "http" "localhost:5000" (glb_name "s2"))).
Proof.
  assert (Hd : startsWith "data:image/png;base64,iVBORw0KGgo=" "data:" = true)
    by reflexivity.
  assert (Hm : match_data_uri "data:image/png;base64,iVBORw0KGgo="
               = Some ("image/png", "iVBORw0KGgo=")) by reflexivity.
  split; [exact Hd|]. split; [exact Hm|]. split; [reflexivity|].
  destruct (SelectionFacts.data_uri_is_stored_by_subtype
              offline "s2" "http" "localhost:5000"
              "data:image/png;base64,iVBORw0KGgo=" "image/png" "iVBORw0KGgo=" fs1
              Hd Hm) as (_ & Hglb & _).
  exact (Hglb "png" eq_refl).
Defined.

Lemma pollForAsset_gives_up_witness :
  (forall k, (k < 3)%nat -> poll_turn true true (server_missing k) = None) /\
  pollForAsset server_missing "a1" true true 3 = (None, 3%nat).
Proof.
  assert (Hnone : forall k, (k < 3)%nat -> poll_turn true true (server_missing k) = None)
    by (intros k _; reflexivity).
  split; [exact Hnone|].
  exact (ClientFacts.pollForAsset_gives_up server_missing "a1" true true 3 Hnone).
Defined.

Lemma pollForAsset_stops_at_first_answer_witness :
  "a1" <> "" /\ (2 < 20)%nat /\
  (forall j, (j < 2)%nat -> poll_turn true false (server_refusing j) = None) /\
  poll_turn true false (server_refusing 2) = Some None /\
  pollForAsset server_refusing "a1" true false 20 = (None, 3%nat).
Proof.
  assert (Hid : "a1" <> "") by discriminate.
  assert (Hk : (2 < 20)%nat) by lia.
  assert (Hnone : forall j, (j < 2)%nat ->
            poll_turn true false (server_refusing j) = None).
  { intros j Hj. destruct j as [|[|j]]; [reflexivity | reflexivity | lia]. }
  split; [exact Hid|]. split; [exact Hk|]. split; [exact Hnone|].
  split; [reflexivity|].
  destruct (ClientFacts.pollForAsset_stops_at_first_answer
              server_refusing "a1" true false 20 2 None Hid Hk Hnone eq_refl)
    as [Hstop _].
  exact Hstop.
Defined.

Lemma pollForAsset_result_has_what_was_asked_witness :
  pollForAsset server_segmented "a1" true false 20 = (Some result_segmented, 1%nat) /\
  present (segmented result_segmented) = true.
Proof.
  split; [reflexivity|].
  destruct (ClientFacts.pollForAsset_result_has_what_was_asked
              server_segmented "a1" true false 20 1 result_segmented eq_refl)
    as (_ & _ & Hseg & _).
  exact (Hseg eq_refl).
Defined.

Lemma pollForAsset_on_get_asset_witness :
  "a1" <> "" /\
  get_asset "u1" "a1" db2 = Json 200 asset1_segmented /\
  pollForAsset (fun _ => answer (get_asset "u1" "a1" db2)) "a1" false true 20
  = (None, 20%nat).
Proof.
  assert (Hid : "a1" <> "") by discriminate.
  split; [exact Hid|]. split; [reflexivity|].
  destruct (ClientFacts.pollForAsset_on_get_asset "u1" "a1" db2 19 Hid)
    as [_ Hfound].
  destruct (Hfound asset1_segmented eq_refl) as [_ Hglb].
  exact Hglb.
Defined.



(** The white space that [\s] matches is dropped in its UTF-8 form too: a
    no-break space (C2 A0), an ideographic space (E3 80 80) and a byte order
    mark (EF BB BF) go, the bytes C3 A0 of another character stay. *)
Example strip_spaces_on_utf8 :
  let bytes l := unchars (map ascii_of_nat l) in
  strip_spaces (bytes [65; 194; 160; 66; 32; 227; 128; 128; 67; 239; 187; 191; 9])%nat
    = "ABC" /\
  strip_spaces (bytes [65; 195; 160; 66])%nat = bytes [65; 195; 160; 66]%nat.
Proof. split; reflexivity. Qed.

(** [Number] of a field sent several times reads the comma-separated form
    of the list: one element gives its number, none gives [0], several give
    [NaN]. *)
Example seed_of_repeated_field :
  providedSeed_of (Arr [Str "5"]) = Some (Some 5) /\
  providedSeed_of (Arr []) = Some (Some 0) /\
  providedSeed_of (Arr [Str "5"; Str "6"]) = Some None /\
  providedSeed_of (Str "") = None.
Proof. repeat split. Qed.

End Checks.
